(** * The Keras-on-SageMaker debugger notebook

    The repository is one Jupyter notebook, [debugger.ipynb].  Its code cells
    download Fashion-MNIST, store the two splits as [.npz] archives, upload
    them to S3, train a TensorFlow estimator with two debugger rules, read the
    job description once, and query the tensors the debugger saved.

    The embedding follows the notebook cell by cell.  A cell is a computation
    in a state-and-exception monad over the kernel's namespace, the heap of
    dict and list objects, the local file system, the displayed output and a
    log of the calls made to collaborators.  The collaborators (Keras,
    the SageMaker SDK, boto3, smdebug, the shell) are not code of the
    repository: what they answer is a parameter, [env]. *)

From stdpp Require Import base strings gmap list.
From Stdlib Require Import ZArith Lia Ascii.

(** ** Data *)

(** A numpy array: its shape and its items in row-major order. *)
Record ndarray := { shape : list nat; items : list Z }.


(** What a local file holds: an [.npz] archive maps names to arrays. *)
Inductive content :=
| Npz (entries : gmap string ndarray)
| Raw (text : string).

Inductive node :=
| Dir
| File (c : content).

(** Python values that travel inside a response: scalars, and references to
    the dict and list objects of the heap. *)
Definition loc := nat.

Inductive value :=
| VNone
| VBool (b : bool)
| VInt (z : Z)
| VFloat (lit : string)
| VStr (s : string)
| VTime (t : Z)
| VRef (l : loc).

Inductive obj :=
| ODict (d : gmap string value)
| OList (l : list value).

(** A response as boto3 receives it, before it is parsed into objects. *)
Inductive json :=
| JNull
| JBool (b : bool)
| JInt (z : Z)
| JFloat (lit : string)
| JStr (s : string)
| JTime (t : Z)
| JList (l : list json)
| JDict (kvs : list (string * json)).

Record session := { default_bucket : string; boto_region_name : string }.

Inductive rule := loss_not_decreasing | overfit.

(** The keyword arguments of [TensorFlow(...)]. *)
Record job_spec := {
  entry_point : string;
  role : string;
  train_instance_count : Z;
  train_instance_type : string;
  framework_version : string;
  script_mode : bool;
  py_version : string;
  rules : list rule
}.

(** An estimator object: its arguments, the session it made for itself, and
    the job [fit] started last. *)
Record estimator := {
  spec : job_spec;
  sagemaker_session : session;
  latest_training_job : option string
}.

(** The recorded values of one tensor, by step; a value is kept as the
    literal the store returns. *)
Definition series := list (Z * string).

(** What a name of the kernel's namespace can be bound to. *)
Inductive binding :=
| BVal (v : value)
| BArr (a : ndarray)
| BSession (s : session)
| BEstimator (e : estimator)
| BTrial (t : nat)
| BSeries (l : series).

Inductive exn :=
| NameError (x : string)
| KeyError (k : string)
| TypeError
| AttributeError (a : string)
| FileNotFoundError (p : string)
| FileExistsError (p : string)
| IsADirectoryError (p : string)
| SystemError
| CalledProcessError (script : string)
| ExternalError (origin msg : string).

Inductive res (A : Type) :=
| Ok (a : A)
| Raise (e : exn).
Arguments Ok {A} a.
Arguments Raise {A} e.

Definition failure {A} (r : res A) : option exn :=
  match r with Ok _ => None | Raise e => Some e end.

(** ** Calls to collaborators *)

Inductive event :=
| EvSession
| EvGetExecutionRole
| EvLoadData
| EvMakedirs (p : string)
| EvSavez (p : string)
| EvSh (script : string) (args : list string)
| EvOpenRead (p : string)
| EvS3Put (bucket key : string)
| EvTensorFlow (a : job_spec)
| EvFit (inputs : list (string * string))
| EvDescribeTrainingJob (name : string)
| EvCreateTrial (path : string)
| EvTensorNames (t : nat)
| EvTensor (t : nat) (name : string)
| EvValues (t : nat) (name : string).

(** What [fit] can do: raise before a job exists, raise after the job was
    created (the estimator already knows its name), or return. *)
Inductive fit_outcome :=
| FitRejected (e : exn)
| FitFailed (job : string) (e : exn)
| FitCompleted (job : string).

(** The answers of the collaborators.  A run calls each of them at most once
    with given arguments, so an answer is a function of the arguments. *)
Record env := {
  sdk_version : string;
  Session_ext : res session;
  get_execution_role_ext : res string;
  load_data_ext : res ((ndarray * ndarray) * (ndarray * ndarray));
  sh_ext : string → list string → gmap string node → res string;
  str_ext : gmap loc obj → binding → string;
  s3_put_ext : string → string → content → res unit;
  TensorFlow_ext : job_spec → res session;
  fit_ext : estimator → list (string * string) → fit_outcome;
  describe_training_job_ext : string → res json;
  create_trial_ext : string → res nat;
  tensor_names_ext : nat → res (list string);
  tensor_ext : nat → string → res unit;
  values_ext : nat → string → res series
}.

(** ** The kernel's state *)

Inductive shown :=
| SText (s : string)
| SVal (v : value)
| SObj (o : obj)
| SNames (l : list string)
| SBind (b : binding).

Record world := {
  ns : gmap string binding;
  heap : gmap loc obj;
  fs : gmap string node;
  out : list shown;
  log : list (event * option exn)
}.

Definition set_ns (f : gmap string binding → gmap string binding) (w : world) : world :=
  {| ns := f (ns w); heap := heap w; fs := fs w; out := out w; log := log w |}.
Definition set_heap (f : gmap loc obj → gmap loc obj) (w : world) : world :=
  {| ns := ns w; heap := f (heap w); fs := fs w; out := out w; log := log w |}.
Definition set_fs (f : gmap string node → gmap string node) (w : world) : world :=
  {| ns := ns w; heap := heap w; fs := f (fs w); out := out w; log := log w |}.
Definition add_out (s : shown) (w : world) : world :=
  {| ns := ns w; heap := heap w; fs := fs w; out := out w ++ [s]; log := log w |}.
Definition add_log (e : event) (f : option exn) (w : world) : world :=
  {| ns := ns w; heap := heap w; fs := fs w; out := out w; log := log w ++ [(e, f)] |}.

(** A fresh kernel in a working directory holding [files]. *)
Definition fresh_kernel (files : gmap string node) : world :=
  {| ns := ∅; heap := ∅; fs := files; out := []; log := [] |}.

(** ** The monad of cells *)

Definition M (A : Type) : Type := world → res A * world.

Global Instance M_ret : MRet M := λ A a w, (Ok a, w).
Global Instance M_bind : MBind M := λ A B f m w,
  match m w with
  | (Ok a, w') => f a w'
  | (Raise e, w') => (Raise e, w')
  end.

Definition raise {A} (e : exn) : M A := λ w, (Raise e, w).
Definition lift {A} (r : res A) : M A := λ w, (r, w).
Definition get_world : M world := λ w, (Ok w, w).
Definition modify (f : world → world) : M unit := λ w, (Ok (), f w).

(** A call to a collaborator is logged with its outcome. *)
Definition call {A} (e : event) (r : res A) : M A :=
  λ w, (r, add_log e (failure r) w).

(** ** Python: names, subscription, [+], [pop], iteration, display *)

Definition load_name (x : string) : M binding := λ w,
  match ns w !! x with
  | Some b => (Ok b, w)
  | None => (Raise (NameError x), w)
  end.

Definition store_name (x : string) (b : binding) : M unit :=
  modify (set_ns <[x := b]>).

(** Every name of the notebook is assigned in one place, with one kind of
    object.  Reading a name at the kind its assignment gives it is what the
    cells do; a binding of another kind is answered with [TypeError]. *)
Definition name_val (x : string) : M value :=
  b ← load_name x; match b with BVal v => mret v | _ => raise TypeError end.
Definition name_str (x : string) : M string :=
  v ← name_val x; match v with VStr s => mret s | _ => raise TypeError end.
Definition name_arr (x : string) : M ndarray :=
  b ← load_name x; match b with BArr a => mret a | _ => raise TypeError end.
Definition name_session (x : string) : M session :=
  b ← load_name x; match b with BSession s => mret s | _ => raise TypeError end.
Definition name_estimator (x : string) : M estimator :=
  b ← load_name x; match b with BEstimator e => mret e | _ => raise TypeError end.
Definition name_trial (x : string) : M nat :=
  b ← load_name x; match b with BTrial t => mret t | _ => raise TypeError end.
Definition name_series (x : string) : M series :=
  b ← load_name x; match b with BSeries l => mret l | _ => raise TypeError end.

(** [c[k]] for a str key [k]. *)
Definition py_getitem (c : value) (k : string) : M value := λ w,
  match c with
  | VRef l =>
      match heap w !! l with
      | Some (ODict d) =>
          match d !! k with
          | Some v => (Ok v, w)
          | None => (Raise (KeyError k), w)
          end
      | Some (OList _) => (Raise TypeError, w)
      | None => (Raise SystemError, w)
      end
  | _ => (Raise TypeError, w)
  end.

(** [a + s] where [s] is a str: only a str can be added to a str. *)
Definition py_add_str (a : value) (s : string) : M value :=
  match a with
  | VStr x => mret (VStr (x +:+ s))
  | _ => raise TypeError
  end.

(** [c.pop(k)] for a str key [k]: only a dict has such a [pop]. *)
Definition py_pop (c : value) (k : string) : M value := λ w,
  match c with
  | VRef l =>
      match heap w !! l with
      | Some (ODict d) =>
          match d !! k with
          | Some v => (Ok v, set_heap <[l := ODict (delete k d)]> w)
          | None => (Raise (KeyError k), w)
          end
      | Some (OList _) => (Raise TypeError, w)
      | None => (Raise SystemError, w)
      end
  | _ => (Raise (AttributeError "pop"), w)
  end.

Fixpoint chars (s : string) : list value :=
  match s with
  | EmptyString => []
  | String c r => VStr (String c EmptyString) :: chars r
  end.

(** The items a [for] loop visits.  The loop of the notebook does not change
    the length of what it iterates over, so the items are fixed on entry.
    The keys of a dict come in the order of the map: a dict of the model
    does not record the order in which its keys were inserted, which is the
    order Python follows.  The notebook iterates over a list. *)
Definition py_iter (c : value) : M (list value) := λ w,
  match c with
  | VRef l =>
      match heap w !! l with
      | Some (OList vs) => (Ok vs, w)
      | Some (ODict d) => (Ok (VStr <$> (map_to_list d).*1), w)
      | None => (Raise SystemError, w)
      end
  | VStr s => (Ok (chars s), w)
  | _ => (Raise TypeError, w)
  end.

Fixpoint for_each (vs : list value) (body : value → M unit) : M unit :=
  match vs with
  | [] => mret ()
  | v :: vs => body v;; for_each vs body
  end.

(** [print], [pprint.pprint] and the value a cell ends with all reach the
    output; an object is shown as it is at that moment. *)
Definition render (h : gmap loc obj) (v : value) : shown :=
  match v with
  | VStr s => SText s
  | VRef l => match h !! l with Some o => SObj o | None => SVal v end
  | _ => SVal v
  end.

Definition display (s : shown) : M unit := modify (add_out s).
Definition print (v : value) : M unit := λ w, (Ok (), add_out (render (heap w) v) w).
Definition pprint := print.

(** boto3 parses a response into fresh objects. *)
Definition new_obj (o : obj) (h : gmap loc obj) : value * gmap loc obj :=
  let l := fresh (dom h) in (VRef l, <[l := o]> h).

Definition alloc_items (alloc : json → gmap loc obj → value * gmap loc obj) :
    list json → gmap loc obj → list value * gmap loc obj :=
  fix items js h :=
    match js with
    | [] => ([], h)
    | j :: js =>
        let '(v, h1) := alloc j h in
        let '(vs, h2) := items js h1 in
        (v :: vs, h2)
    end.

(** A key that occurs again later in an object takes the later value, and
    a member whose value is null is left out of the dict: botocore parses a
    member of a response only when its value is not [None]. *)
Definition alloc_fields (alloc : json → gmap loc obj → value * gmap loc obj) :
    list (string * json) → gmap string value → gmap loc obj →
    gmap string value * gmap loc obj :=
  fix fields kvs d h :=
    match kvs with
    | [] => (d, h)
    | (k, JNull) :: kvs => fields kvs (delete k d) h
    | (k, j) :: kvs =>
        let '(v, h1) := alloc j h in
        fields kvs (<[k := v]> d) h1
    end.

Fixpoint alloc_json (j : json) (h : gmap loc obj) : value * gmap loc obj :=
  match j with
  | JNull => (VNone, h)
  | JBool b => (VBool b, h)
  | JInt z => (VInt z, h)
  | JFloat x => (VFloat x, h)
  | JStr s => (VStr s, h)
  | JTime t => (VTime t, h)
  | JList js =>
      let '(vs, h') := alloc_items alloc_json js h in
      new_obj (OList vs) h'
  | JDict kvs =>
      let '(d, h') := alloc_fields alloc_json kvs ∅ h in
      new_obj (ODict d) h'
  end.

Definition parse (j : json) : M value := λ w,
  let '(v, h) := alloc_json j (heap w) in (Ok v, set_heap (λ _, h) w).

(** ** The libraries the cells call *)

(** [os.path.split]: the part after the last slash is the file's name. *)
Fixpoint rsplit_slash (s : string) : option (string * string) :=
  match s with
  | EmptyString => None
  | String c r =>
      match rsplit_slash r with
      | Some (h, t) => Some (String c h, t)
      | None => if decide (c = "/"%char) then Some (EmptyString, r) else None
      end
  end.

Definition basename (p : string) : string :=
  match rsplit_slash p with Some (_, t) => t | None => p end.

Definition dirname (p : string) : string :=
  match rsplit_slash p with Some (h, _) => h | None => "" end.

(** Paths are relative to the working directory; the notebook writes
    ["./data/..."] and reads ["data/..."], which name the same file. *)
Fixpoint normpath (p : string) : string :=
  match p with
  | String "."%char (String "/"%char r) => normpath r
  | _ => p
  end.

Fixpoint ends_with (suffix s : string) : bool :=
  bool_decide (s = suffix) ||
  match s with
  | EmptyString => false
  | String _ r => ends_with suffix r
  end.

(** [os.makedirs(p, exist_ok=...)] for a directory of the working directory. *)
Definition makedirs (p : string) (exist_ok : bool) : M unit := λ w,
  let q := normpath p in
  match fs w !! q with
  | Some Dir =>
      if exist_ok then (Ok (), add_log (EvMakedirs p) None w)
      else (Raise (FileExistsError p), add_log (EvMakedirs p) (Some (FileExistsError p)) w)
  | Some (File _) =>
      (Raise (FileExistsError p), add_log (EvMakedirs p) (Some (FileExistsError p)) w)
  | None => (Ok (), add_log (EvMakedirs p) None (set_fs <[q := Dir]> w))
  end.

(** [np.savez(file, **arrays)]: the name gets [".npz"] unless it has it, the
    directory has to exist, and the file is created or replaced. *)
Definition npz_name (file : string) : string :=
  if ends_with ".npz" file then file else file +:+ ".npz".

Definition parent_exists (files : gmap string node) (q : string) : bool :=
  bool_decide (dirname q = "") ||
  match files !! dirname q with Some Dir => true | _ => false end.

Definition savez (file : string) (arrays : list (string * ndarray)) : M unit := λ w,
  let p := npz_name file in
  let q := normpath p in
  if negb (parent_exists (fs w) q) then
    (Raise (FileNotFoundError p), add_log (EvSavez p) (Some (FileNotFoundError p)) w)
  else
    match fs w !! q with
    | Some Dir =>
        (Raise (IsADirectoryError p), add_log (EvSavez p) (Some (IsADirectoryError p)) w)
    | _ =>
        (Ok (), add_log (EvSavez p) None
                  (set_fs <[q := File (Npz (list_to_map arrays))]> w))
    end.

Fixpoint strip_prefix (pre s : string) : option string :=
  match pre, s with
  | EmptyString, _ => Some s
  | String c pre', String d s' =>
      if decide (c = d) then strip_prefix pre' s' else None
  | String _ _, EmptyString => None
  end.

(** The files below a directory, with their paths relative to it, in the
    order of the map (the SDK follows [os.walk]).  The notebook uploads two
    files, never a directory. *)
Definition files_under (files : gmap string node) (q : string) : list (string * content) :=
  omap (λ '(p, n),
          match n with
          | File c => (λ rel, (rel, c)) <$> strip_prefix (q +:+ "/") p
          | Dir => None
          end) (map_to_list files).

(** The key of an uploaded file: the SDK formats ["{}/{}"] with the key
    prefix and the name, whatever the prefix is. *)
Definition s3_key (key_prefix rel : string) : string :=
  key_prefix +:+ "/" +:+ rel.

Definition s3_uri (bucket key_prefix : string) : string :=
  "s3://" +:+ bucket +:+ "/" +:+ key_prefix.

Section Notebook.
Context (E : env).

(** A [%%sh] cell: the script runs with its arguments and can read the
    working directory; its output is shown, a non-zero exit raises. *)
Definition sh (script : string) (args : list string) : M unit :=
  w ← get_world;
  o ← call (EvSh script args) (sh_ext E script args (fs w));
  display (SText o).

(** IPython puts [str(value)] for [$name] in the line of a cell magic, and
    leaves the text as it is when the name is unbound.  The [str] of a str
    is the str itself; the [str] of any other object is an answer of the
    environment (it can show the address of the object). *)
Definition expand (x : string) : M string := λ w,
  match ns w !! x with
  | Some (BVal (VStr s)) => (Ok s, w)
  | Some b => (Ok (str_ext E (heap w) b), w)
  | None => (Ok ("$" +:+ x), w)
  end.

(** [Session.upload_data(path, key_prefix=...)] as the SDK documents it:
    a file goes to [key_prefix/name] of the session's bucket and the call
    returns [s3://bucket/key_prefix/name]; a directory is uploaded file by
    file and the call returns [s3://bucket/key_prefix]. *)
Definition put_file (s : session) (p key : string) (c : content) : M unit :=
  call (EvOpenRead p) (Ok ());;
  call (EvS3Put (default_bucket s) key) (s3_put_ext E (default_bucket s) key c).

Fixpoint put_files (s : session) (dir key_prefix : string)
    (l : list (string * content)) : M unit :=
  match l with
  | [] => mret ()
  | (rel, c) :: l =>
      put_file s (dir +:+ "/" +:+ rel) (s3_key key_prefix rel) c;;
      put_files s dir key_prefix l
  end.

Definition upload_data (s : session) (path key_prefix : string) : M string :=
  w ← get_world;
  match fs w !! normpath path with
  | Some Dir =>
      put_files s path key_prefix (files_under (fs w) (normpath path));;
      mret (s3_uri (default_bucket s) key_prefix)
  | Some (File c) =>
      put_file s path (s3_key key_prefix (basename path)) c;;
      mret (s3_uri (default_bucket s) key_prefix +:+ "/" +:+ basename path)
  | None =>
      call (EvOpenRead path) (Raise (FileNotFoundError path))
  end.

(** [x.fit(inputs)]: the estimator bound to [x] learns the name of its job
    as soon as the job exists. *)
Definition fit (x : string) (inputs : list (string * string)) : M unit :=
  e ← name_estimator x;
  let started j :=
    store_name x (BEstimator {| spec := spec e;
                                sagemaker_session := sagemaker_session e;
                                latest_training_job := Some j |}) in
  match fit_ext E e inputs with
  | FitRejected ex => call (EvFit inputs) (Raise ex)
  | FitFailed j ex => started j;; call (EvFit inputs) (Raise ex)
  | FitCompleted j => started j;; call (EvFit inputs) (Ok ())
  end.

(** *** The code cells, in the order of the notebook

    Cells 4 and 5 install packages and restart the kernel; a run starts
    from the restarted kernel, at cell 6. *)

Definition cell_6 : M unit :=
  print (VStr (sdk_version E));;
  s ← call EvSession (Session_ext E);
  store_name "sess" (BSession s);;
  r ← call EvGetExecutionRole (get_execution_role_ext E);
  store_name "role" (BVal (VStr r)).

(** The dataset stager. *)
Definition cell_9 : M unit :=
  d ← call EvLoadData (load_data_ext E);
  let '((x_train, y_train), (x_val, y_val)) := d in
  store_name "x_train" (BArr x_train);;
  store_name "y_train" (BArr y_train);;
  store_name "x_val" (BArr x_val);;
  store_name "y_val" (BArr y_val);;
  makedirs "./data" true;;
  image ← name_arr "x_train";
  label ← name_arr "y_train";
  savez "./data/training" [("image", image); ("label", label)];;
  image ← name_arr "x_val";
  label ← name_arr "y_val";
  savez "./data/validation" [("image", image); ("label", label)].

Definition cell_10 : M unit := sh "ls -l data" [].

Definition cell_12 : M unit :=
  store_name "keras_script_path" (BVal (VStr "/root/aim410/mnist_keras_tf.py")).

Definition cell_13 : M unit :=
  a ← expand "keras_script_path";
  sh "pygmentize $1" [a].

(** The uploader, called once per archive. *)
Definition cell_17 : M unit :=
  store_name "prefix" (BVal (VStr "keras-fashion-mnist"));;
  sess ← name_session "sess";
  prefix ← name_str "prefix";
  r ← upload_data sess "data/training.npz" (prefix +:+ "/training");
  store_name "training_input_path" (BVal (VStr r));;
  sess ← name_session "sess";
  prefix ← name_str "prefix";
  r ← upload_data sess "data/validation.npz" (prefix +:+ "/validation");
  store_name "validation_input_path" (BVal (VStr r));;
  v ← name_val "training_input_path";
  print v;;
  v ← name_val "validation_input_path";
  print v.

(** The job submitter: the estimator, then [fit]. *)
Definition cell_21 : M unit :=
  keras_script_path ← name_str "keras_script_path";
  role ← name_str "role";
  let a := {| entry_point := keras_script_path;
              role := role;
              train_instance_count := 1;
              train_instance_type := "ml.p3.2xlarge";
              framework_version := "1.15";
              script_mode := true;
              py_version := "py3";
              rules := [loss_not_decreasing; overfit] |} in
  s ← call (EvTensorFlow a) (TensorFlow_ext E a);
  store_name "tf_estimator"
    (BEstimator {| spec := a; sagemaker_session := s; latest_training_job := None |}).

(** Python evaluates the receiver [tf_estimator] before the arguments. *)
Definition cell_23 : M unit :=
  _ ← name_estimator "tf_estimator";
  training_input_path ← name_str "training_input_path";
  validation_input_path ← name_str "validation_input_path";
  fit "tf_estimator" [("training", training_input_path);
                      ("validation", validation_input_path)].

(** The status reader: one description of the job, then two projections. *)
Definition cell_26 : M unit :=
  e ← name_estimator "tf_estimator";
  j ← match latest_training_job e with
      | Some j => mret j
      | None => raise (AttributeError "name")
      end;
  store_name "job_name" (BVal (VStr j));;
  e ← name_estimator "tf_estimator";
  store_name "client" (BSession (sagemaker_session e));;
  _ ← name_session "client";
  job_name ← name_str "job_name";
  r ← call (EvDescribeTrainingJob job_name) (describe_training_job_ext E job_name);
  d ← parse r;
  store_name "description" (BVal d).

Definition cell_27_body (v : value) : M unit :=
  store_name "status" (BVal v);;
  status ← name_val "status";
  py_pop status "LastModifiedTime";;
  status ← name_val "status";
  py_pop status "RuleEvaluationJobArn";;
  status ← name_val "status";
  pprint status.

Definition cell_27 : M unit :=
  description ← name_val "description";
  l ← py_getitem description "DebugRuleEvaluationStatuses";
  vs ← py_iter l;
  for_each vs cell_27_body.

Definition cell_29 : M unit :=
  description ← name_val "description";
  c ← py_getitem description "DebugHookConfig";
  p ← py_getitem c "S3OutputPath";
  job_name ← name_str "job_name";
  a ← py_add_str p job_name;
  b ← py_add_str a "/";
  r ← py_add_str b "debug-output/";
  store_name "s3_output_path" (BVal r);;
  v ← name_val "s3_output_path";
  print v.

Definition cell_30 : M unit :=
  a ← expand "s3_output_path";
  sh "aws s3 ls --recursive $1" [a].

(** The trial reader. *)
Definition cell_31 : M unit :=
  s3_output_path ← name_str "s3_output_path";
  t ← call (EvCreateTrial s3_output_path) (create_trial_ext E s3_output_path);
  store_name "trial" (BTrial t);;
  b ← load_name "trial";
  display (SBind b).

Definition cell_32 : M unit :=
  t ← name_trial "trial";
  l ← call (EvTensorNames t) (tensor_names_ext E t);
  display (SNames l).

Definition cell_33 : M unit :=
  t ← name_trial "trial";
  call (EvTensor t "val_loss") (tensor_ext E t "val_loss");;
  l ← call (EvValues t "val_loss") (values_ext E t "val_loss");
  store_name "loss_values" (BSeries l).

Definition cell_34 : M unit :=
  b ← load_name "loss_values";
  display (SBind b).

Definition notebook : list (M unit) :=
  [cell_6; cell_9; cell_10; cell_12; cell_13; cell_17; cell_21; cell_23;
   cell_26; cell_27; cell_29; cell_30; cell_31; cell_32; cell_33; cell_34].

(** Running cells in order: the first error ends the run. *)
Fixpoint run_all (cells : list (M unit)) : M unit :=
  match cells with
  | [] => mret ()
  | c :: cells => c;; run_all cells
  end.

End Notebook.

(** The components of the specification, as runs of cells. *)
Definition dataset_stager (E : env) : M unit := cell_9 E.
Definition uploader (E : env) : M unit := cell_17 E.
Definition job_submitter (E : env) : M unit := run_all [cell_21 E; cell_23 E].
Definition trial_reader (E : env) : M unit :=
  run_all [cell_31 E; cell_32 E; cell_33 E; cell_34].

(** The paths [np.savez] was called on, in order. *)
Definition savez_path (x : event * option exn) : option string :=
  match x.1 with EvSavez p => Some p | _ => None end.
Definition writes (l : list (event * option exn)) : list string := omap savez_path l.


(** ** Vocabulary of the properties *)

(** [m] leaves the part [f] of the state as it is, whatever it returns. *)
Definition keeps {B A} (f : world → B) (m : M A) : Prop :=
  ∀ w, f (m w).2 = f w.

Definition ignores_ns {B} (f : world → B) : Prop := ∀ g w, f (set_ns g w) = f w.
Definition ignores_heap {B} (f : world → B) : Prop := ∀ g w, f (set_heap g w) = f w.
Definition ignores_out {B} (f : world → B) : Prop := ∀ s w, f (add_out s w) = f w.
Definition ignores_log {B} (f : world → B) : Prop := ∀ e o w, f (add_log e o w) = f w.



(** No call of [evs] failed. *)
Definition quiet (evs : list (event * option exn)) : Prop :=
  Forall (λ x, x.2 = None) evs.

(** The calls [m] adds to the log all succeeded, except that the last one may
    have failed, and then [m] raises its error. *)
Definition fail_stop {A} (m : M A) : Prop :=
  ∀ w, ∃ evs, log (m w).2 = log w ++ evs ∧
    (quiet evs ∨
     ∃ evs0 ev e, evs = evs0 ++ [(ev, Some e)] ∧ quiet evs0 ∧ (m w).1 = Raise e).

(** The cells after the stager, which is the second code cell of a run. *)
Definition after_stager (E : env) : list (M unit) := drop 2 (notebook E).

(** The state the stager leaves when it completes on the dataset [d]. *)
Definition staged (d : (ndarray * ndarray) * (ndarray * ndarray)) (w : world) : world :=
  {| ns := <["y_val" := BArr d.2.2]> (<["x_val" := BArr d.2.1]>
            (<["y_train" := BArr d.1.2]> (<["x_train" := BArr d.1.1]> (ns w))));
     heap := heap w;
     fs := <["data/validation.npz" := File (Npz (list_to_map [("image", d.2.1); ("label", d.2.2)]))]>
            (<["data/training.npz" := File (Npz (list_to_map [("image", d.1.1); ("label", d.1.2)]))]>
              (<["data" := Dir]> (fs w)));
     out := out w;
     log := log w ++ [(EvLoadData, None); (EvMakedirs "./data", None);
                      (EvSavez "./data/training.npz", None);
                      (EvSavez "./data/validation.npz", None)] |}.

(** The snapshot has an output-path entry. *)
Definition has_output_path (h : gmap loc obj) (dd : gmap string value) : Prop :=
  ∃ c cc v, dd !! "DebugHookConfig" = Some (VRef c) ∧ h !! c = Some (ODict cc) ∧
            cc !! "S3OutputPath" = Some v.

(** A status once the loop has visited it, and the state after the visit. *)
Definition popped (s : gmap string value) : gmap string value :=
  delete "RuleEvaluationJobArn" (delete "LastModifiedTime" s).

Definition visited (l : loc) (s : gmap string value) (w : world) : world :=
  add_out (SObj (ODict (popped s)))
    (set_heap <[l := ODict (popped s)]> (set_ns <["status" := BVal (VRef l)]> w)).

(** What the loop shows for a status: the dict without the two fields. *)
Definition verdict (x : shown) : Prop :=
  ∃ s, x = SObj (ODict s) ∧
       s !! "LastModifiedTime" = None ∧ s !! "RuleEvaluationJobArn" = None.

(** ** A small run, to evaluate the cells on *)

Module Demo.
Definition images (n : nat) : ndarray :=
  {| shape := [n; 2; 2]; items := repeat 0%Z (n * 4) |}.
Definition labels (n : nat) : ndarray :=
  {| shape := [n]; items := repeat 0%Z n |}.

Definition account : session :=
  {| default_bucket := "sagemaker-us-east-2-demo"; boto_region_name := "us-east-2" |}.

Definition rule_status (name verdict arn : string) (t : Z) : json :=
  JDict [("RuleConfigurationName", JStr name);
         ("RuleEvaluationJobArn", JStr arn);
         ("RuleEvaluationStatus", JStr verdict);
         ("LastModifiedTime", JTime t)].

Definition description : json :=
  JDict [("TrainingJobName", JStr "job-1");
         ("DebugHookConfig", JDict [("S3OutputPath", JStr "s3://sagemaker-us-east-2-demo/")]);
         ("DebugRuleEvaluationStatuses",
          JList [rule_status "LossNotDecreasing" "NoIssuesFound" "arn:rule-1" 5;
                 rule_status "Overfit" "IssuesFound" "arn:rule-2" 6])].

Definition description_without_hook : json :=
  JDict [("TrainingJobName", JStr "job-1");
         ("DebugRuleEvaluationStatuses", JList [])].

Definition setting (f : fit_outcome) (d : json) : env :=
  {| sdk_version := "1.45.0";
     Session_ext := Ok account;
     get_execution_role_ext := Ok "arn:aws:iam::demo:role/notebook";
     load_data_ext := Ok ((images 3, labels 3), (images 2, labels 2));
     sh_ext := λ _ _ _, Ok "";
     str_ext := λ _ _, "<object>";
     s3_put_ext := λ _ _ _, Ok ();
     TensorFlow_ext := λ _, Ok account;
     fit_ext := λ _ _, f;
     describe_training_job_ext := λ _, Ok d;
     create_trial_ext := λ _, Ok 0;
     tensor_names_ext := λ _, Ok ["loss"; "val_loss"];
     tensor_ext := λ _ _, Ok ();
     values_ext := λ _ _, Ok [(0%Z, "0.61"); (1%Z, "0.48")] |}.

Definition E : env := setting (FitCompleted "job-1") description.
Definition E_without_hook : env :=
  setting (FitCompleted "job-1") description_without_hook.
Definition E_rejected : env :=
  setting (FitRejected (ExternalError "sagemaker" "ValidationException")) description.

(** The kernel after the first [n] code cells, from a fresh kernel in an
    empty directory. *)
Definition after (n : nat) (E : env) : world :=
  (run_all (take n (notebook E)) (fresh_kernel ∅)).2.

Definition dict_at (l : loc) (w : world) : gmap string value :=
  match heap w !! l with Some (ODict d) => d | _ => ∅ end.

(** Two working directories holding a file of the same name. *)
Definition here : world :=
  fresh_kernel {[ "data/training.npz" := File (Raw "first") ]}.
Definition there : world :=
  fresh_kernel {[ "backup/training.npz" := File (Raw "second") ]}.

(** The address a call of the uploader returned. *)
Definition address (r : res string * world) : string :=
  match r.1 with Ok a => a | Raise _ => "" end.
End Demo.

(** ** Vocabulary of the further properties *)

(** The state in which the output-path cell can complete: the snapshot is a
    dict whose DebugHookConfig is a dict with a str under S3OutputPath, and
    the job name is a str. *)
Definition output_path_ready (w : world) : Prop :=
  ∃ d dd c cc s n,
    ns w !! "description" = Some (BVal (VRef d)) ∧
    heap w !! d = Some (ODict dd) ∧
    dd !! "DebugHookConfig" = Some (VRef c) ∧
    heap w !! c = Some (ODict cc) ∧
    cc !! "S3OutputPath" = Some (VStr s) ∧
    ns w !! "job_name" = Some (BVal (VStr n)).

(** A status that has the two fields the loop pops. *)
Definition complete_status (s : gmap string value) : Prop :=
  is_Some (s !! "LastModifiedTime") ∧ is_Some (s !! "RuleEvaluationJobArn").

(** The key whose [pop] fails on a status that is not complete. *)
Definition missing_field (s : gmap string value) : string :=
  match s !! "LastModifiedTime" with
  | None => "LastModifiedTime"
  | Some _ => "RuleEvaluationJobArn"
  end.

(** Where the uploader of [cell_17] puts the archive of a split, and the
    address it returns for it. *)
Definition archive_key (split : string) : string :=
  "keras-fashion-mnist/" +:+ split +:+ "/" +:+ split +:+ ".npz".
Definition archive_address (s : session) (split : string) : string :=
  "s3://" +:+ default_bucket s +:+ "/" +:+ archive_key split.

(** The archive [np.savez(file, image=x, label=y)] writes for a split. *)
Definition archive_of (p : ndarray * ndarray) : content :=
  Npz (list_to_map [("image", p.1); ("label", p.2)]).

(** What a run of the uploader does with the two archives [ct] and [cv] in
    the bucket of [s]: the answers to the two puts. *)
Definition put_training (E : env) (s : session) (ct : content) : res unit :=
  s3_put_ext E (default_bucket s) (archive_key "training") ct.
Definition put_validation (E : env) (s : session) (cv : content) : res unit :=
  s3_put_ext E (default_bucket s) (archive_key "validation") cv.

(** What [fit] returns for an outcome of the training job. *)
Definition fit_result (o : fit_outcome) : res unit :=
  match o with
  | FitCompleted _ => Ok ()
  | FitRejected e | FitFailed _ e => Raise e
  end.

(** The cells before the training job is started, and the inputs the
    job is started on. *)
Definition before_fit (E : env) : M unit := run_all (take 7 (notebook E)).
Definition channels (s : session) : list (string * string) :=
  [("training", archive_address s "training");
   ("validation", archive_address s "validation")].

(** The member [k] of an object of a response: the last one of that name.
    The parsed dict has the key when that member is not null. *)
Fixpoint json_member (k : string) (kvs : list (string * json)) : option json :=
  match kvs with
  | [] => None
  | (k', j) :: kvs =>
      match json_member k kvs with
      | Some j' => Some j'
      | None => if decide (k' = k) then Some j else None
      end
  end.

Definition is_null (j : json) : bool :=
  match j with JNull => true | _ => false end.

Definition has_member (k : string) (kvs : list (string * json)) : Prop :=
  ∃ j, json_member k kvs = Some j ∧ is_null j = false.

(** A status of a response that has the two fields the loop removes, each
    with a value that is not null. *)
Definition complete_json (j : json) : Prop :=
  ∃ kvs, j = JDict kvs ∧
         has_member "LastModifiedTime" kvs ∧ has_member "RuleEvaluationJobArn" kvs.

(** A run from [w] that ended in [r] only added calls to the log and, when
    it raised, raised the error of the call it logged last. *)
Definition blames {A} (w : world) (r : res A * world) : Prop :=
  match r.1 with
  | Ok _ => ∃ evs, log r.2 = log w ++ evs
  | Raise e => ∃ evs ev, log r.2 = log w ++ evs ++ [(ev, Some e)]
  end.

(** The cells up to the description of the job, and the cells that read
    the debugging output. *)
Definition up_to_description (E : env) : list (M unit) := take 9 (notebook E).
Definition projections : list (M unit) := [cell_27; cell_29].
Definition output_readers (E : env) : list (M unit) := drop 11 (notebook E).

(** ** More small runs *)

Module Cases.
(** A description whose second rule is still being evaluated: its status
    has no evaluation job yet. *)
Definition description_pending : json :=
  JDict [("TrainingJobName", JStr "job-1");
         ("DebugHookConfig", JDict [("S3OutputPath", JStr "s3://sagemaker-us-east-2-demo/")]);
         ("DebugRuleEvaluationStatuses",
          JList [Demo.rule_status "LossNotDecreasing" "NoIssuesFound" "arn:rule-1" 5;
                 JDict [("RuleConfigurationName", JStr "Overfit");
                        ("RuleEvaluationStatus", JStr "InProgress");
                        ("LastModifiedTime", JTime 6)]])].

Definition E_pending : env := Demo.setting (FitCompleted "job-1") description_pending.

(** A working directory in which a directory has the name of the second
    archive. *)
Definition blocked : world :=
  fresh_kernel {[ "data" := Dir; "data/validation.npz" := Dir ]}.



(** A description in which the first status has a null modification time. *)
Definition description_null : json :=
  JDict [("TrainingJobName", JStr "job-1");
         ("DebugRuleEvaluationStatuses",
          JList [JDict [("RuleConfigurationName", JStr "LossNotDecreasing");
                        ("RuleEvaluationJobArn", JStr "arn:rule-1");
                        ("LastModifiedTime", JNull)]])].

Definition E_null : env := Demo.setting (FitCompleted "job-1") description_null.

(** The estimator of the small run once its job has started. *)
Definition started : estimator :=
  {| spec := {| entry_point := "/root/aim410/mnist_keras_tf.py";
                role := "arn:aws:iam::demo:role/notebook";
                train_instance_count := 1;
                train_instance_type := "ml.p3.2xlarge";
                framework_version := "1.15";
                script_mode := true;
                py_version := "py3";
                rules := [loss_not_decreasing; overfit] |};
     sagemaker_session := Demo.account;
     latest_training_job := Some "job-1" |}.
End Cases.

(** * Properties *)

(** ** Running a computation *)

Lemma run_bind {A B} (m : M A) (f : A → M B) (w : world) :
  (m ≫= f) w =
  match m w with
  | (Ok a, w') => f a w'
  | (Raise e, w') => (Raise e, w')
  end.
Proof. reflexivity. Qed.

Lemma run_bind_ok {A B} (m : M A) (f : A → M B) w a w' :
  m w = (Ok a, w') → (m ≫= f) w = f a w'.
Proof. intros H. rewrite run_bind, H. reflexivity. Qed.

Lemma run_bind_raise {A B} (m : M A) (f : A → M B) w e w' :
  m w = (Raise e, w') → (m ≫= f) w = (Raise e, w').
Proof. intros H. rewrite run_bind, H. reflexivity. Qed.

Lemma run_all_app (pre post : list (M unit)) w :
  run_all (pre ++ post) w =
  match run_all pre w with
  | (Ok _, w') => run_all post w'
  | (Raise e, w') => (Raise e, w')
  end.
Proof.
  revert w. induction pre as [|c pre IH]; intros w; simpl; [reflexivity|].
  rewrite !run_bind. destruct (c w) as [[[]|e] w1]; [apply IH | reflexivity].
Qed.

(** ** The cells on a small run *)

Example path_names :
  basename "data/training.npz" = "training.npz" ∧
  normpath "./data/training.npz" = "data/training.npz" ∧
  npz_name "./data/training" = "./data/training.npz" ∧
  npz_name "archive.npz" = "archive.npz".
Proof. repeat split. Qed.

Example later_key_wins :
  (alloc_json (JDict [("a", JInt 1); ("a", JInt 2)]) ∅).2 !! 0 =
  Some (ODict {[ "a" := VInt 2 ]}).
Proof. vm_compute. reflexivity. Qed.

Example null_member_is_left_out :
  (alloc_json (JDict [("a", JInt 1); ("b", JNull)]) ∅).2 !! 0 =
  Some (ODict {[ "a" := VInt 1 ]}).
Proof. vm_compute. reflexivity. Qed.

Example null_field_cannot_be_popped :
  (run_all [cell_26 Cases.E_null; cell_27] (Demo.after 8 Cases.E_null)).1 =
  Raise (KeyError "LastModifiedTime").
Proof. vm_compute. reflexivity. Qed.

Example demo_run_completes :
  (run_all (notebook Demo.E) (fresh_kernel ∅)).1 = Ok ().
Proof. vm_compute. reflexivity. Qed.

Example demo_run_calls :
  (log (Demo.after 16 Demo.E)).*1 =
  [EvSession; EvGetExecutionRole; EvLoadData; EvMakedirs "./data";
   EvSavez "./data/training.npz"; EvSavez "./data/validation.npz";
   EvSh "ls -l data" [];
   EvSh "pygmentize $1" ["/root/aim410/mnist_keras_tf.py"];
   EvOpenRead "data/training.npz";
   EvS3Put "sagemaker-us-east-2-demo" "keras-fashion-mnist/training/training.npz";
   EvOpenRead "data/validation.npz";
   EvS3Put "sagemaker-us-east-2-demo" "keras-fashion-mnist/validation/validation.npz";
   EvTensorFlow {| entry_point := "/root/aim410/mnist_keras_tf.py";
                   role := "arn:aws:iam::demo:role/notebook";
                   train_instance_count := 1;
                   train_instance_type := "ml.p3.2xlarge";
                   framework_version := "1.15";
                   script_mode := true;
                   py_version := "py3";
                   rules := [loss_not_decreasing; overfit] |};
   EvFit [("training",
           "s3://sagemaker-us-east-2-demo/keras-fashion-mnist/training/training.npz");
          ("validation",
           "s3://sagemaker-us-east-2-demo/keras-fashion-mnist/validation/validation.npz")];
   EvDescribeTrainingJob "job-1";
   EvSh "aws s3 ls --recursive $1" ["s3://sagemaker-us-east-2-demo/job-1/debug-output/"];
   EvCreateTrial "s3://sagemaker-us-east-2-demo/job-1/debug-output/";
   EvTensorNames 0; EvTensor 0 "val_loss"; EvValues 0 "val_loss"].
Proof. vm_compute. reflexivity. Qed.

Example demo_run_shows :
  out (Demo.after 11 Demo.E) =
  [SText "1.45.0"; SText ""; SText "";
   SText "s3://sagemaker-us-east-2-demo/keras-fashion-mnist/training/training.npz";
   SText "s3://sagemaker-us-east-2-demo/keras-fashion-mnist/validation/validation.npz";
   SObj (ODict {[ "RuleConfigurationName" := VStr "LossNotDecreasing";
                  "RuleEvaluationStatus" := VStr "NoIssuesFound" ]});
   SObj (ODict {[ "RuleConfigurationName" := VStr "Overfit";
                  "RuleEvaluationStatus" := VStr "IssuesFound" ]});
   SText "s3://sagemaker-us-east-2-demo/job-1/debug-output/"].
Proof. vm_compute. reflexivity. Qed.

Example rejected_fit_stops_the_run :
  (run_all (notebook Demo.E_rejected) (fresh_kernel ∅)).1 =
    Raise (ExternalError "sagemaker" "ValidationException") ∧
  last (log (Demo.after 16 Demo.E_rejected)).*2 =
    Some (Some (ExternalError "sagemaker" "ValidationException")) ∧
  length (log (Demo.after 16 Demo.E_rejected)) = 14.
Proof. vm_compute. repeat split. Qed.

Example second_pop_of_a_shared_status_raises :
  let w := set_heap <[3 := OList [VRef 1; VRef 1]]> (Demo.after 9 Demo.E) in
  (cell_27 w).1 = Raise (KeyError "LastModifiedTime").
Proof. vm_compute. reflexivity. Qed.

(** ** What a computation leaves alone *)

Section Keeps.
Context {B : Type} (f : world → B).

Lemma keeps_ret {A} (a : A) : keeps f (mret a).
Proof. intros w. reflexivity. Qed.

Lemma keeps_raise {A} e : keeps f (@raise A e).
Proof. intros w. reflexivity. Qed.

Lemma keeps_lift {A} (r : res A) : keeps f (lift r).
Proof. intros w. reflexivity. Qed.

Lemma keeps_get_world : keeps f get_world.
Proof. intros w. reflexivity. Qed.

Lemma keeps_bind {A C} (m : M A) (k : A → M C) :
  keeps f m → (∀ a, keeps f (k a)) → keeps f (m ≫= k).
Proof.
  intros Hm Hk w. rewrite run_bind. specialize (Hm w).
  destruct (m w) as [[a|e] w1]; simpl in *; [|exact Hm].
  rewrite Hk. exact Hm.
Qed.

Lemma keeps_load_name x : keeps f (load_name x).
Proof. intros w. unfold load_name. destruct (ns w !! x); reflexivity. Qed.

Lemma keeps_expand E x : keeps f (expand E x).
Proof.
  intros w. unfold expand.
  destruct (ns w !! x) as [[[]| | | | |]|]; reflexivity.
Qed.

Lemma keeps_py_getitem c k : keeps f (py_getitem c k).
Proof.
  intros w. unfold py_getitem. destruct c; try reflexivity.
  destruct (heap w !! l) as [[d|]|]; try reflexivity.
  destruct (d !! k); reflexivity.
Qed.

Lemma keeps_py_iter c : keeps f (py_iter c).
Proof.
  intros w. unfold py_iter. destruct c; try reflexivity.
  destruct (heap w !! l) as [[|]|]; reflexivity.
Qed.

Lemma keeps_py_add_str a s : keeps f (py_add_str a s).
Proof. intros w. destruct a; reflexivity. Qed.

Lemma keeps_for_each vs body :
  (∀ v, keeps f (body v)) → keeps f (for_each vs body).
Proof.
  intros Hb. induction vs as [|v vs IH]; simpl.
  - apply keeps_ret.
  - apply keeps_bind; [apply Hb | intros _; exact IH].
Qed.

Lemma keeps_store_name x b : ignores_ns f → keeps f (store_name x b).
Proof. intros H w. apply H. Qed.

Lemma keeps_py_pop c k : ignores_heap f → keeps f (py_pop c k).
Proof.
  intros H w. unfold py_pop. destruct c; try reflexivity.
  destruct (heap w !! l) as [[d|]|]; try reflexivity.
  destruct (d !! k); [apply H | reflexivity].
Qed.

Lemma keeps_parse j : ignores_heap f → keeps f (parse j).
Proof. intros H w. unfold parse. destruct (alloc_json j (heap w)). apply H. Qed.

Lemma keeps_display s : ignores_out f → keeps f (display s).
Proof. intros H w. apply H. Qed.

Lemma keeps_print v : ignores_out f → keeps f (print v).
Proof. intros H w. apply H. Qed.

Lemma keeps_call {A} ev (r : res A) : ignores_log f → keeps f (call ev r).
Proof. intros H w. apply H. Qed.

Lemma keeps_run_all cells : Forall (keeps f) cells → keeps f (run_all cells).
Proof.
  induction 1 as [|c cells Hc _ IH]; simpl.
  - apply keeps_ret.
  - apply keeps_bind; [exact Hc | intros _; exact IH].
Qed.
End Keeps.

(** A call leaves alone what is picked from the log when it is not picked. *)
Lemma keeps_call_pick {X A} (φ : event * option exn → option X) ev (r : res A) :
  φ (ev, failure r) = None → keeps (λ w, omap φ (log w)) (call ev r).
Proof.
  intros H w. unfold call; simpl. rewrite omap_app. simpl.
  rewrite H. apply app_nil_r.
Qed.

Ltac ignores_tac :=
  solve [ unfold ignores_ns, ignores_heap, ignores_out, ignores_log;
          intros; reflexivity ].

(** One step of a proof that a cell keeps [f]: split a bind, use the lemma of
    the primitive, take apart the value the cell matches on, or use a lemma
    of the context. *)
Ltac keeps_step :=
  lazymatch goal with
  | |- keeps _ (mbind _ _) => apply keeps_bind; [|intros ?]
  | |- keeps _ (mret _) => apply keeps_ret
  | |- keeps _ (raise _) => apply keeps_raise
  | |- keeps _ (lift _) => apply keeps_lift
  | |- keeps _ get_world => apply keeps_get_world
  | |- keeps _ (load_name _) => apply keeps_load_name
  | |- keeps _ (expand _ _) => apply keeps_expand
  | |- keeps _ (py_getitem _ _) => apply keeps_py_getitem
  | |- keeps _ (py_iter _) => apply keeps_py_iter
  | |- keeps _ (py_add_str _ _) => apply keeps_py_add_str
  | |- keeps _ (for_each _ _) => apply keeps_for_each; intros ?
  | |- keeps _ (store_name _ _) => apply keeps_store_name; ignores_tac
  | |- keeps _ (py_pop _ _) => apply keeps_py_pop; ignores_tac
  | |- keeps _ (parse _) => apply keeps_parse; ignores_tac
  | |- keeps _ (display _) => apply keeps_display; ignores_tac
  | |- keeps _ (print _) => apply keeps_print; ignores_tac
  | |- keeps _ (pprint _) => apply keeps_print; ignores_tac
  | |- keeps _ (call _ _) =>
      first [ apply keeps_call; ignores_tac
            | apply keeps_call_pick; reflexivity ]
  | |- keeps _ (match ?x with _ => _ end) => destruct x
  | |- keeps _ _ => solve [eauto]
  end.

Ltac keeps_tac := repeat keeps_step.

Ltac unfold_cells :=
  unfold cell_6, cell_10, cell_12, cell_13, cell_17, cell_21, cell_23, cell_26,
    cell_27, cell_27_body, cell_29, cell_30, cell_31, cell_32, cell_33, cell_34,
    name_series, name_trial, name_estimator, name_session, name_arr, name_str,
    name_val.

Ltac each_cell := repeat apply Forall_cons_2; try apply Forall_nil_2.

(** *** The local file system *)

Lemma put_files_keeps_fs E s dir k l : keeps fs (put_files E s dir k l).
Proof.
  induction l as [|[rel c] l IH]; simpl; [apply keeps_ret|].
  unfold put_file. keeps_tac.
Qed.

Lemma upload_data_keeps_fs E s path k : keeps fs (upload_data E s path k).
Proof.
  pose proof (put_files_keeps_fs E). unfold upload_data, put_file. keeps_tac.
Qed.

Lemma sh_keeps_fs E script args : keeps fs (sh E script args).
Proof. unfold sh. keeps_tac. Qed.

Lemma fit_keeps_fs E x inputs : keeps fs (fit E x inputs).
Proof. unfold fit, name_estimator. cbv zeta. keeps_tac. Qed.

Lemma after_stager_keeps_fs E : keeps fs (run_all (after_stager E)).
Proof.
  pose proof (upload_data_keeps_fs E). pose proof (sh_keeps_fs E).
  pose proof (fit_keeps_fs E).
  apply keeps_run_all. unfold after_stager, notebook; simpl.
  each_cell; unfold_cells; keeps_tac.
Qed.

(** *** The calls of [np.savez] *)

Lemma put_files_keeps_writes E s dir k l :
  keeps (λ w, writes (log w)) (put_files E s dir k l).
Proof.
  induction l as [|[rel c] l IH]; simpl; [apply keeps_ret|].
  unfold put_file. keeps_tac.
Qed.

Lemma upload_data_keeps_writes E s path k :
  keeps (λ w, writes (log w)) (upload_data E s path k).
Proof.
  pose proof (put_files_keeps_writes E). unfold upload_data, put_file. keeps_tac.
Qed.

Lemma sh_keeps_writes E script args : keeps (λ w, writes (log w)) (sh E script args).
Proof. unfold sh. keeps_tac. Qed.

Lemma fit_keeps_writes E x inputs : keeps (λ w, writes (log w)) (fit E x inputs).
Proof. unfold fit, name_estimator. cbv zeta. keeps_tac. Qed.

Lemma after_stager_keeps_writes E : keeps (λ w, writes (log w)) (run_all (after_stager E)).
Proof.
  pose proof (upload_data_keeps_writes E). pose proof (sh_keeps_writes E).
  pose proof (fit_keeps_writes E).
  apply keeps_run_all. unfold after_stager, notebook; simpl.
  each_cell; unfold_cells; keeps_tac.
Qed.

Lemma cell_6_keeps_writes E : keeps (λ w, writes (log w)) (cell_6 E).
Proof. unfold_cells. keeps_tac. Qed.

(** ** A failed call ends the run *)

Lemma fail_stop_keeps {A} (m : M A) : keeps log m → fail_stop m.
Proof.
  intros H w. exists []. rewrite H, app_nil_r. split; [done|]. left. constructor.
Qed.

Lemma fail_stop_call {A} ev (r : res A) : fail_stop (call ev r).
Proof.
  intros w. exists [(ev, failure r)]. split; [done|].
  destruct r as [a|e]; simpl.
  - left. by repeat constructor.
  - right. exists [], ev, e. repeat split. constructor.
Qed.

Lemma fail_stop_bind {A C} (m : M A) (k : A → M C) :
  fail_stop m → (∀ a, fail_stop (k a)) → fail_stop (m ≫= k).
Proof.
  intros Hm Hk w. rewrite run_bind.
  destruct (Hm w) as (evs1 & Hlog1 & H1).
  destruct (m w) as [[a|e] w1]; simpl in *.
  - destruct H1 as [Hq1|(? & ? & ? & _ & _ & ?)]; [|done].
    destruct (Hk a w1) as (evs2 & Hlog2 & H2).
    exists (evs1 ++ evs2). split; [by rewrite Hlog2, Hlog1, app_assoc|].
    destruct H2 as [Hq2|(evs0 & ev & e & -> & Hq0 & Hr)].
    + left. by apply Forall_app.
    + right. exists (evs1 ++ evs0), ev, e.
      split; [by rewrite app_assoc|]. split; [by apply Forall_app|done].
  - exists evs1. split; [done|].
    destruct H1 as [Hq1|(evs0 & ev & e' & -> & Hq0 & [= ->])]; [by left|].
    right. by exists evs0, ev, e'.
Qed.

Lemma fail_stop_makedirs p exist_ok : fail_stop (makedirs p exist_ok).
Proof.
  intros w. unfold makedirs.
  destruct (fs w !! normpath p) as [[|c]|]; [destruct exist_ok|..]; simpl;
    eexists [_]; (split; [reflexivity|]);
    first [ left; by repeat constructor
          | right; eexists [], _, _; repeat split; constructor ].
Qed.

Lemma fail_stop_savez file arrays : fail_stop (savez file arrays).
Proof.
  intros w. unfold savez.
  destruct (negb _); [|destruct (fs w !! _) as [[|c]|]]; simpl;
    eexists [_]; (split; [reflexivity|]);
    first [ left; by repeat constructor
          | right; eexists [], _, _; repeat split; constructor ].
Qed.

Lemma fail_stop_run_all cells : Forall (λ c, fail_stop c) cells → fail_stop (run_all cells).
Proof.
  induction 1 as [|c cells Hc _ IH]; simpl.
  - apply fail_stop_keeps, keeps_ret.
  - apply fail_stop_bind; [exact Hc | intros _; exact IH].
Qed.

(** One step of a proof that a cell is fail-stop, from the lemmas of the
    primitives; what makes no call keeps the log. *)
Ltac fail_stop_step Hbind Hcall Hmakedirs Hsavez Hkeeps :=
  lazymatch goal with
  | |- fail_stop (mbind _ _) => apply Hbind; [|intros ?]
  | |- fail_stop (call _ _) => apply Hcall
  | |- fail_stop (makedirs _ _) => apply Hmakedirs
  | |- fail_stop (savez _ _) => apply Hsavez
  | |- fail_stop (match ?x with _ => _ end) => destruct x
  | |- fail_stop _ => first [ solve [eauto] | apply Hkeeps; solve [keeps_tac] ]
  end.

Lemma put_files_fail_stop E s dir k l : fail_stop (put_files E s dir k l).
Proof.
  induction l as [|[rel c] l IH]; simpl; [apply fail_stop_keeps, keeps_ret|].
  unfold put_file.
  repeat fail_stop_step (@fail_stop_bind) (@fail_stop_call) fail_stop_makedirs
    fail_stop_savez (@fail_stop_keeps).
Qed.

Lemma upload_data_fail_stop E s path k : fail_stop (upload_data E s path k).
Proof.
  pose proof (put_files_fail_stop E). unfold upload_data, put_file.
  repeat fail_stop_step (@fail_stop_bind) (@fail_stop_call) fail_stop_makedirs
    fail_stop_savez (@fail_stop_keeps).
Qed.

Lemma sh_fail_stop E script args : fail_stop (sh E script args).
Proof.
  unfold sh.
  repeat fail_stop_step (@fail_stop_bind) (@fail_stop_call) fail_stop_makedirs
    fail_stop_savez (@fail_stop_keeps).
Qed.

Lemma fit_fail_stop E x inputs : fail_stop (fit E x inputs).
Proof.
  unfold fit, name_estimator. cbv zeta.
  repeat fail_stop_step (@fail_stop_bind) (@fail_stop_call) fail_stop_makedirs
    fail_stop_savez (@fail_stop_keeps).
Qed.

Lemma cell_9_fail_stop E : fail_stop (cell_9 E).
Proof.
  unfold cell_9, name_arr.
  repeat fail_stop_step (@fail_stop_bind) (@fail_stop_call) fail_stop_makedirs
    fail_stop_savez (@fail_stop_keeps).
Qed.

Lemma notebook_fail_stop E : fail_stop (run_all (notebook E)).
Proof.
  pose proof (upload_data_fail_stop E). pose proof (sh_fail_stop E).
  pose proof (fit_fail_stop E). pose proof (cell_9_fail_stop E).
  apply fail_stop_run_all. unfold notebook.
  each_cell; try assumption; unfold_cells;
    repeat fail_stop_step (@fail_stop_bind) (@fail_stop_call) fail_stop_makedirs
      fail_stop_savez (@fail_stop_keeps).
Qed.

Lemma fail_stop_last {A} (m : M A) w evs i ev e :
  fail_stop m → log (m w).2 = log w ++ evs → evs !! i = Some (ev, Some e) →
  S i = length evs ∧ (m w).1 = Raise e.
Proof.
  intros Hm Hlog Hi. destruct (Hm w) as (evs' & Hlog' & H).
  rewrite Hlog in Hlog'. apply app_inv_head in Hlog'. subst evs'.
  destruct H as [Hq|(evs0 & ev' & e' & -> & Hq & Hr)].
  - eapply Forall_lookup_1 in Hq; [|exact Hi]. done.
  - destruct (decide (i < length evs0)) as [Hlt|Hge].
    + rewrite lookup_app_l in Hi by done.
      eapply Forall_lookup_1 in Hq; [|exact Hi]. done.
    + rewrite lookup_app_r in Hi by lia.
      destruct (i - length evs0) as [|n] eqn:Hn; simpl in Hi; [|done].
      injection Hi as -> ->. rewrite length_app. simpl. split; [lia|done].
Qed.

Tactic Notation "proj" :=
  cbn [ns heap fs out log set_ns set_heap set_fs add_out add_log fst snd failure].
Tactic Notation "proj" "in" hyp(H) :=
  cbn [ns heap fs out log set_ns set_heap set_fs add_out add_log fst snd failure] in H.

Lemma world_ext w1 w2 :
  ns w1 = ns w2 → heap w1 = heap w2 → fs w1 = fs w2 → out w1 = out w2 →
  log w1 = log w2 → w1 = w2.
Proof. destruct w1, w2; simpl; intros; subst; reflexivity. Qed.

Lemma pair_world {A} (r : res A) (w1 w2 : world) : w1 = w2 → (r, w1) = (r, w2).
Proof. by intros ->. Qed.

Lemma bind_ok_inv {A B} (m : M A) (f : A → M B) w b w' :
  (m ≫= f) w = (Ok b, w') → ∃ a w1, m w = (Ok a, w1) ∧ f a w1 = (Ok b, w').
Proof.
  rewrite run_bind. destruct (m w) as [[a|e] w1]; [eauto|done].
Qed.

Lemma run_name_arr x a w : ns w !! x = Some (BArr a) → name_arr x w = (Ok a, w).
Proof. intros H. unfold name_arr, load_name. rewrite run_bind, H. reflexivity. Qed.

Lemma set_fs_id q n w : fs w !! q = Some n → set_fs <[q := n]> w = w.
Proof. intros H. destruct w; unfold set_fs; simpl in *. f_equal. by apply insert_id. Qed.

Lemma makedirs_ok p w :
  (∀ c, fs w !! normpath p ≠ Some (File c)) →
  makedirs p true w =
  (Ok (), add_log (EvMakedirs p) None (set_fs <[normpath p := Dir]> w)).
Proof.
  intros H. unfold makedirs. destruct (fs w !! normpath p) as [[|c]|] eqn:Hq.
  - by rewrite set_fs_id.
  - by destruct (H c).
  - reflexivity.
Qed.

Lemma makedirs_ok_inv p exist_ok w u w' :
  makedirs p exist_ok w = (Ok u, w') → ∀ c, fs w !! normpath p ≠ Some (File c).
Proof.
  unfold makedirs. intros H c Hc. rewrite Hc in H. done.
Qed.

Lemma savez_ok file arrays w :
  parent_exists (fs w) (normpath (npz_name file)) = true →
  fs w !! normpath (npz_name file) ≠ Some Dir →
  savez file arrays w =
  (Ok (), add_log (EvSavez (npz_name file)) None
            (set_fs <[normpath (npz_name file) := File (Npz (list_to_map arrays))]> w)).
Proof.
  intros Hp Hd. unfold savez. rewrite Hp. simpl.
  destruct (fs w !! normpath (npz_name file)) as [[|c]|]; done.
Qed.

Lemma savez_ok_inv file arrays w u w' :
  savez file arrays w = (Ok u, w') →
  parent_exists (fs w) (normpath (npz_name file)) = true ∧
  fs w !! normpath (npz_name file) ≠ Some Dir.
Proof.
  unfold savez. destruct (parent_exists _ _); simpl; [|done].
  destruct (fs w !! normpath (npz_name file)) as [[|c]|]; done.
Qed.

Lemma cell_9_run E w d :
  load_data_ext E = Ok d →
  (∀ c, fs w !! "data" ≠ Some (File c)) →
  fs w !! "data/training.npz" ≠ Some Dir →
  fs w !! "data/validation.npz" ≠ Some Dir →
  cell_9 E w = (Ok (), staged d w).
Proof.
  intros Hload Hdata Ht Hv. destruct d as [[xt yt] [xv yv]].
  unfold cell_9. rewrite run_bind. unfold call at 1. rewrite Hload.
  do 4 (rewrite run_bind; unfold store_name at 1, modify at 1).
  rewrite run_bind, makedirs_ok by (proj; exact Hdata).
  rewrite run_bind, (run_name_arr _ xt) by (proj; by simplify_map_eq).
  rewrite run_bind, (run_name_arr _ yt) by (proj; by simplify_map_eq).
  rewrite run_bind, savez_ok.
  2:{ proj. unfold parent_exists. change (dirname (normpath (npz_name "./data/training"))) with "data".
      change (normpath "./data") with "data". by rewrite lookup_insert_eq. }
  2:{ proj. change (normpath (npz_name "./data/training")) with "data/training.npz".
      change (normpath "./data") with "data". by rewrite lookup_insert_ne. }
  rewrite run_bind, (run_name_arr _ xv) by (proj; by simplify_map_eq).
  rewrite run_bind, (run_name_arr _ yv) by (proj; by simplify_map_eq).
  rewrite savez_ok.
  2:{ proj. unfold parent_exists. change (dirname (normpath (npz_name "./data/validation"))) with "data".
      change (normpath "./data") with "data".
      rewrite lookup_insert_ne by done. by rewrite lookup_insert_eq. }
  2:{ proj. change (normpath (npz_name "./data/validation")) with "data/validation.npz".
      change (normpath (npz_name "./data/training")) with "data/training.npz".
      change (normpath "./data") with "data". by rewrite !lookup_insert_ne. }
  change (normpath (npz_name "./data/validation")) with "data/validation.npz".
  change (normpath (npz_name "./data/training")) with "data/training.npz".
  change (normpath "./data") with "data".
  change (npz_name "./data/validation") with "./data/validation.npz".
  change (npz_name "./data/training") with "./data/training.npz".
  apply pair_world; apply world_ext; unfold staged; proj; try reflexivity.
  by rewrite <- !app_assoc.
Qed.

Lemma store_name_inv x b w r w' :
  store_name x b w = (r, w') → r = Ok () ∧ w' = set_ns <[x := b]> w.
Proof. unfold store_name, modify. intros H. injection H as <- <-. done. Qed.

Lemma call_inv {A} ev (r r' : res A) w w' :
  call ev r w = (r', w') → r' = r ∧ w' = add_log ev (failure r) w.
Proof. unfold call. intros H. injection H as <- <-. done. Qed.

Lemma ok_inj {A} (a b : A) (w1 w2 : world) : (Ok a, w1) = (Ok b, w2) → a = b ∧ w1 = w2.
Proof. intros H. injection H as <- <-. done. Qed.

Lemma cell_9_inv E w w' :
  cell_9 E w = (Ok (), w') →
  ∃ d, load_data_ext E = Ok d ∧
       (∀ c, fs w !! "data" ≠ Some (File c)) ∧
       fs w !! "data/training.npz" ≠ Some Dir ∧
       fs w !! "data/validation.npz" ≠ Some Dir ∧
       w' = staged d w.
Proof.
  intros Hrun. pose proof Hrun as H. unfold cell_9 in H.
  apply bind_ok_inv in H as (d & w1 & Hc & H).
  apply call_inv in Hc as [Hload ->]. symmetry in Hload.
  exists d. destruct d as [[xt yt] [xv yv]].
  do 4 (apply bind_ok_inv in H as (? & ? & Hs & H); apply store_name_inv in Hs as [_ ->]).
  apply bind_ok_inv in H as (? & w2 & Hmk & H).
  pose proof (makedirs_ok_inv _ _ _ _ _ Hmk) as Hdata. proj in Hdata.
  change (normpath "./data") with "data" in Hdata.
  rewrite makedirs_ok in Hmk by (proj; exact Hdata).
  apply ok_inj in Hmk as [_ <-].
  apply bind_ok_inv in H as (? & ? & Ha & H).
  rewrite (run_name_arr _ xt) in Ha by (proj; by simplify_map_eq).
  apply ok_inj in Ha as [<- <-].
  apply bind_ok_inv in H as (? & ? & Ha & H).
  rewrite (run_name_arr _ yt) in Ha by (proj; by simplify_map_eq).
  apply ok_inj in Ha as [<- <-].
  apply bind_ok_inv in H as (? & w3 & Hs & H).
  pose proof (savez_ok_inv _ _ _ _ _ Hs) as [Hp Ht]. proj in Ht. proj in Hp.
  rewrite savez_ok in Hs by (proj; done).
  apply ok_inj in Hs as [_ <-].
  change (normpath (npz_name "./data/training")) with "data/training.npz" in *.
  change (normpath "./data") with "data" in *.
  rewrite lookup_insert_ne in Ht by done.
  apply bind_ok_inv in H as (? & ? & Ha & H).
  rewrite (run_name_arr _ xv) in Ha by (proj; by simplify_map_eq).
  apply ok_inj in Ha as [<- <-].
  apply bind_ok_inv in H as (? & ? & Ha & H).
  rewrite (run_name_arr _ yv) in Ha by (proj; by simplify_map_eq).
  apply ok_inj in Ha as [<- <-].
  apply savez_ok_inv in H as [_ Hv]. proj in Hv.
  change (normpath (npz_name "./data/validation")) with "data/validation.npz" in Hv.
  rewrite !lookup_insert_ne in Hv by done.
  split; [exact Hload|]. split; [exact Hdata|]. split; [exact Ht|]. split; [exact Hv|].
  rewrite (cell_9_run E w _ Hload Hdata Ht Hv) in Hrun.
  apply ok_inj in Hrun as [_ <-]. reflexivity.
Qed.



Lemma writes_app l1 l2 : writes (l1 ++ l2) = writes l1 ++ writes l2.
Proof. apply omap_app. Qed.

(** C2.  The dataset stager takes no argument.  When the loader answers and
    nothing in the working directory is in the way, it completes, and it has
    called [np.savez] exactly twice, on ./data/training.npz and
    ./data/validation.npz: afterwards the directory data exists and each of
    the two files maps "image" to the samples and "label" to the labels of
    its split; no other path of the file system has changed. *)
Theorem stager_writes_two_archives E w x_train y_train x_val y_val :
  load_data_ext E = Ok ((x_train, y_train), (x_val, y_val)) →
  (∀ c, fs w !! "data" ≠ Some (File c)) →
  fs w !! "data/training.npz" ≠ Some Dir →
  fs w !! "data/validation.npz" ≠ Some Dir →
  ∃ w',
    dataset_stager E w = (Ok (), w') ∧
    fs w' =
      <["data/validation.npz" :=
          File (Npz (list_to_map [("image", x_val); ("label", y_val)]))]>
        (<["data/training.npz" :=
             File (Npz (list_to_map [("image", x_train); ("label", y_train)]))]>
           (<["data" := Dir]> (fs w))) ∧
    writes (log w') =
      writes (log w) ++ ["./data/training.npz"; "./data/validation.npz"].
Proof.
  intros Hload Hdata Ht Hv. eexists. split.
  - unfold dataset_stager. apply cell_9_run; eassumption.
  - split; [reflexivity|]. unfold staged; proj. apply writes_app.
Qed.


(** ** Strings *)

Lemma str_app_cons c s t : String c s +:+ t = String c (s +:+ t).
Proof. reflexivity. Qed.

Lemma str_app_assoc a b c : (a +:+ b) +:+ c = a +:+ (b +:+ c).
Proof. induction a as [|x a IH]; [reflexivity|]. by rewrite !str_app_cons, IH. Qed.

Lemma str_length_app a b : String.length (a +:+ b) = String.length a + String.length b.
Proof. induction a as [|x a IH]; [reflexivity|]. rewrite str_app_cons. simpl. by rewrite IH. Qed.

Lemma str_get_app_l i a b :
  i < String.length a → String.get i (a +:+ b) = String.get i a.
Proof.
  revert i. induction a as [|x a IH]; intros i Hi; simpl in Hi; [lia|].
  rewrite str_app_cons. destruct i as [|i]; simpl; [reflexivity|]. apply IH. lia.
Qed.

Lemma ends_with_slash s :
  s ≠ "" →
  ends_with "/" s = true ↔ String.get (String.length s - 1) s = Some "/"%char.
Proof.
  induction s as [|x s IH]; intros Hne; [done|].
  destruct s as [|y s].
  - simpl. rewrite orb_false_r, bool_decide_eq_true. split.
    + by intros [= ->].
    + by intros [= ->].
  - assert (ends_with "/" (String x (String y s)) = ends_with "/" (String y s)) as ->.
    { change (ends_with "/" (String x (String y s)))
        with (bool_decide (String x (String y s) = "/") || ends_with "/" (String y s)).
      rewrite bool_decide_eq_false_2 by done. reflexivity. }
    rewrite IH by done. simpl. by rewrite !Nat.sub_0_r.
Qed.

(** ** The output path *)

Lemma run_name_val x v w : ns w !! x = Some (BVal v) → name_val x w = (Ok v, w).
Proof. intros H. unfold name_val, load_name. rewrite run_bind, H. reflexivity. Qed.

Lemma run_name_str x s w : ns w !! x = Some (BVal (VStr s)) → name_str x w = (Ok s, w).
Proof. intros H. unfold name_str. rewrite run_bind, (run_name_val _ _ _ H). reflexivity. Qed.

Lemma run_py_getitem l d k v w :
  heap w !! l = Some (ODict d) → d !! k = Some v → py_getitem (VRef l) k w = (Ok v, w).
Proof. intros Hl Hk. unfold py_getitem. by rewrite Hl, Hk. Qed.

Lemma run_py_getitem_missing l d k w :
  heap w !! l = Some (ODict d) → d !! k = None →
  py_getitem (VRef l) k w = (Raise (KeyError k), w).
Proof. intros Hl Hk. unfold py_getitem. by rewrite Hl, Hk. Qed.

Lemma py_getitem_raise_or_dict c k w :
  (∃ e, py_getitem c k w = (Raise e, w)) ∨
  (∃ l d v, c = VRef l ∧ heap w !! l = Some (ODict d) ∧ d !! k = Some v).
Proof.
  unfold py_getitem. destruct c; try (left; eexists; reflexivity).
  destruct (heap w !! l) as [[d|]|] eqn:Hl; try (left; eexists; reflexivity).
  destruct (d !! k) as [v|] eqn:Hk; [|left; eexists; reflexivity].
  right. by exists l, d, v.
Qed.

(** C6.  When the snapshot's DebugHookConfig holds the str [s] under
    S3OutputPath and the job name is [n], the path the status reader binds and
    prints is exactly [s ++ n ++ "/debug-output/"].  Nothing is put between
    [s] and [n]: the length is the sum of the lengths, and the character in
    front of the job name is a slash exactly when [s] ends with one. *)
Theorem output_path_is_concatenation w d dd c cc s n :
  ns w !! "description" = Some (BVal (VRef d)) →
  heap w !! d = Some (ODict dd) →
  dd !! "DebugHookConfig" = Some (VRef c) →
  heap w !! c = Some (ODict cc) →
  cc !! "S3OutputPath" = Some (VStr s) →
  ns w !! "job_name" = Some (BVal (VStr n)) →
  let p := s +:+ n +:+ "/debug-output/" in
  cell_29 w =
    (Ok (), add_out (SText p) (set_ns <["s3_output_path" := BVal (VStr p)]> w)) ∧
  String.length p = String.length s + String.length n + 14 ∧
  (s ≠ "" →
   String.get (String.length s - 1) p = Some "/"%char ↔ ends_with "/" s = true).
Proof.
  intros Hd Hdd Hc Hcc Hs Hn p. split; [|split].
  - unfold cell_29.
    rewrite run_bind, (run_name_val _ _ _ Hd).
    rewrite run_bind, (run_py_getitem _ _ _ _ _ Hdd Hc).
    rewrite run_bind, (run_py_getitem _ _ _ _ _ Hcc Hs).
    rewrite run_bind, (run_name_str _ _ _ Hn).
    rewrite run_bind. unfold py_add_str at 1. cbn [mret M_ret].
    rewrite run_bind. unfold py_add_str at 1. cbn [mret M_ret].
    rewrite run_bind. unfold py_add_str at 1. cbn [mret M_ret].
    assert (((s +:+ n) +:+ "/") +:+ "debug-output/" = p) as ->.
    { unfold p. by rewrite !str_app_assoc. }
    rewrite run_bind. unfold store_name at 1, modify at 1.
    rewrite run_bind, (run_name_val "s3_output_path" (VStr p))
      by (proj; apply lookup_insert_eq).
    reflexivity.
  - unfold p. rewrite !str_length_app. simpl. lia.
  - intros Hne. rewrite ends_with_slash by done.
    unfold p. rewrite str_get_app_l; [done|].
    destruct s; [done|]. simpl. lia.
Qed.

(** C5.  On a snapshot without the output-path entry the output-path cell
    raises and leaves the kernel as it was: no path is bound or printed.  The
    error is [KeyError] for the missing key when "DebugHookConfig" is absent,
    or is a dict without "S3OutputPath". *)
Theorem missing_output_path_raises w d dd :
  ns w !! "description" = Some (BVal (VRef d)) →
  heap w !! d = Some (ODict dd) →
  ¬ has_output_path (heap w) dd →
  ∃ e, cell_29 w = (Raise e, w) ∧
       (dd !! "DebugHookConfig" = None → e = KeyError "DebugHookConfig") ∧
       (∀ c cc, dd !! "DebugHookConfig" = Some (VRef c) →
                heap w !! c = Some (ODict cc) → e = KeyError "S3OutputPath").
Proof.
  intros Hd Hdd Hno. unfold cell_29.
  rewrite run_bind, (run_name_val _ _ _ Hd).
  destruct (dd !! "DebugHookConfig") as [v|] eqn:Hv.
  - rewrite run_bind, (run_py_getitem _ _ _ _ _ Hdd Hv).
    destruct (py_getitem_raise_or_dict v "S3OutputPath" w)
      as [[e He]|(c & cc & x & -> & Hc & Hx)].
    + exists e. rewrite run_bind, He. split; [reflexivity|]. split; [done|].
      intros c cc [= ->] Hc.
      destruct (cc !! "S3OutputPath") as [x|] eqn:Hx.
      * destruct Hno. by exists c, cc, x.
      * rewrite (run_py_getitem_missing _ _ _ _ Hc Hx) in He. by injection He as <-.
    + destruct Hno. by exists c, cc, x.
  - exists (KeyError "DebugHookConfig").
    rewrite run_bind, (run_py_getitem_missing _ _ _ _ Hdd Hv). by repeat split.
Qed.

(** ** The verdict projection *)

Lemma run_py_pop l d k v w :
  heap w !! l = Some (ODict d) → d !! k = Some v →
  py_pop (VRef l) k w = (Ok v, set_heap <[l := ODict (delete k d)]> w).
Proof. intros Hl Hk. unfold py_pop. by rewrite Hl, Hk. Qed.

Lemma cell_27_body_run l s w :
  heap w !! l = Some (ODict s) →
  is_Some (s !! "LastModifiedTime") → is_Some (s !! "RuleEvaluationJobArn") →
  cell_27_body (VRef l) w = (Ok (), visited l s w).
Proof.
  intros Hl [t Ht] [a Ha]. unfold cell_27_body.
  rewrite run_bind. unfold store_name at 1, modify at 1.
  rewrite run_bind, (run_name_val "status" (VRef l)) by (proj; apply lookup_insert_eq).
  rewrite run_bind, (run_py_pop l s _ t) by (proj; done).
  rewrite run_bind, (run_name_val "status" (VRef l)) by (proj; apply lookup_insert_eq).
  rewrite run_bind, (run_py_pop l (delete "LastModifiedTime" s) _ a).
  2:{ proj. apply lookup_insert_eq. }
  2:{ rewrite lookup_delete_ne by done. exact Ha. }
  rewrite run_bind, (run_name_val "status" (VRef l)) by (proj; apply lookup_insert_eq).
  unfold pprint, print. apply pair_world, world_ext; unfold visited, render; proj;
    rewrite ?insert_insert_eq, ?lookup_insert_eq; reflexivity.
Qed.

Lemma popped_spec s :
  popped s !! "LastModifiedTime" = None ∧
  popped s !! "RuleEvaluationJobArn" = None ∧
  ∀ k, k ≠ "LastModifiedTime" → k ≠ "RuleEvaluationJobArn" → popped s !! k = s !! k.
Proof.
  unfold popped. split; [|split].
  - rewrite lookup_delete_ne by done. apply lookup_delete_eq.
  - apply lookup_delete_eq.
  - intros k H1 H2. by rewrite !lookup_delete_ne.
Qed.

Lemma for_each_statuses ls w :
  NoDup ls →
  (∀ l, l ∈ ls → ∃ s, heap w !! l = Some (ODict s) ∧
      is_Some (s !! "LastModifiedTime") ∧ is_Some (s !! "RuleEvaluationJobArn")) →
  ∃ w', for_each (VRef <$> ls) cell_27_body w = (Ok (), w') ∧
    (∀ l s, l ∈ ls → heap w !! l = Some (ODict s) →
       heap w' !! l = Some (ODict (popped s))) ∧
    (∀ l, l ∉ ls → heap w' !! l = heap w !! l) ∧
    (∀ x, x ≠ "status" → ns w' !! x = ns w !! x) ∧
    fs w' = fs w ∧ log w' = log w.
Proof.
  intros Hnd. revert w. induction Hnd as [|l ls Hl Hnd IH]; intros w Hst.
  - exists w. simpl. repeat split; try done. intros l s Hl. by apply elem_of_nil in Hl.
  - destruct (Hst l) as (s & Hs & Ht & Ha); [by left|].
    destruct (IH (visited l s w)) as (w' & Hrun & Hin & Hout & Hns & Hfs & Hlog).
    { intros l' Hl'. destruct (Hst l') as (s' & Hs' & Ht' & Ha'); [by right|].
      exists s'. split; [|done]. unfold visited; proj.
      rewrite lookup_insert_ne; [done|]. by intros ->. }
    exists w'. split.
    { cbn [fmap list_fmap for_each]. rewrite run_bind.
      rewrite (cell_27_body_run l s w Hs Ht Ha). exact Hrun. }
    split; [|split; [|split; [|split]]].
    + intros l' s' Hl' Hs'. apply elem_of_cons in Hl' as [->|Hl'].
      * rewrite Hout by done. unfold visited; proj. rewrite lookup_insert_eq.
        rewrite Hs in Hs'. by injection Hs' as ->.
      * apply Hin; [done|]. unfold visited; proj.
        rewrite lookup_insert_ne; [done|]. by intros ->.
    + intros l' Hl'. rewrite Hout.
      * unfold visited; proj. rewrite lookup_insert_ne; [done|].
        intros ->. apply Hl'. by left.
      * intros ?. apply Hl'. by right.
    + intros x Hx. rewrite Hns by done. unfold visited; proj.
      by rewrite lookup_insert_ne.
    + by rewrite Hfs.
    + by rewrite Hlog.
Qed.

(** C10.  On a snapshot whose statuses are distinct dicts that have the two
    fields, the verdict projection completes; each status object has lost
    exactly "LastModifiedTime" and "RuleEvaluationJobArn" and kept every
    other field; every other object is unchanged; and [description] is still
    bound to the same object, whose statuses are now different: the snapshot
    was mutated in place. *)
Theorem verdict_projection_pops_two_fields w d dd ll ls :
  ns w !! "description" = Some (BVal (VRef d)) →
  heap w !! d = Some (ODict dd) →
  dd !! "DebugRuleEvaluationStatuses" = Some (VRef ll) →
  heap w !! ll = Some (OList (VRef <$> ls)) →
  NoDup ls →
  (∀ l, l ∈ ls → ∃ s, heap w !! l = Some (ODict s) ∧
      is_Some (s !! "LastModifiedTime") ∧ is_Some (s !! "RuleEvaluationJobArn")) →
  ∃ w', cell_27 w = (Ok (), w') ∧
    ns w' !! "description" = Some (BVal (VRef d)) ∧
    (∀ l s, l ∈ ls → heap w !! l = Some (ODict s) →
       ∃ s', heap w' !! l = Some (ODict s') ∧
             s' !! "LastModifiedTime" = None ∧
             s' !! "RuleEvaluationJobArn" = None ∧
             (∀ k, k ≠ "LastModifiedTime" → k ≠ "RuleEvaluationJobArn" →
                   s' !! k = s !! k) ∧
             heap w' !! l ≠ heap w !! l) ∧
    (∀ l, l ∉ ls → heap w' !! l = heap w !! l).
Proof.
  intros Hd Hdd Hll Hls Hnd Hst.
  destruct (for_each_statuses ls w Hnd Hst) as (w' & Hrun & Hin & Hout & Hns & _ & _).
  exists w'. split; [|split; [|split]].
  - unfold cell_27.
    rewrite run_bind, (run_name_val _ _ _ Hd).
    rewrite run_bind, (run_py_getitem _ _ _ _ _ Hdd Hll).
    rewrite run_bind. unfold py_iter at 1. rewrite Hls. exact Hrun.
  - by rewrite Hns.
  - intros l s Hl Hs. exists (popped s).
    destruct (popped_spec s) as (H1 & H2 & H3).
    split; [by apply Hin|]. split; [done|]. split; [done|]. split; [done|].
    rewrite (Hin l s Hl Hs), Hs. intros [= Heq].
    destruct (Hst l Hl) as (s0 & Hs0 & [t Ht] & _).
    rewrite Hs in Hs0. injection Hs0 as <-.
    rewrite <- Heq, H1 in Ht. done.
  - exact Hout.
Qed.

(** ** The status reader *)

Lemma run_name_estimator x e w :
  ns w !! x = Some (BEstimator e) → name_estimator x w = (Ok e, w).
Proof. intros H. unfold name_estimator, load_name. rewrite run_bind, H. reflexivity. Qed.

Lemma run_name_session x s w :
  ns w !! x = Some (BSession s) → name_session x w = (Ok s, w).
Proof. intros H. unfold name_session, load_name. rewrite run_bind, H. reflexivity. Qed.


Lemma run_store_name x b w : store_name x b w = (Ok (), set_ns <[x := b]> w).
Proof. reflexivity. Qed.

Lemma run_call {A} ev (r : res A) w : call ev r w = (r, add_log ev (failure r) w).
Proof. reflexivity. Qed.

Lemma run_mret {A} (a : A) (w : world) : (mret a : M A) w = (Ok a, w).
Proof. reflexivity. Qed.


Lemma cell_27_keeps_log : keeps log cell_27.
Proof. unfold_cells. keeps_tac. Qed.

Lemma cell_29_keeps_log : keeps log cell_29.
Proof. unfold_cells. keeps_tac. Qed.




Lemma py_pop_ok_inv c k v w w' :
  py_pop c k w = (Ok v, w') →
  ∃ l d, c = VRef l ∧ heap w !! l = Some (ODict d) ∧ d !! k = Some v ∧
         w' = set_heap <[l := ODict (delete k d)]> w.
Proof.
  unfold py_pop. destruct c; try (intros H; discriminate H).
  destruct (heap w !! l) as [[d|]|] eqn:Hl; try (intros H; discriminate H).
  destruct (d !! k) as [x|] eqn:Hk; intros H; [|discriminate H].
  apply ok_inj in H as [<- <-]. by exists l, d.
Qed.

Lemma name_val_ok_inv x v w w' :
  name_val x w = (Ok v, w') → ns w !! x = Some (BVal v) ∧ w' = w.
Proof.
  unfold name_val, load_name. rewrite run_bind.
  destruct (ns w !! x) as [[]|]; intros H; try discriminate H.
  apply ok_inj in H as [<- <-]. done.
Qed.

Lemma cell_27_body_inv v w w' :
  cell_27_body v w = (Ok (), w') →
  ∃ l s, v = VRef l ∧ heap w !! l = Some (ODict s) ∧ w' = visited l s w.
Proof.
  intros Hrun. pose proof Hrun as H. unfold cell_27_body in H.
  rewrite run_bind, run_store_name in H.
  apply bind_ok_inv in H as (? & ? & Hn & H).
  apply name_val_ok_inv in Hn as [Hn ->]. proj in Hn.
  rewrite lookup_insert_eq in Hn. injection Hn as <-.
  apply bind_ok_inv in H as (t & ? & Hp & H).
  apply py_pop_ok_inv in Hp as (l & s & -> & Hl & Ht & ->). proj in Hl.
  apply bind_ok_inv in H as (? & ? & Hn & H).
  apply name_val_ok_inv in Hn as [Hn ->]. proj in Hn.
  rewrite lookup_insert_eq in Hn. injection Hn as <-.
  apply bind_ok_inv in H as (a & ? & Hp & _).
  apply py_pop_ok_inv in Hp as (l' & s' & Heq & Hl' & Ha & _). proj in Hl'.
  injection Heq as Heq. subst l'.
  rewrite lookup_insert_eq in Hl'. injection Hl' as <-.
  rewrite lookup_delete_ne in Ha by done.
  exists l, s. split; [done|]. split; [done|].
  rewrite (cell_27_body_run l s w Hl) in Hrun by eauto.
  by apply ok_inj in Hrun as [_ <-].
Qed.

Lemma for_each_verdicts vs w w' :
  for_each vs cell_27_body w = (Ok (), w') →
  ∃ verdicts, out w' = out w ++ verdicts ∧ length verdicts = length vs ∧
              Forall verdict verdicts.
Proof.
  revert w. induction vs as [|v vs IH]; intros w H.
  - apply ok_inj in H as [_ <-]. exists []. by rewrite app_nil_r.
  - cbn [for_each] in H. apply bind_ok_inv in H as ([] & w1 & Hb & H).
    apply cell_27_body_inv in Hb as (l & s & -> & Hl & ->).
    destruct (IH _ H) as (verdicts & Hout & Hlen & Hall).
    exists (SObj (ODict (popped s)) :: verdicts). split; [|split].
    + rewrite Hout. unfold visited; proj. by rewrite <- app_assoc.
    + simpl. by rewrite Hlen.
    + constructor; [|done]. exists (popped s).
      destruct (popped_spec s) as (? & ? & _). done.
Qed.

Lemma keeps_id_world {A} (m : M A) r w w' :
  keeps (λ w, w) m → m w = (r, w') → w' = w.
Proof. intros H Hm. specialize (H w). by rewrite Hm in H. Qed.

Lemma py_add_str_ok_inv a s r w w' :
  py_add_str a s w = (Ok r, w') → ∃ x, a = VStr x ∧ r = VStr (x +:+ s) ∧ w' = w.
Proof.
  destruct a; intros H; try discriminate H.
  apply ok_inj in H as [<- <-]. eauto.
Qed.



Lemma py_getitem_ok_inv c k v w w' :
  py_getitem c k w = (Ok v, w') →
  ∃ l d, c = VRef l ∧ heap w !! l = Some (ODict d) ∧ d !! k = Some v ∧ w' = w.
Proof.
  unfold py_getitem. destruct c; try (intros H; discriminate H).
  destruct (heap w !! l) as [[d|]|] eqn:Hl; try (intros H; discriminate H).
  destruct (d !! k) as [x|] eqn:Hk; intros H; [|discriminate H].
  apply ok_inj in H as [<- <-]. by exists l, d.
Qed.

Lemma name_str_ok_inv x s w w' :
  name_str x w = (Ok s, w') → ns w !! x = Some (BVal (VStr s)) ∧ w' = w.
Proof.
  unfold name_str. intros H.
  apply bind_ok_inv in H as (v & w1 & Hv & H).
  apply name_val_ok_inv in Hv as [Hv ->].
  destruct v; try discriminate H. apply ok_inj in H as [<- <-]. done.
Qed.

Lemma name_str_keeps_world x : keeps (λ w, w) (name_str x).
Proof. unfold name_str, name_val. keeps_tac. Qed.

Lemma name_val_keeps_world x : keeps (λ w, w) (name_val x).
Proof. unfold name_val. keeps_tac. Qed.

Lemma cell_29_run w d dd c cc s n :
  ns w !! "description" = Some (BVal (VRef d)) →
  heap w !! d = Some (ODict dd) →
  dd !! "DebugHookConfig" = Some (VRef c) →
  heap w !! c = Some (ODict cc) →
  cc !! "S3OutputPath" = Some (VStr s) →
  ns w !! "job_name" = Some (BVal (VStr n)) →
  cell_29 w =
    (Ok (), add_out (SText (s +:+ n +:+ "/debug-output/"))
              (set_ns <["s3_output_path" := BVal (VStr (s +:+ n +:+ "/debug-output/"))]> w)).
Proof.
  intros Hd Hdd Hc Hcc Hs Hn. unfold cell_29.
  rewrite run_bind, (run_name_val _ _ _ Hd).
  rewrite run_bind, (run_py_getitem _ _ _ _ _ Hdd Hc).
  rewrite run_bind, (run_py_getitem _ _ _ _ _ Hcc Hs).
  rewrite run_bind, (run_name_str _ _ _ Hn).
  rewrite run_bind. unfold py_add_str at 1. rewrite run_mret.
  rewrite run_bind. unfold py_add_str at 1. rewrite run_mret.
  rewrite run_bind. unfold py_add_str at 1. rewrite run_mret.
  rewrite !str_app_assoc.
  change ("/" +:+ "debug-output/") with "/debug-output/".
  rewrite run_bind, run_store_name.
  rewrite run_bind, (run_name_val "s3_output_path" _) by (proj; apply lookup_insert_eq).
  reflexivity.
Qed.

Lemma cell_29_ready w w' : cell_29 w = (Ok (), w') → output_path_ready w.
Proof.
  unfold cell_29. intros H.
  apply bind_ok_inv in H as (? & ? & Hn & H). apply name_val_ok_inv in Hn as [Hd ->].
  apply bind_ok_inv in H as (? & ? & Hg & H).
  apply py_getitem_ok_inv in Hg as (d & dd & -> & Hdd & Hc & ->).
  apply bind_ok_inv in H as (? & ? & Hg & H).
  apply py_getitem_ok_inv in Hg as (c & cc & -> & Hcc & Hs & ->).
  apply bind_ok_inv in H as (n & ? & Hn & H).
  apply name_str_ok_inv in Hn as [Hn ->].
  apply bind_ok_inv in H as (? & ? & Ha & _).
  apply py_add_str_ok_inv in Ha as (s & -> & _).
  by exists d, dd, c, cc, s, n.
Qed.

Lemma cell_26_run E w e j r :
  ns w !! "tf_estimator" = Some (BEstimator e) →
  latest_training_job e = Some j →
  describe_training_job_ext E j = Ok r →
  ∃ w1, cell_26 E w = (Ok (), w1) ∧
    ns w1 !! "description" = Some (BVal (alloc_json r (heap w)).1) ∧
    ns w1 !! "job_name" = Some (BVal (VStr j)) ∧
    heap w1 = (alloc_json r (heap w)).2 ∧
    out w1 = out w ∧ fs w1 = fs w ∧
    log w1 = log w ++ [(EvDescribeTrainingJob j, None)].
Proof.
  intros He Hj Hr. unfold cell_26.
  rewrite run_bind, (run_name_estimator _ _ _ He). rewrite Hj.
  rewrite run_bind, run_mret.
  rewrite run_bind, run_store_name.
  rewrite run_bind, (run_name_estimator "tf_estimator" e)
    by (proj; by rewrite lookup_insert_ne).
  rewrite run_bind, run_store_name.
  rewrite run_bind, (run_name_session "client" (sagemaker_session e))
    by (proj; apply lookup_insert_eq).
  rewrite run_bind, (run_name_str "job_name" j)
    by (proj; rewrite lookup_insert_ne by done; apply lookup_insert_eq).
  rewrite run_bind, run_call, Hr.
  rewrite run_bind. unfold parse at 1. proj.
  destruct (alloc_json r (heap w)) as [v h'].
  rewrite run_store_name. eexists. split; [reflexivity|]. proj.
  rewrite lookup_insert_eq, !lookup_insert_ne, lookup_insert_eq by done. done.
Qed.

(** *** What a completed run of the status reader has read and shown *)







(** ** The uploader *)

Lemma upload_data_file E s path key_prefix c w :
  fs w !! normpath path = Some (File c) →
  upload_data E s path key_prefix w =
    (match s3_put_ext E (default_bucket s) (s3_key key_prefix (basename path)) c with
     | Ok _ => Ok (s3_uri (default_bucket s) key_prefix +:+ "/" +:+ basename path)
     | Raise e => Raise e
     end,
     add_log (EvS3Put (default_bucket s) (s3_key key_prefix (basename path)))
       (failure (s3_put_ext E (default_bucket s) (s3_key key_prefix (basename path)) c))
       (add_log (EvOpenRead path) None w)).
Proof.
  intros Hf. unfold upload_data. rewrite run_bind. unfold get_world at 1.
  cbv beta iota. rewrite Hf. unfold put_file.
  rewrite run_bind, run_bind, run_call. cbv beta iota.
  rewrite run_call.
  destruct (s3_put_ext E _ _ c) as [[]|e]; reflexivity.
Qed.

(** C3.  The address the uploader of a session returns for a local file is
    s3://bucket/key_prefix/name: two calls that return, for files of the same
    name and with the same key prefix, return the same address, whatever the
    files hold, whichever directory they are in and whatever the remote store
    answered. *)
Theorem uploader_address_deterministic
    E1 E2 s w1 w2 path1 path2 key_prefix c1 c2 a1 a2 w1' w2' :
  fs w1 !! normpath path1 = Some (File c1) →
  fs w2 !! normpath path2 = Some (File c2) →
  basename path1 = basename path2 →
  upload_data E1 s path1 key_prefix w1 = (Ok a1, w1') →
  upload_data E2 s path2 key_prefix w2 = (Ok a2, w2') →
  a1 = a2 ∧
  a1 = "s3://" +:+ default_bucket s +:+ "/" +:+ key_prefix +:+ "/" +:+ basename path1.
Proof.
  intros Hf1 Hf2 Hname H1 H2.
  rewrite (upload_data_file _ _ _ _ _ _ Hf1) in H1.
  rewrite (upload_data_file _ _ _ _ _ _ Hf2) in H2.
  destruct (s3_put_ext E1 _ _ c1); [|discriminate H1].
  destruct (s3_put_ext E2 _ _ c2); [|discriminate H2].
  apply ok_inj in H1 as [<- _]. apply ok_inj in H2 as [<- _].
  rewrite Hname. split; [reflexivity|].
  unfold s3_uri. by rewrite !str_app_assoc.
Qed.

(** ** The archives *)

Lemma notebook_split E : notebook E = [cell_6 E; cell_9 E] ++ after_stager E.
Proof. reflexivity. Qed.

Lemma run_all_app_ok_inv (pre post : list (M unit)) w w' :
  run_all (pre ++ post) w = (Ok (), w') →
  ∃ w1, run_all pre w = (Ok (), w1) ∧ run_all post w1 = (Ok (), w').
Proof.
  rewrite run_all_app. destruct (run_all pre w) as [[[]|e] w1]; intros H.
  - by exists w1.
  - discriminate H.
Qed.

(** C9.  In a run of the notebook that completes, [np.savez] was called once
    on each archive.  The file system at the end is the one the stager left:
    the cells after the stager never change it, and neither does a call of
    the uploader, which only reads. *)
Theorem archives_written_once E w w' :
  run_all (notebook E) w = (Ok (), w') →
  writes (log w') =
    writes (log w) ++ ["./data/training.npz"; "./data/validation.npz"] ∧
  (∃ w9, run_all [cell_6 E; dataset_stager E] w = (Ok (), w9) ∧
         is_Some (fs w9 !! "data/training.npz") ∧
         is_Some (fs w9 !! "data/validation.npz") ∧
         fs w' = fs w9) ∧
  (∀ w0, fs (run_all (after_stager E) w0).2 = fs w0) ∧
  (∀ s path key_prefix w0, fs (upload_data E s path key_prefix w0).2 = fs w0).
Proof.
  intros H. rewrite notebook_split in H.
  apply run_all_app_ok_inv in H as (w9 & Hpre & Hpost).
  pose proof (after_stager_keeps_fs E w9) as Hfs. rewrite Hpost in Hfs.
  pose proof (after_stager_keeps_writes E w9) as Hw. rewrite Hpost in Hw.
  pose proof Hpre as H9. cbn [run_all] in H9.
  apply bind_ok_inv in H9 as ([] & w6 & H6 & H9).
  apply bind_ok_inv in H9 as ([] & w9' & H9 & Hret).
  apply ok_inj in Hret as [_ ->].
  pose proof (cell_6_keeps_writes E w) as Hw6. rewrite H6 in Hw6.
  apply cell_9_inv in H9 as (d & _ & _ & _ & _ & ->).
  simpl in Hfs, Hw, Hw6.
  split; [|split; [|split]].
  - rewrite Hw. unfold staged; proj. rewrite writes_app, Hw6. reflexivity.
  - exists (staged d w6). split; [exact Hpre|].
    split; [|split; [|exact Hfs]]; unfold staged; proj.
    + rewrite lookup_insert_ne by done. rewrite lookup_insert_eq. by eexists.
    + rewrite lookup_insert_eq. by eexists.
  - apply after_stager_keeps_fs.
  - intros. apply upload_data_keeps_fs.
Qed.

(** ** Errors *)

(** C8.  If a cell raises [e] after the cells before it completed, the run
    of the notebook raises that same [e] and ends in the very state in which
    the cell raised: no later cell has run.  In any run, a call that failed
    is the last call made, and the run raises the error of that call, so
    nothing is called again after a failure. *)
Theorem notebook_error_aborts E pre c post w w1 w2 e :
  notebook E = pre ++ c :: post →
  run_all pre w = (Ok (), w1) →
  c w1 = (Raise e, w2) →
  run_all (notebook E) w = (Raise e, w2) ∧
  (∀ w0 evs i ev e',
     log (run_all (notebook E) w0).2 = log w0 ++ evs →
     evs !! i = Some (ev, Some e') →
     S i = length evs ∧ (run_all (notebook E) w0).1 = Raise e').
Proof.
  intros Hsplit Hpre Hc. split.
  - rewrite Hsplit, run_all_app, Hpre. cbn [run_all]. by rewrite run_bind, Hc.
  - intros w0 evs i ev e' Hlog Hi.
    exact (fail_stop_last (run_all (notebook E)) w0 evs i ev e'
             (notebook_fail_stop E) Hlog Hi).
Qed.

(** * Further properties *)

(** ** More on the verdict projection *)

Lemma bind_inv {A B} (m : M A) (k : A → M B) w r w' :
  (m ≫= k) w = (r, w') →
  (∃ e, m w = (Raise e, w') ∧ r = Raise e) ∨
  (∃ a w1, m w = (Ok a, w1) ∧ k a w1 = (r, w')).
Proof.
  rewrite run_bind. destruct (m w) as [[a|e] w1]; intros H.
  - right. by exists a, w1.
  - left. exists e. injection H as <- <-. done.
Qed.

Lemma for_each_app vs1 vs2 body w :
  for_each (vs1 ++ vs2) body w =
  match for_each vs1 body w with
  | (Ok _, w1) => for_each vs2 body w1
  | (Raise e, w1) => (Raise e, w1)
  end.
Proof.
  revert w. induction vs1 as [|v vs1 IH]; intros w; [reflexivity|].
  cbn [app for_each]. rewrite !run_bind.
  destruct (body v w) as [[[]|e] w1]; [apply IH | reflexivity].
Qed.

Lemma run_py_pop_missing l d k w :
  heap w !! l = Some (ODict d) → d !! k = None →
  py_pop (VRef l) k w = (Raise (KeyError k), w).
Proof. intros Hl Hk. unfold py_pop. by rewrite Hl, Hk. Qed.

(** The loop body on a status that lacks a field: the first missing key is
    reported; "LastModifiedTime" is gone from the status all the same. *)
Lemma cell_27_body_incomplete l s w :
  heap w !! l = Some (ODict s) → ¬ complete_status s →
  cell_27_body (VRef l) w =
    (Raise (KeyError (missing_field s)),
     set_heap <[l := ODict (delete "LastModifiedTime" s)]>
       (set_ns <["status" := BVal (VRef l)]> w)).
Proof.
  intros Hl Hs. unfold cell_27_body, missing_field.
  rewrite run_bind, run_store_name.
  rewrite run_bind, (run_name_val "status" (VRef l)) by (proj; apply lookup_insert_eq).
  destruct (s !! "LastModifiedTime") as [t|] eqn:Ht.
  - rewrite run_bind, (run_py_pop l s _ t) by (proj; done).
    rewrite run_bind, (run_name_val "status" (VRef l)) by (proj; apply lookup_insert_eq).
    destruct (s !! "RuleEvaluationJobArn") as [a|] eqn:Ha.
    { destruct Hs. split; by eexists. }
    rewrite run_bind, (run_py_pop_missing l (delete "LastModifiedTime" s)).
    + reflexivity.
    + proj. apply lookup_insert_eq.
    + by rewrite lookup_delete_ne.
  - rewrite run_bind, (run_py_pop_missing l s) by (proj; done).
    apply pair_world, world_ext; proj; try reflexivity.
    rewrite (delete_id s) by done. symmetry. by apply insert_id.
Qed.

Lemma cell_27_to_loop w d dd ll vs :
  ns w !! "description" = Some (BVal (VRef d)) →
  heap w !! d = Some (ODict dd) →
  dd !! "DebugRuleEvaluationStatuses" = Some (VRef ll) →
  heap w !! ll = Some (OList vs) →
  cell_27 w = for_each vs cell_27_body w.
Proof.
  intros Hd Hdd Hll Hls. unfold cell_27.
  rewrite run_bind, (run_name_val _ _ _ Hd).
  rewrite run_bind, (run_py_getitem _ _ _ _ _ Hdd Hll).
  rewrite run_bind. unfold py_iter at 1. by rewrite Hls.
Qed.

(** X1.  When the statuses before some status have both fields and that
    status lacks one, the projection raises [KeyError] for the first field
    it cannot pop.  The statuses before it have already lost both fields,
    the failing status has lost "LastModifiedTime" if it had it, the later
    statuses and every other object are as they were, and neither the files
    nor the log have changed. *)
Theorem verdict_projection_stops_at_incomplete_status w d dd ll pre l post s :
  ns w !! "description" = Some (BVal (VRef d)) →
  heap w !! d = Some (ODict dd) →
  dd !! "DebugRuleEvaluationStatuses" = Some (VRef ll) →
  heap w !! ll = Some (OList (VRef <$> pre ++ l :: post)) →
  NoDup (pre ++ [l]) →
  (∀ l', l' ∈ pre → ∃ s', heap w !! l' = Some (ODict s') ∧ complete_status s') →
  heap w !! l = Some (ODict s) →
  ¬ complete_status s →
  ∃ w', cell_27 w = (Raise (KeyError (missing_field s)), w') ∧
    (∀ l' s', l' ∈ pre → heap w !! l' = Some (ODict s') →
       heap w' !! l' = Some (ODict (popped s'))) ∧
    heap w' !! l = Some (ODict (delete "LastModifiedTime" s)) ∧
    (∀ l', l' ∉ pre → l' ≠ l → heap w' !! l' = heap w !! l') ∧
    fs w' = fs w ∧ log w' = log w.
Proof.
  intros Hd Hdd Hll Hls Hnd Hpre Hl Hs.
  apply NoDup_app in Hnd as (Hnd & Hdisj & _).
  assert (l ∉ pre) as Hlpre.
  { intros Hin. apply (Hdisj l Hin). by left. }
  destruct (for_each_statuses pre w Hnd) as (w1 & Hrun & Hin & Hout & Hns & Hfs & Hlog).
  { intros l' Hl'. destruct (Hpre l' Hl') as (s' & ? & ? & ?). by exists s'. }
  eexists. split; [|split; [|split; [|split; [|split]]]].
  - rewrite (cell_27_to_loop _ _ _ _ _ Hd Hdd Hll Hls).
    rewrite fmap_app, for_each_app, Hrun. cbn [fmap list_fmap for_each].
    rewrite run_bind, (cell_27_body_incomplete l s w1); [reflexivity| |done].
    by rewrite Hout.
  - intros l' s' Hl' Hs'. proj. rewrite lookup_insert_ne by (by intros ->).
    by apply Hin.
  - proj. apply lookup_insert_eq.
  - intros l' H1 H2. proj. rewrite lookup_insert_ne by done. by apply Hout.
  - proj. exact Hfs.
  - proj. exact Hlog.
Qed.

(** X2.  The projection cannot be run twice on one snapshot: after a run
    that completed on a non-empty list of statuses, a second run raises
    [KeyError "LastModifiedTime"] at the first status and changes no object,
    no output and no call, because the first run removed the fields from the
    objects that [description] still refers to. *)
Theorem verdict_projection_cannot_run_twice w d dd ll l ls :
  ns w !! "description" = Some (BVal (VRef d)) →
  heap w !! d = Some (ODict dd) →
  dd !! "DebugRuleEvaluationStatuses" = Some (VRef ll) →
  heap w !! ll = Some (OList (VRef <$> l :: ls)) →
  NoDup (l :: ls) →
  (∀ l', l' ∈ l :: ls → ∃ s, heap w !! l' = Some (ODict s) ∧ complete_status s) →
  ∃ w1 w2,
    cell_27 w = (Ok (), w1) ∧
    cell_27 w1 = (Raise (KeyError "LastModifiedTime"), w2) ∧
    heap w2 = heap w1 ∧ out w2 = out w1 ∧ log w2 = log w1.
Proof.
  intros Hd Hdd Hll Hls Hnd Hst.
  destruct (for_each_statuses (l :: ls) w Hnd) as (w1 & Hrun & Hin & Hout & Hns & _).
  { intros l' Hl'. destruct (Hst l' Hl') as (s' & ? & ? & ?). by exists s'. }
  destruct (Hst l) as (s & Hs & _); [by left|].
  assert (ll ∉ l :: ls) as Hllout.
  { intros H. destruct (Hst ll H) as (s' & Hs' & _). rewrite Hls in Hs'. done. }
  assert (∃ dd1, heap w1 !! d = Some (ODict dd1) ∧
                 dd1 !! "DebugRuleEvaluationStatuses" = Some (VRef ll)) as (dd1 & Hd1 & Hll1).
  { destruct (decide (d ∈ l :: ls)) as [Hdin|Hdout].
    - exists (popped dd). split; [by apply Hin|].
      destruct (popped_spec dd) as (_ & _ & Hother). by rewrite Hother.
    - exists dd. split; [by rewrite Hout|done]. }
  assert (heap w1 !! l = Some (ODict (popped s))) as Hl1.
  { apply Hin; [by left|done]. }
  destruct (popped_spec s) as (Hno & _ & _).
  exists w1. eexists. split; [|split; [|split; [|split]]].
  - by rewrite (cell_27_to_loop _ _ _ _ _ Hd Hdd Hll Hls).
  - rewrite (cell_27_to_loop w1 d dd1 ll (VRef <$> l :: ls));
      [|by rewrite Hns|done|done|by rewrite Hout].
    cbn [fmap list_fmap for_each]. rewrite run_bind.
    rewrite (cell_27_body_incomplete l (popped s) w1 Hl1).
    + unfold missing_field. rewrite Hno. reflexivity.
    + intros [[t Ht] _]. rewrite Hno in Ht. done.
  - proj. rewrite (delete_id (popped s)) by done. by apply insert_id.
  - reflexivity.
  - reflexivity.
Qed.

(** X3.  The projection at the edges of the snapshot: without the key
    "DebugRuleEvaluationStatuses" it raises [KeyError] for that key, with
    [None] under the key it raises [TypeError], and with an empty list it
    completes; in each case the state is unchanged. *)
Theorem verdict_projection_without_statuses w d dd :
  ns w !! "description" = Some (BVal (VRef d)) →
  heap w !! d = Some (ODict dd) →
  (dd !! "DebugRuleEvaluationStatuses" = None →
   cell_27 w = (Raise (KeyError "DebugRuleEvaluationStatuses"), w)) ∧
  (dd !! "DebugRuleEvaluationStatuses" = Some VNone →
   cell_27 w = (Raise TypeError, w)) ∧
  (∀ ll, dd !! "DebugRuleEvaluationStatuses" = Some (VRef ll) →
         heap w !! ll = Some (OList []) → cell_27 w = (Ok (), w)).
Proof.
  intros Hd Hdd. split; [|split].
  - intros Hk. unfold cell_27.
    rewrite run_bind, (run_name_val _ _ _ Hd).
    by rewrite run_bind, (run_py_getitem_missing _ _ _ _ Hdd Hk).
  - intros Hk. unfold cell_27.
    rewrite run_bind, (run_name_val _ _ _ Hd).
    by rewrite run_bind, (run_py_getitem _ _ _ _ _ Hdd Hk).
  - intros ll Hk Hll. by rewrite (cell_27_to_loop _ _ _ _ _ Hd Hdd Hk Hll).
Qed.

(** ** More on the output path and on the description of the job *)

Lemma cell_29_raise_unchanged w e w' : cell_29 w = (Raise e, w') → w' = w.
Proof.
  unfold cell_29. intros H.
  apply bind_inv in H as [(? & H & _)|(? & ? & H1 & H)];
    [by apply (keeps_id_world _ _ _ _ (name_val_keeps_world _)) in H|].
  apply (keeps_id_world _ _ _ _ (name_val_keeps_world _)) in H1 as ->.
  apply bind_inv in H as [(? & H & _)|(? & ? & H1 & H)];
    [by apply (keeps_id_world _ _ _ _ (keeps_py_getitem _ _ _)) in H|].
  apply (keeps_id_world _ _ _ _ (keeps_py_getitem _ _ _)) in H1 as ->.
  apply bind_inv in H as [(? & H & _)|(? & ? & H1 & H)];
    [by apply (keeps_id_world _ _ _ _ (keeps_py_getitem _ _ _)) in H|].
  apply (keeps_id_world _ _ _ _ (keeps_py_getitem _ _ _)) in H1 as ->.
  apply bind_inv in H as [(? & H & _)|(? & ? & H1 & H)];
    [by apply (keeps_id_world _ _ _ _ (name_str_keeps_world _)) in H|].
  apply (keeps_id_world _ _ _ _ (name_str_keeps_world _)) in H1 as ->.
  apply bind_inv in H as [(? & H & _)|(? & ? & H1 & H)];
    [by apply (keeps_id_world _ _ _ _ (keeps_py_add_str _ _ _)) in H|].
  apply (keeps_id_world _ _ _ _ (keeps_py_add_str _ _ _)) in H1 as ->.
  apply bind_inv in H as [(? & H & _)|(? & ? & H1 & H)];
    [by apply (keeps_id_world _ _ _ _ (keeps_py_add_str _ _ _)) in H|].
  apply (keeps_id_world _ _ _ _ (keeps_py_add_str _ _ _)) in H1 as ->.
  apply bind_inv in H as [(? & H & _)|(? & ? & H1 & H)];
    [by apply (keeps_id_world _ _ _ _ (keeps_py_add_str _ _ _)) in H|].
  apply (keeps_id_world _ _ _ _ (keeps_py_add_str _ _ _)) in H1 as ->.
  rewrite run_bind, run_store_name in H.
  rewrite run_bind, (run_name_val "s3_output_path" _) in H
    by (proj; apply lookup_insert_eq).
  discriminate H.
Qed.

(** X4.  The output-path cell completes exactly when [description] is a
    dict whose "DebugHookConfig" is a dict with a str under "S3OutputPath"
    and [job_name] is a str; and whenever it raises, whatever the error, the
    state is the one it started in. *)
Theorem output_path_cell_completes_iff w :
  ((∃ w', cell_29 w = (Ok (), w')) ↔ output_path_ready w) ∧
  (∀ e w', cell_29 w = (Raise e, w') → w' = w).
Proof.
  split; [split|].
  - intros [w' H]. by apply cell_29_ready in H.
  - intros (d & dd & c & cc & s & n & Hd & Hdd & Hc & Hcc & Hs & Hn).
    eexists. by apply (cell_29_run w d dd c cc s n).
  - apply cell_29_raise_unchanged.
Qed.

(** ** The estimator before [fit] *)

Lemma cell_21_ok_inv E w w1 :
  cell_21 E w = (Ok (), w1) →
  ∃ e, ns w1 !! "tf_estimator" = Some (BEstimator e) ∧ latest_training_job e = None.
Proof.
  unfold cell_21. intros H.
  apply bind_ok_inv in H as (? & ? & Hn & H). apply name_str_ok_inv in Hn as [_ ->].
  apply bind_ok_inv in H as (? & ? & Hn & H). apply name_str_ok_inv in Hn as [_ ->].
  apply bind_ok_inv in H as (s & ? & Hc & H). apply call_inv in Hc as [_ ->].
  rewrite run_store_name in H. apply ok_inj in H as [_ <-].
  eexists. split; [proj; apply lookup_insert_eq | reflexivity].
Qed.

(** X5.  Between the construction of the estimator and [fit], the
    estimator has no training job: the cell that describes the job raises
    [AttributeError] on [latest_training_job.name], before any call and
    without binding a name. *)
Theorem status_cell_needs_a_started_job E w w1 :
  cell_21 E w = (Ok (), w1) →
  cell_26 E w1 = (Raise (AttributeError "name"), w1).
Proof.
  intros H. apply cell_21_ok_inv in H as (e & He & Hj).
  unfold cell_26. rewrite run_bind, (run_name_estimator _ _ _ He). rewrite Hj.
  reflexivity.
Qed.

(** ** More on the stager *)

Lemma staged_fs_again d w : fs (staged d (staged d w)) = fs (staged d w).
Proof.
  unfold staged; proj.
  rewrite (insert_id _ "data" Dir) by (rewrite !lookup_insert_ne by done; apply lookup_insert_eq).
  rewrite (insert_id _ "data/training.npz")
    by (rewrite !lookup_insert_ne by done; apply lookup_insert_eq).
  by rewrite insert_insert_eq.
Qed.

Lemma staged_ns_again d w : ns (staged d (staged d w)) = ns (staged d w).
Proof.
  unfold staged; proj.
  rewrite (insert_id _ "x_train") by (rewrite !lookup_insert_ne by done; apply lookup_insert_eq).
  rewrite (insert_id _ "y_train") by (rewrite !lookup_insert_ne by done; apply lookup_insert_eq).
  rewrite (insert_id _ "x_val") by (rewrite !lookup_insert_ne by done; apply lookup_insert_eq).
  by rewrite insert_insert_eq.
Qed.

(** X6.  The stager can be run again: if it completed, a second run
    completes too and leaves the files, the names, the objects and the
    output as the first run left them.  The archives are written again,
    with the same arrays (the loader answers the same dataset). *)
Theorem stager_can_run_again E w w1 :
  dataset_stager E w = (Ok (), w1) →
  ∃ w2, dataset_stager E w1 = (Ok (), w2) ∧
        fs w2 = fs w1 ∧ ns w2 = ns w1 ∧ heap w2 = heap w1 ∧ out w2 = out w1.
Proof.
  unfold dataset_stager. intros H.
  apply cell_9_inv in H as (d & Hload & _ & _ & _ & ->).
  exists (staged d (staged d w)). split; [|split; [|split; [|split]]].
  - apply cell_9_run; [done|..]; unfold staged; proj.
    + intros c. rewrite !lookup_insert_ne by done. by rewrite lookup_insert_eq.
    + rewrite !lookup_insert_ne by done. by rewrite lookup_insert_eq.
    + by rewrite lookup_insert_eq.
  - apply staged_fs_again.
  - apply staged_ns_again.
  - reflexivity.
  - reflexivity.
Qed.

Lemma keeps_makedirs_other p q exist_ok :
  p ≠ normpath q → keeps (λ w, fs w !! p) (makedirs q exist_ok).
Proof.
  intros Hne w. unfold makedirs.
  destruct (fs w !! normpath q) as [[|c]|]; [destruct exist_ok|..]; proj;
    try reflexivity.
  by rewrite lookup_insert_ne.
Qed.

Lemma keeps_savez_other p file arrays :
  p ≠ normpath (npz_name file) → keeps (λ w, fs w !! p) (savez file arrays).
Proof.
  intros Hne w. unfold savez.
  destruct (negb _); [reflexivity|].
  destruct (fs w !! normpath (npz_name file)) as [[|c]|]; proj;
    try reflexivity; by rewrite lookup_insert_ne.
Qed.

Lemma keeps_makedirs_state {B} (f : world → B) q exist_ok :
  (∀ g w, f (set_fs g w) = f w) → ignores_log f → keeps f (makedirs q exist_ok).
Proof.
  intros Hfs Hlog w. unfold makedirs.
  destruct (fs w !! normpath q) as [[|c]|]; [destruct exist_ok|..]; proj;
    rewrite ?Hlog, ?Hfs; reflexivity.
Qed.

Lemma keeps_savez_state {B} (f : world → B) file arrays :
  (∀ g w, f (set_fs g w) = f w) → ignores_log f → keeps f (savez file arrays).
Proof.
  intros Hfs Hlog w. unfold savez.
  destruct (negb _); [apply Hlog|].
  destruct (fs w !! normpath (npz_name file)) as [[|c]|]; proj;
    rewrite ?Hlog, ?Hfs; reflexivity.
Qed.

(** X7.  Whatever its outcome, the stager changes no path of the working
    directory other than [data], [data/training.npz] and
    [data/validation.npz], it changes no object, and none of its statements
    shows output (what the loader prints on its own is not modelled). *)
Theorem stager_touches_only_its_paths E w p :
  p ∉ ["data"; "data/training.npz"; "data/validation.npz"] →
  fs (dataset_stager E w).2 !! p = fs w !! p ∧
  heap (dataset_stager E w).2 = heap w ∧
  out (dataset_stager E w).2 = out w.
Proof.
  intros Hp. split; [|split].
  - assert (keeps (λ w, fs w !! p) (dataset_stager E)) as H; [|apply H].
    assert (∀ ok, keeps (λ w, fs w !! p) (makedirs "./data" ok)).
    { intros ok. apply keeps_makedirs_other. intros ->. apply Hp. by left. }
    assert (∀ a, keeps (λ w, fs w !! p) (savez "./data/training" a)).
    { intros a. apply keeps_savez_other. intros ->. apply Hp. right. by left. }
    assert (∀ a, keeps (λ w, fs w !! p) (savez "./data/validation" a)).
    { intros a. apply keeps_savez_other. intros ->. apply Hp. right. right. by left. }
    unfold dataset_stager, cell_9, name_arr. keeps_tac.
  - assert (keeps heap (dataset_stager E)) as H; [|apply H].
    assert (∀ q ok, keeps heap (makedirs q ok))
      by (intros; apply keeps_makedirs_state; [done|ignores_tac]).
    assert (∀ file a, keeps heap (savez file a))
      by (intros; apply keeps_savez_state; [done|ignores_tac]).
    unfold dataset_stager, cell_9, name_arr. keeps_tac.
  - assert (keeps out (dataset_stager E)) as H; [|apply H].
    assert (∀ q ok, keeps out (makedirs q ok))
      by (intros; apply keeps_makedirs_state; [done|ignores_tac]).
    assert (∀ file a, keeps out (savez file a))
      by (intros; apply keeps_savez_state; [done|ignores_tac]).
    unfold dataset_stager, cell_9, name_arr. keeps_tac.
Qed.

(** X8.  The stager is not atomic: when a directory has the name of the
    second archive, the cell raises [IsADirectoryError] on it after the
    first archive was written, and the first archive stays on disk with the
    training arrays. *)
Theorem stager_is_not_atomic E w d :
  load_data_ext E = Ok d →
  (∀ c, fs w !! "data" ≠ Some (File c)) →
  fs w !! "data/training.npz" ≠ Some Dir →
  fs w !! "data/validation.npz" = Some Dir →
  ∃ w', dataset_stager E w =
          (Raise (IsADirectoryError "./data/validation.npz"), w') ∧
        fs w' !! "data/training.npz" =
          Some (File (Npz (list_to_map [("image", d.1.1); ("label", d.1.2)]))) ∧
        fs w' !! "data/validation.npz" = Some Dir.
Proof.
  intros Hload Hdata Ht Hv. destruct d as [[xt yt] [xv yv]].
  eexists. split.
  - unfold dataset_stager, cell_9. rewrite run_bind, run_call, Hload.
    do 4 rewrite run_bind, run_store_name.
    rewrite run_bind, makedirs_ok by (proj; exact Hdata).
    rewrite run_bind, (run_name_arr _ xt)
      by (proj; rewrite !lookup_insert_ne by done; apply lookup_insert_eq).
    rewrite run_bind, (run_name_arr _ yt)
      by (proj; rewrite !lookup_insert_ne by done; apply lookup_insert_eq).
    rewrite run_bind, savez_ok.
    2:{ proj. unfold parent_exists.
        change (dirname (normpath (npz_name "./data/training"))) with "data".
        change (normpath "./data") with "data". by rewrite lookup_insert_eq. }
    2:{ proj. change (normpath (npz_name "./data/training")) with "data/training.npz".
        change (normpath "./data") with "data". by rewrite lookup_insert_ne. }
    rewrite run_bind, (run_name_arr _ xv)
      by (proj; rewrite !lookup_insert_ne by done; apply lookup_insert_eq).
    rewrite run_bind, (run_name_arr _ yv) by (proj; apply lookup_insert_eq).
    unfold savez. proj.
    change (normpath (npz_name "./data/validation")) with "data/validation.npz".
    change (normpath (npz_name "./data/training")) with "data/training.npz".
    change (normpath "./data") with "data".
    change (npz_name "./data/validation") with "./data/validation.npz".
    assert (parent_exists
              (<["data/training.npz" :=
                   File (Npz (list_to_map [("image", xt); ("label", yt)]))]>
                 (<["data" := Dir]> (fs w))) "data/validation.npz" = true) as ->.
    { unfold parent_exists. change (dirname "data/validation.npz") with "data".
      rewrite lookup_insert_ne by done. by rewrite lookup_insert_eq. }
    cbn [negb]. rewrite !lookup_insert_ne by done. rewrite Hv. reflexivity.
  - proj. change (normpath (npz_name "./data/training")) with "data/training.npz".
    change (normpath "./data") with "data".
    split; [by rewrite lookup_insert_eq|].
    by rewrite !lookup_insert_ne.
Qed.

(** ** From the stager to the uploader *)

Lemma upload_archive E s split c w :
  fs w !! ("data/" +:+ split +:+ ".npz") = Some (File c) →
  normpath ("data/" +:+ split +:+ ".npz") = "data/" +:+ split +:+ ".npz" →
  basename ("data/" +:+ split +:+ ".npz") = split +:+ ".npz" →
  upload_data E s ("data/" +:+ split +:+ ".npz") ("keras-fashion-mnist/" +:+ split) w =
    (match s3_put_ext E (default_bucket s) (archive_key split) c with
     | Ok _ => Ok (archive_address s split)
     | Raise e => Raise e
     end,
     add_log (EvS3Put (default_bucket s) (archive_key split))
       (failure (s3_put_ext E (default_bucket s) (archive_key split) c))
       (add_log (EvOpenRead ("data/" +:+ split +:+ ".npz")) None w)).
Proof.
  intros Hf Hnorm Hbase.
  rewrite (upload_data_file E s _ _ c) by (by rewrite Hnorm).
  rewrite Hbase. unfold s3_key.
  assert (("keras-fashion-mnist/" +:+ split) +:+ "/" +:+ split +:+ ".npz"
          = archive_key split) as ->.
  { unfold archive_key. by rewrite !str_app_assoc. }
  assert (s3_uri (default_bucket s) ("keras-fashion-mnist/" +:+ split)
            +:+ "/" +:+ split +:+ ".npz" = archive_address s split) as ->.
  { unfold s3_uri, archive_address, archive_key. by rewrite !str_app_assoc. }
  reflexivity.
Qed.

Lemma cell_17_run E w s ct cv :
  ns w !! "sess" = Some (BSession s) →
  fs w !! "data/training.npz" = Some (File ct) →
  fs w !! "data/validation.npz" = Some (File cv) →
  ∃ w', cell_17 E w =
          (match put_training E s ct with
           | Raise e => Raise e
           | Ok _ => match put_validation E s cv with Raise e => Raise e | Ok _ => Ok () end
           end, w') ∧
    fs w' = fs w ∧ heap w' = heap w ∧
    (∀ x, x ∉ ["prefix"; "training_input_path"; "validation_input_path"] →
          ns w' !! x = ns w !! x) ∧
    log w' = log w ++
      [(EvOpenRead "data/training.npz", None);
       (EvS3Put (default_bucket s) (archive_key "training"), failure (put_training E s ct))] ++
      match put_training E s ct with
      | Raise _ => []
      | Ok _ => [(EvOpenRead "data/validation.npz", None);
                 (EvS3Put (default_bucket s) (archive_key "validation"),
                  failure (put_validation E s cv))]
      end ∧
    ns w' !! "training_input_path" =
      match put_training E s ct with
      | Raise _ => ns w !! "training_input_path"
      | Ok _ => Some (BVal (VStr (archive_address s "training")))
      end ∧
    ns w' !! "validation_input_path" =
      match put_training E s ct, put_validation E s cv with
      | Ok _, Ok _ => Some (BVal (VStr (archive_address s "validation")))
      | _, _ => ns w !! "validation_input_path"
      end ∧
    out w' = out w ++
      match put_training E s ct, put_validation E s cv with
      | Ok _, Ok _ => [SText (archive_address s "training");
                       SText (archive_address s "validation")]
      | _, _ => []
      end.
Proof.
  intros Hsess Ht Hv. unfold cell_17.
  assert (∀ x, x ∉ ["prefix"; "training_input_path"; "validation_input_path"] →
            x ≠ "prefix" ∧ x ≠ "training_input_path" ∧ x ≠ "validation_input_path")
    as Hother.
  { intros x Hx. repeat split; intros ->; apply Hx; repeat constructor. }
  rewrite run_bind, run_store_name.
  rewrite run_bind, (run_name_session "sess" s)
    by (proj; by rewrite lookup_insert_ne).
  rewrite run_bind, (run_name_str "prefix" "keras-fashion-mnist")
    by (proj; apply lookup_insert_eq).
  change ("keras-fashion-mnist" +:+ "/training") with ("keras-fashion-mnist/" +:+ "training").
  change "data/training.npz" with ("data/" +:+ "training" +:+ ".npz") at 1.
  rewrite run_bind, (upload_archive E s "training" ct) by (done || (proj; exact Ht)).
  fold (put_training E s ct).
  destruct (put_training E s ct) as [[]|e].
  2:{ eexists; split; [reflexivity|]. proj.
      rewrite !lookup_insert_ne by done. rewrite !app_nil_r, <- !app_assoc.
      repeat split; try reflexivity.
      intros x (? & ? & ?)%Hother. by rewrite !lookup_insert_ne. }
  rewrite run_bind, run_store_name.
  rewrite run_bind, (run_name_session "sess" s)
    by (proj; by rewrite !lookup_insert_ne).
  rewrite run_bind, (run_name_str "prefix" "keras-fashion-mnist")
    by (proj; rewrite lookup_insert_ne by done; apply lookup_insert_eq).
  change ("keras-fashion-mnist" +:+ "/validation") with ("keras-fashion-mnist/" +:+ "validation").
  change "data/validation.npz" with ("data/" +:+ "validation" +:+ ".npz") at 1.
  rewrite run_bind, (upload_archive E s "validation" cv) by (done || (proj; exact Hv)).
  fold (put_validation E s cv).
  destruct (put_validation E s cv) as [[]|e].
  2:{ eexists; split; [reflexivity|]. proj.
      rewrite lookup_insert_eq, !lookup_insert_ne by done.
      rewrite !app_nil_r, <- !app_assoc. repeat split; try reflexivity.
      intros x (? & ? & ?)%Hother. by rewrite !lookup_insert_ne. }
  rewrite run_bind, run_store_name.
  rewrite run_bind, (run_name_val "training_input_path" (VStr (archive_address s "training")))
    by (proj; rewrite lookup_insert_ne by done; apply lookup_insert_eq).
  rewrite run_bind. unfold print at 1. cbv beta iota.
  rewrite run_bind, (run_name_val "validation_input_path" (VStr (archive_address s "validation")))
    by (proj; apply lookup_insert_eq).
  unfold print.
  eexists; split; [reflexivity|]. proj.
  rewrite lookup_insert_eq, lookup_insert_ne, lookup_insert_eq by done.
  rewrite <- !app_assoc. repeat split; try reflexivity.
  intros x (? & ? & ?)%Hother. by rewrite !lookup_insert_ne.
Qed.

(** X9.  The uploader after the stager: on the files a completed run of
    the stager left, it reads the training archive and puts it under
    [keras-fashion-mnist/training/training.npz] of the session's bucket,
    then does the same with the validation archive; what is put are the
    arrays the loader returned.  A put that fails ends the cell with its
    error: after a failed first put the second archive is neither read nor
    put and no path is bound; after a failed second put only
    [training_input_path] is bound; nothing is printed unless both puts
    succeed, and then the two addresses are printed in order. *)
Theorem uploader_puts_the_staged_archives E w0 w1 w s :
  dataset_stager E w0 = (Ok (), w1) →
  fs w = fs w1 →
  ns w !! "sess" = Some (BSession s) →
  ∃ d w', load_data_ext E = Ok d ∧
    let pt := put_training E s (archive_of d.1) in
    let pv := put_validation E s (archive_of d.2) in
    uploader E w =
      (match pt with
       | Raise e => Raise e
       | Ok _ => match pv with Raise e => Raise e | Ok _ => Ok () end
       end, w') ∧
    log w' = log w ++
      [(EvOpenRead "data/training.npz", None);
       (EvS3Put (default_bucket s) (archive_key "training"), failure pt)] ++
      match pt with
      | Raise _ => []
      | Ok _ => [(EvOpenRead "data/validation.npz", None);
                 (EvS3Put (default_bucket s) (archive_key "validation"), failure pv)]
      end ∧
    ns w' !! "training_input_path" =
      match pt with
      | Raise _ => ns w !! "training_input_path"
      | Ok _ => Some (BVal (VStr (archive_address s "training")))
      end ∧
    ns w' !! "validation_input_path" =
      match pt, pv with
      | Ok _, Ok _ => Some (BVal (VStr (archive_address s "validation")))
      | _, _ => ns w !! "validation_input_path"
      end ∧
    out w' = out w ++
      match pt, pv with
      | Ok _, Ok _ => [SText (archive_address s "training");
                       SText (archive_address s "validation")]
      | _, _ => []
      end.
Proof.
  intros Hst Hfs Hsess.
  apply cell_9_inv in Hst as (d & Hload & _ & _ & _ & ->).
  destruct (cell_17_run E w s (archive_of d.1) (archive_of d.2) Hsess)
    as (w' & Hrun & _ & _ & _ & Hlog & Hnt & Hnv & Hout).
  - rewrite Hfs. unfold staged; proj.
    rewrite lookup_insert_ne by done. apply lookup_insert_eq.
  - rewrite Hfs. unfold staged; proj. apply lookup_insert_eq.
  - exists d, w'. split; [exact Hload|]. cbv zeta. unfold uploader. done.
Qed.

(** ** From the first cell to the training job *)

Lemma keeps_run {A B} (f : world → B) (m : M A) r w w' :
  keeps f m → m w = (r, w') → f w' = f w.
Proof. intros Hk H. specialize (Hk w). by rewrite H in Hk. Qed.

Lemma sh_keeps_ns E script args : keeps ns (sh E script args).
Proof. unfold sh. keeps_tac. Qed.

Lemma cell_6_ok_inv E w w1 :
  cell_6 E w = (Ok (), w1) →
  ∃ s r, Session_ext E = Ok s ∧ get_execution_role_ext E = Ok r ∧
         ns w1 = <["role" := BVal (VStr r)]> (<["sess" := BSession s]> (ns w)) ∧
         fs w1 = fs w.
Proof.
  unfold cell_6. intros H.
  apply bind_ok_inv in H as (? & ? & Hp & H). unfold print in Hp.
  apply ok_inj in Hp as [_ <-].
  apply bind_ok_inv in H as (s & ? & Hc & H). apply call_inv in Hc as [Hs ->].
  apply bind_ok_inv in H as (? & ? & Hn & H). apply store_name_inv in Hn as [_ ->].
  apply bind_ok_inv in H as (r & ? & Hc & H). apply call_inv in Hc as [Hr ->].
  rewrite run_store_name in H. apply ok_inj in H as [_ <-].
  exists s, r. by proj.
Qed.

Lemma cell_21_inv E w w1 :
  cell_21 E w = (Ok (), w1) →
  ∃ e, ns w1 = <["tf_estimator" := BEstimator e]> (ns w) ∧
       latest_training_job e = None ∧
       ns w !! "keras_script_path" = Some (BVal (VStr (entry_point (spec e)))) ∧
       ns w !! "role" = Some (BVal (VStr (role (spec e)))) ∧
       train_instance_count (spec e) = 1%Z ∧
       train_instance_type (spec e) = "ml.p3.2xlarge" ∧
       rules (spec e) = [loss_not_decreasing; overfit] ∧
       TensorFlow_ext E (spec e) = Ok (sagemaker_session e).
Proof.
  unfold cell_21. intros H.
  apply bind_ok_inv in H as (k & ? & Hn & H). apply name_str_ok_inv in Hn as [Hk ->].
  apply bind_ok_inv in H as (r & ? & Hn & H). apply name_str_ok_inv in Hn as [Hr ->].
  apply bind_ok_inv in H as (s & ? & Hc & H). apply call_inv in Hc as [Hs ->].
  rewrite run_store_name in H. apply ok_inj in H as [_ <-].
  eexists. proj. repeat split; try done.
Qed.

Lemma fit_run E x e inputs w :
  ns w !! x = Some (BEstimator e) →
  (fit E x inputs w).1 = fit_result (fit_ext E e inputs) ∧
  log (fit E x inputs w).2 =
    log w ++ [(EvFit inputs, failure (fit_result (fit_ext E e inputs)))] ∧
  ns (fit E x inputs w).2 !! x =
    Some (BEstimator {| spec := spec e; sagemaker_session := sagemaker_session e;
                        latest_training_job :=
                          match fit_ext E e inputs with
                          | FitRejected _ => latest_training_job e
                          | FitFailed j _ | FitCompleted j => Some j
                          end |}).
Proof.
  intros Hx. unfold fit. rewrite run_bind, (run_name_estimator _ _ _ Hx).
  destruct (fit_ext E e inputs) as [ex|j ex|j].
  - rewrite run_call. proj. by destruct e.
  - rewrite run_bind, run_store_name, run_call. proj.
    by rewrite lookup_insert_eq.
  - rewrite run_bind, run_store_name, run_call. proj.
    by rewrite lookup_insert_eq.
Qed.

Lemma sh_ok_inv E script args w u w' :
  sh E script args w = (Ok u, w') → ns w' = ns w ∧ fs w' = fs w.
Proof.
  intros H. split.
  - exact (keeps_run ns _ _ _ _ (sh_keeps_ns E script args) H).
  - exact (keeps_run fs _ _ _ _ (sh_keeps_fs E script args) H).
Qed.

Lemma cell_13_ok_inv E w u w' :
  cell_13 E w = (Ok u, w') → ns w' = ns w ∧ fs w' = fs w.
Proof.
  unfold cell_13. intros H. apply bind_ok_inv in H as (a & w1 & Ha & H).
  assert (w1 = w) as ->.
  { unfold expand in Ha. destruct (ns w !! "keras_script_path") as [[[]| | | | |]|];
      by apply ok_inj in Ha as [_ <-]. }
  by apply sh_ok_inv in H.
Qed.

(** X10.  What the training job is started on.  If the cells before [fit]
    completed, then the session and the role were obtained, the dataset was
    loaded, both archives of that dataset were put in the session's bucket,
    and the estimator is the one of cell 21: entry point
    [/root/aim410/mnist_keras_tf.py], the role of cell 6, instance type
    [ml.p3.2xlarge], the two rules, no job yet.  The next cell calls [fit]
    once, on that estimator, with the channels [training] and [validation]
    bound to the addresses of the two archives, and raises exactly when
    [fit] does. *)
Theorem job_is_started_on_the_uploaded_archives E w w7 :
  before_fit E w = (Ok (), w7) →
  ∃ s d e,
    Session_ext E = Ok s ∧ load_data_ext E = Ok d ∧
    put_training E s (archive_of d.1) = Ok () ∧
    put_validation E s (archive_of d.2) = Ok () ∧
    ns w7 !! "tf_estimator" = Some (BEstimator e) ∧
    entry_point (spec e) = "/root/aim410/mnist_keras_tf.py" ∧
    get_execution_role_ext E = Ok (role (spec e)) ∧
    train_instance_type (spec e) = "ml.p3.2xlarge" ∧
    rules (spec e) = [loss_not_decreasing; overfit] ∧
    latest_training_job e = None ∧
    (cell_23 E w7).1 = fit_result (fit_ext E e (channels s)) ∧
    log (cell_23 E w7).2 =
      log w7 ++ [(EvFit (channels s), failure (fit_result (fit_ext E e (channels s))))].
Proof.
  unfold before_fit.
  change (take 7 (notebook E))
    with [cell_6 E; cell_9 E; cell_10 E; cell_12; cell_13 E; cell_17 E; cell_21 E].
  intros H. cbn [run_all] in H.
  apply bind_ok_inv in H as ([] & w1 & H6 & H).
  apply bind_ok_inv in H as ([] & w2 & H9 & H).
  apply bind_ok_inv in H as ([] & w3 & H10 & H).
  apply bind_ok_inv in H as ([] & w4 & H12 & H).
  apply bind_ok_inv in H as ([] & w5 & H13 & H).
  apply bind_ok_inv in H as ([] & w6 & H17 & H).
  apply bind_ok_inv in H as ([] & w7' & H21 & H).
  rewrite run_mret in H. apply ok_inj in H as [_ ->].
  apply cell_6_ok_inv in H6 as (s & r & Hs & Hr & Hns1 & _).
  apply cell_9_inv in H9 as (d & Hd & _ & _ & _ & ->).
  apply sh_ok_inv in H10 as [Hns3 Hfs3].
  unfold cell_12 in H12. rewrite run_store_name in H12. apply ok_inj in H12 as [_ <-].
  apply cell_13_ok_inv in H13 as [Hns5 Hfs5]. proj in Hns5. proj in Hfs5.
  assert (ns w5 !! "sess" = Some (BSession s)) as Hsess.
  { rewrite Hns5, Hns3. unfold staged; proj. rewrite Hns1.
    rewrite !lookup_insert_ne by done. apply lookup_insert_eq. }
  assert (ns w5 !! "role" = Some (BVal (VStr r))) as Hrole.
  { rewrite Hns5, Hns3. unfold staged; proj. rewrite Hns1.
    rewrite !lookup_insert_ne by done. apply lookup_insert_eq. }
  assert (ns w5 !! "keras_script_path" = Some (BVal (VStr "/root/aim410/mnist_keras_tf.py")))
    as Hpath.
  { rewrite Hns5. apply lookup_insert_eq. }
  destruct (cell_17_run E w5 s (archive_of d.1) (archive_of d.2) Hsess)
    as (w6' & Hrun & _ & _ & Hother & _ & Hnt & Hnv & _).
  { rewrite Hfs5, Hfs3. unfold staged; proj.
    rewrite lookup_insert_ne by done. apply lookup_insert_eq. }
  { rewrite Hfs5, Hfs3. unfold staged; proj. apply lookup_insert_eq. }
  rewrite H17 in Hrun.
  destruct (put_training E s (archive_of d.1)) as [[]|?] eqn:Hpt; [|discriminate Hrun].
  destruct (put_validation E s (archive_of d.2)) as [[]|?] eqn:Hpv; [|discriminate Hrun].
  apply ok_inj in Hrun as [_ <-].
  apply cell_21_inv in H21 as (e & Hns7 & Hjob & Hk & Hro & _ & Hty & Hru & _).
  rewrite Hother, Hpath in Hk by (by rewrite !elem_of_cons, elem_of_nil; intros [|[|[|]]]).
  rewrite Hother, Hrole in Hro by (by rewrite !elem_of_cons, elem_of_nil; intros [|[|[|]]]).
  injection Hk as Hk. injection Hro as Hro.
  assert (ns w7 !! "tf_estimator" = Some (BEstimator e)) as He.
  { rewrite Hns7. apply lookup_insert_eq. }
  exists s, d, e. repeat split; try done.
  - by rewrite Hr, Hro.
  - unfold cell_23. rewrite run_bind, (run_name_estimator _ _ _ He).
    rewrite run_bind, (run_name_str "training_input_path" (archive_address s "training"))
      by (rewrite Hns7, lookup_insert_ne by done; exact Hnt).
    rewrite run_bind, (run_name_str "validation_input_path" (archive_address s "validation"))
      by (rewrite Hns7, lookup_insert_ne by done; exact Hnv).
    apply (fit_run E "tf_estimator" e (channels s) w7 He).
  - unfold cell_23. rewrite run_bind, (run_name_estimator _ _ _ He).
    rewrite run_bind, (run_name_str "training_input_path" (archive_address s "training"))
      by (rewrite Hns7, lookup_insert_ne by done; exact Hnt).
    rewrite run_bind, (run_name_str "validation_input_path" (archive_address s "validation"))
      by (rewrite Hns7, lookup_insert_ne by done; exact Hnv).
    apply (fit_run E "tf_estimator" e (channels s) w7 He).
Qed.

(** ** Parsing a response *)

Lemma json_nested_ind (P : json → Prop) :
  P JNull → (∀ b, P (JBool b)) → (∀ z, P (JInt z)) → (∀ x, P (JFloat x)) →
  (∀ s, P (JStr s)) → (∀ t, P (JTime t)) →
  (∀ l, Forall P l → P (JList l)) →
  (∀ kvs, Forall (λ kv, P kv.2) kvs → P (JDict kvs)) →
  ∀ j, P j.
Proof.
  intros HNull HBool HInt HFloat HStr HTime HList HDict.
  fix IH 1. intros [ |b|z|x|s|t|l|kvs].
  - exact HNull.
  - apply HBool.
  - apply HInt.
  - apply HFloat.
  - apply HStr.
  - apply HTime.
  - apply HList. induction l as [|j l IHl]; constructor; [apply IH|exact IHl].
  - apply HDict. induction kvs as [|[k j] kvs IHl]; constructor; [apply IH|exact IHl].
Qed.

Lemma new_obj_spec o h :
  ∃ l, new_obj o h = (VRef l, <[l := o]> h) ∧ h !! l = None.
Proof.
  exists (fresh (dom h)). split; [reflexivity|].
  apply not_elem_of_dom, is_fresh.
Qed.

Lemma alloc_items_extends js :
  Forall (λ j, ∀ h v h', alloc_json j h = (v, h') → h ⊆ h') js →
  ∀ h vs h', alloc_items alloc_json js h = (vs, h') → h ⊆ h'.
Proof.
  induction 1 as [|j js Hj _ IH]; intros h vs h' H; simpl in H.
  - by injection H as _ <-.
  - destruct (alloc_json j h) as [v h1] eqn:H1.
    destruct (alloc_items alloc_json js h1) as [vs' h2] eqn:H2.
    injection H as _ <-. etrans; [exact (Hj _ _ _ H1)|exact (IH _ _ _ H2)].
Qed.

Lemma alloc_fields_cons k j kvs d h :
  alloc_fields alloc_json ((k, j) :: kvs) d h =
    if is_null j then alloc_fields alloc_json kvs (delete k d) h
    else let '(v, h1) := alloc_json j h in alloc_fields alloc_json kvs (<[k := v]> d) h1.
Proof. by destruct j. Qed.

Lemma alloc_fields_extends kvs :
  Forall (λ kv : string * json, ∀ h v h', alloc_json kv.2 h = (v, h') → h ⊆ h') kvs →
  ∀ d0 h d h', alloc_fields alloc_json kvs d0 h = (d, h') → h ⊆ h'.
Proof.
  induction 1 as [|[k j] kvs Hj _ IH]; intros d0 h d h' H.
  - simpl in H. by injection H as _ <-.
  - rewrite alloc_fields_cons in H. destruct (is_null j).
    + exact (IH _ _ _ _ H).
    + destruct (alloc_json j h) as [v h1] eqn:H1.
      etrans; [exact (Hj _ _ _ H1)|exact (IH _ _ _ _ H)].
Qed.

Lemma alloc_json_extends j h v h' : alloc_json j h = (v, h') → h ⊆ h'.
Proof.
  revert h v h'. induction j as [ | | | | | |l IH|kvs IH] using json_nested_ind;
    intros h v h' H; simpl in H; try (by injection H as _ <-).
  - destruct (alloc_items alloc_json l h) as [vs h1] eqn:H1.
    destruct (new_obj_spec (OList vs) h1) as (x & Hx & Hfresh).
    rewrite Hx in H. injection H as _ <-.
    etrans; [exact (alloc_items_extends _ IH _ _ _ H1)|by apply insert_subseteq].
  - destruct (alloc_fields alloc_json kvs ∅ h) as [d h1] eqn:H1.
    destruct (new_obj_spec (ODict d) h1) as (x & Hx & Hfresh).
    rewrite Hx in H. injection H as _ <-.
    etrans; [exact (alloc_fields_extends _ IH _ _ _ _ H1)|by apply insert_subseteq].
Qed.

Lemma alloc_items_grow js h vs h' : alloc_items alloc_json js h = (vs, h') → h ⊆ h'.
Proof.
  apply alloc_items_extends, Forall_forall. intros j _ ???. apply alloc_json_extends.
Qed.

Lemma alloc_fields_grow kvs d0 h d h' :
  alloc_fields alloc_json kvs d0 h = (d, h') → h ⊆ h'.
Proof.
  apply alloc_fields_extends, Forall_forall. intros j _ ???. apply alloc_json_extends.
Qed.

Lemma alloc_fields_keys kvs d0 h d h' :
  alloc_fields alloc_json kvs d0 h = (d, h') →
  (∀ k, is_Some (d !! k) ↔
        match json_member k kvs with
        | Some j => is_null j = false
        | None => is_Some (d0 !! k)
        end) ∧
  (∀ k, k ∉ kvs.*1 → d !! k = d0 !! k).
Proof.
  revert d0 h. induction kvs as [|[k j] kvs IH]; intros d0 h H.
  - simpl in H. injection H as <- _. done.
  - rewrite alloc_fields_cons in H. destruct (is_null j) eqn:Hnull.
    + destruct (IH _ _ H) as [Hin Hout]. split.
      * intros k'. rewrite Hin. cbn [json_member].
        destruct (json_member k' kvs) as [j'|]; [done|].
        destruct (decide (k = k')) as [->|Hne].
        -- rewrite lookup_delete_eq, Hnull. split; [by intros [? ?]|done].
        -- by rewrite lookup_delete_ne.
      * intros k' Hk'. cbn in Hk'. apply not_elem_of_cons in Hk' as [Hne Hk'].
        rewrite Hout by done. by rewrite lookup_delete_ne.
    + destruct (alloc_json j h) as [v h1] eqn:H1.
      destruct (IH _ _ H) as [Hin Hout]. split.
      * intros k'. rewrite Hin. cbn [json_member].
        destruct (json_member k' kvs) as [j'|]; [done|].
        destruct (decide (k = k')) as [->|Hne].
        -- rewrite lookup_insert_eq, Hnull. split; [done|by eexists].
        -- by rewrite lookup_insert_ne.
      * intros k' Hk'. cbn in Hk'. apply not_elem_of_cons in Hk' as [Hne Hk'].
        rewrite Hout by done. by rewrite lookup_insert_ne.
Qed.

Lemma alloc_fields_app a b d0 h :
  alloc_fields alloc_json (a ++ b) d0 h =
    let '(d1, h1) := alloc_fields alloc_json a d0 h in alloc_fields alloc_json b d1 h1.
Proof.
  revert d0 h. induction a as [|[k j] a IH]; intros d0 h; [done|].
  cbn [app]. rewrite !alloc_fields_cons. destruct (is_null j); [apply IH|].
  destruct (alloc_json j h) as [v h1]. apply IH.
Qed.

Lemma alloc_json_dict kvs h v h' :
  alloc_json (JDict kvs) h = (v, h') →
  ∃ l d, v = VRef l ∧ h !! l = None ∧ h' !! l = Some (ODict d) ∧
         (∀ k, has_member k kvs → is_Some (d !! k)).
Proof.
  intros H. simpl in H.
  destruct (alloc_fields alloc_json kvs ∅ h) as [d h1] eqn:H1.
  destruct (new_obj_spec (ODict d) h1) as (l & Hl & Hfresh).
  rewrite Hl in H. injection H as <- <-.
  exists l, d. split; [done|]. split; [|split].
  - eapply lookup_weaken_None; [exact Hfresh|]. by eapply alloc_fields_grow.
  - apply lookup_insert_eq.
  - intros k (j & Hj & Hnull). apply (alloc_fields_keys _ _ _ _ _ H1). by rewrite Hj.
Qed.

Lemma alloc_statuses js :
  Forall complete_json js →
  ∀ h vs h', alloc_items alloc_json js h = (vs, h') →
  ∃ ls, vs = VRef <$> ls ∧ length ls = length js ∧ NoDup ls ∧
        ∀ l, l ∈ ls → h !! l = None ∧ ∃ s, h' !! l = Some (ODict s) ∧ complete_status s.
Proof.
  induction 1 as [|j js (kvs & -> & Ht & Ha) _ IH]; intros h vs h' H.
  - simpl in H. injection H as <- _. exists []. split; [done|]. split; [done|].
    split; [constructor|]. intros l Hl. by apply elem_of_nil in Hl.
  - cbn [alloc_items] in H.
    destruct (alloc_json (JDict kvs) h) as [v h1] eqn:H1.
    destruct (alloc_items alloc_json js h1) as [vs' h2] eqn:H2.
    injection H as <- <-.
    pose proof (alloc_json_extends _ _ _ _ H1) as Hsub1.
    pose proof (alloc_items_grow _ _ _ _ H2) as Hsub2.
    apply alloc_json_dict in H1 as (l & d & -> & Hfresh & Hl & Hkeys).
    destruct (IH _ _ _ H2) as (ls & -> & Hlen & Hnd & Hls).
    exists (l :: ls). split; [done|]. split; [simpl; by rewrite Hlen|]. split.
    + constructor; [|done]. intros Hin. destruct (Hls l Hin) as [Hnone _].
      by rewrite Hl in Hnone.
    + intros l' Hl'. apply elem_of_cons in Hl' as [->|Hl'].
      * split; [done|]. exists d. split; [by eapply lookup_weaken|].
        split; by apply Hkeys.
      * destruct (Hls l' Hl') as [Hnone Hs]. split; [|done].
        by eapply lookup_weaken_None.
Qed.

Lemma alloc_description pre js post h v h' :
  alloc_json (JDict (pre ++ ("DebugRuleEvaluationStatuses", JList js) :: post)) h = (v, h') →
  "DebugRuleEvaluationStatuses" ∉ post.*1 →
  Forall complete_json js →
  h ⊆ h' ∧
  ∃ d dd ll ls, v = VRef d ∧ h' !! d = Some (ODict dd) ∧
    dd !! "DebugRuleEvaluationStatuses" = Some (VRef ll) ∧
    h' !! ll = Some (OList (VRef <$> ls)) ∧ length ls = length js ∧ NoDup ls ∧
    ∀ l, l ∈ ls → h !! l = None ∧ ∃ s, h' !! l = Some (ODict s) ∧ complete_status s.
Proof.
  intros H Hpost Hjs. split; [by eapply alloc_json_extends|].
  cbn [alloc_json] in H. rewrite alloc_fields_app in H.
  destruct (alloc_fields alloc_json pre ∅ h) as [d1 h1] eqn:H1.
  rewrite alloc_fields_cons in H. cbn [is_null alloc_json] in H.
  destruct (alloc_items alloc_json js h1) as [vs h2] eqn:H2.
  destruct (new_obj_spec (OList vs) h2) as (ll & Hll & Hfresh2). rewrite Hll in H.
  destruct (alloc_fields alloc_json post _ _) as [dd h3] eqn:H3.
  destruct (new_obj_spec (ODict dd) h3) as (d & Hd & Hfresh3). rewrite Hd in H.
  injection H as <- <-.
  pose proof (alloc_fields_grow _ _ _ _ _ H1) as Hsub1.
  pose proof (alloc_items_grow _ _ _ _ H2) as Hsub2.
  pose proof (alloc_fields_grow _ _ _ _ _ H3) as Hsub3.
  pose proof (insert_subseteq h3 d (ODict dd) Hfresh3) as Hsub4.
  destruct (alloc_statuses js Hjs _ _ _ H2) as (ls & -> & Hlen & Hnd & Hls).
  exists d, dd, ll, ls. split; [done|]. split; [apply lookup_insert_eq|].
  split.
  { destruct (alloc_fields_keys _ _ _ _ _ H3) as [_ Hout].
    rewrite Hout by done. apply lookup_insert_eq. }
  split.
  { eapply lookup_weaken; [|exact Hsub4]. eapply lookup_weaken; [|exact Hsub3].
    apply lookup_insert_eq. }
  split; [done|]. split; [done|].
  intros l Hl. destruct (Hls l Hl) as [Hnone (s & Hs & Hc)]. split.
  - by eapply lookup_weaken_None.
  - exists s. split; [|done].
    eapply lookup_weaken; [|exact Hsub4]. eapply lookup_weaken; [|exact Hsub3].
    eapply lookup_weaken; [exact Hs|]. by apply insert_subseteq.
Qed.

(** X11.  A description that was just fetched is always projected: if the
    response has a list of statuses under "DebugRuleEvaluationStatuses" and
    each status has the two fields, neither of them null, then describing
    the job and running the projection complete, one verdict is shown per
    status, and no object that existed before is changed.  The statuses of
    a response are parsed into objects that are new and distinct, so no
    status is visited twice.  (A field that is null in the response is not
    in the parsed status, and the projection raises on it.) *)
Theorem fresh_description_is_projected E w e j pre js post :
  ns w !! "tf_estimator" = Some (BEstimator e) →
  latest_training_job e = Some j →
  describe_training_job_ext E j =
    Ok (JDict (pre ++ ("DebugRuleEvaluationStatuses", JList js) :: post)) →
  "DebugRuleEvaluationStatuses" ∉ post.*1 →
  Forall complete_json js →
  ∃ w' verdicts,
    run_all [cell_26 E; cell_27] w = (Ok (), w') ∧
    out w' = out w ++ verdicts ∧
    length verdicts = length js ∧
    Forall verdict verdicts ∧
    (∀ l o, heap w !! l = Some o → heap w' !! l = Some o).
Proof.
  intros He Hj Hr Hpost Hjs.
  destruct (cell_26_run E w e j _ He Hj Hr)
    as (w1 & H26 & Hdesc & _ & Hheap & Hout & _ & _).
  destruct (alloc_json _ (heap w)) as [v h'] eqn:Halloc.
  cbn [fst snd] in Hdesc, Hheap.
  apply alloc_description in Halloc as (Hsub & d & dd & ll & ls & -> & Hd & Hll & Hls & Hsame & Hnd & Hst);
    [|done..].
  rewrite <- Hheap in Hd, Hls, Hst, Hsub.
  destruct (for_each_statuses ls w1 Hnd) as (w' & Hrun & _ & Hothers & _ & _ & _).
  { intros l Hl. destruct (Hst l Hl) as [_ (s & Hs & Ht & Ha)]. by exists s. }
  destruct (for_each_verdicts _ _ _ Hrun) as (verdicts & Hshown & Hlen & Hall).
  exists w', verdicts. split; [|split; [|split; [|split]]].
  - cbn [run_all]. rewrite run_bind, H26.
    rewrite run_bind. unfold cell_27.
    rewrite run_bind, (run_name_val _ _ _ Hdesc).
    rewrite run_bind, (run_py_getitem _ _ _ _ _ Hd Hll).
    rewrite run_bind. unfold py_iter at 1. rewrite Hls.
    rewrite Hrun. reflexivity.
  - by rewrite Hshown, Hout.
  - by rewrite Hlen, length_fmap.
  - done.
  - intros l o Hl. rewrite Hothers.
    + by eapply lookup_weaken.
    + intros Hin. destruct (Hst l Hin) as [Hnone _]. by rewrite Hl in Hnone.
Qed.

(** ** Where the errors of a run come from *)

Lemma blames_ok {A} (a : A) w w' : log w' = log w → blames w (Ok a, w').
Proof. intros H. exists []. by rewrite app_nil_r. Qed.

Lemma blames_log {A} w1 w2 (r : res A * world) :
  log w1 = log w2 → blames w1 r → blames w2 r.
Proof. unfold blames. by intros ->. Qed.

Lemma blames_call {A} ev (r : res A) w : blames w (call ev r w).
Proof.
  rewrite run_call. destruct r as [a|e]; unfold blames; proj.
  - by eexists.
  - by exists [], ev.
Qed.

Lemma blames_bind {A B} (m : M A) (k : A → M B) w :
  blames w (m w) →
  (∀ a w1, m w = (Ok a, w1) → blames w1 (k a w1)) →
  blames w ((m ≫= k) w).
Proof.
  intros Hm Hk. rewrite run_bind. destruct (m w) as [[a|e] w1]; [|exact Hm].
  destruct Hm as [evs1 Hlog1]. specialize (Hk a w1 eq_refl).
  unfold blames in *. cbn [fst snd] in *.
  destruct (k a w1) as [[b|e] w2]; cbn [fst snd] in *.
  - destruct Hk as [evs2 ->]. exists (evs1 ++ evs2). by rewrite Hlog1, app_assoc.
  - destruct Hk as (evs2 & ev & ->). exists (evs1 ++ evs2), ev.
    by rewrite Hlog1, !app_assoc.
Qed.

Lemma blames_makedirs p exist_ok w : blames w (makedirs p exist_ok w).
Proof.
  unfold makedirs.
  destruct (fs w !! normpath p) as [[|c]|]; [destruct exist_ok|..];
    unfold blames; proj; first [by eexists | by eexists [], _].
Qed.

Lemma blames_savez file arrays w : blames w (savez file arrays w).
Proof.
  unfold savez.
  destruct (negb _); [|destruct (fs w !! _) as [[|c]|]];
    unfold blames; proj; first [by eexists | by eexists [], _].
Qed.

Lemma blames_sh E script args w : blames w (sh E script args w).
Proof.
  unfold sh. rewrite run_bind. unfold get_world at 1. cbv beta iota.
  apply blames_bind; [apply blames_call|].
  intros o w1 _. by apply blames_ok.
Qed.

Lemma blames_cell_6 E w : blames w (cell_6 E w).
Proof.
  unfold cell_6.
  apply blames_bind; [by apply blames_ok|]. intros _ w1 _.
  apply blames_bind; [apply blames_call|]. intros s w2 _.
  apply blames_bind; [by apply blames_ok|]. intros _ w3 _.
  apply blames_bind; [apply blames_call|]. intros r w4 _.
  by apply blames_ok.
Qed.

Lemma blames_cell_9 E w : blames w (cell_9 E w).
Proof.
  unfold cell_9.
  apply blames_bind; [apply blames_call|]. intros [[xt yt] [xv yv]] w1 _.
  rewrite run_bind, run_store_name. rewrite run_bind, run_store_name.
  rewrite run_bind, run_store_name. rewrite run_bind, run_store_name.
  eapply blames_log; [|apply blames_bind; [apply blames_makedirs|]]; [done|].
  intros [] w2 Hmk.
  assert (ns w2 = <["y_val" := BArr yv]> (<["x_val" := BArr xv]>
            (<["y_train" := BArr yt]> (<["x_train" := BArr xt]> (ns w1))))) as Hns2.
  { eapply (keeps_run ns) in Hmk; [exact Hmk|].
    apply keeps_makedirs_state; [done|ignores_tac]. }
  rewrite run_bind, (run_name_arr "x_train" xt)
    by (rewrite Hns2, !lookup_insert_ne by done; apply lookup_insert_eq).
  rewrite run_bind, (run_name_arr "y_train" yt)
    by (rewrite Hns2, !lookup_insert_ne by done; apply lookup_insert_eq).
  apply blames_bind; [apply blames_savez|]. intros [] w3 Hsv.
  assert (ns w3 = ns w2) as Hns3.
  { eapply (keeps_run ns) in Hsv; [exact Hsv|].
    apply keeps_savez_state; [done|ignores_tac]. }
  rewrite run_bind, (run_name_arr "x_val" xv)
    by (rewrite Hns3, Hns2, !lookup_insert_ne by done; apply lookup_insert_eq).
  rewrite run_bind, (run_name_arr "y_val" yv)
    by (rewrite Hns3, Hns2; apply lookup_insert_eq).
  apply blames_savez.
Qed.

Lemma blames_cell_13 E w : blames w (cell_13 E w).
Proof.
  unfold cell_13, expand. rewrite run_bind.
  destruct (ns w !! "keras_script_path") as [[[]| | | | |]|]; apply blames_sh.
Qed.

Lemma blames_cell_30 E w : blames w (cell_30 E w).
Proof.
  unfold cell_30, expand. rewrite run_bind.
  destruct (ns w !! "s3_output_path") as [[[]| | | | |]|]; apply blames_sh.
Qed.

Lemma blames_cell_17 E w s ct cv :
  ns w !! "sess" = Some (BSession s) →
  fs w !! "data/training.npz" = Some (File ct) →
  fs w !! "data/validation.npz" = Some (File cv) →
  blames w (cell_17 E w).
Proof.
  intros Hs Ht Hv.
  destruct (cell_17_run E w s ct cv Hs Ht Hv) as (w' & -> & _ & _ & _ & Hlog & _).
  unfold blames; cbn [fst snd]. rewrite Hlog.
  destruct (put_training E s ct) as [[]|e]; [destruct (put_validation E s cv) as [[]|e]|].
  - by eexists.
  - by exists [(EvOpenRead "data/training.npz", None);
               (EvS3Put (default_bucket s) (archive_key "training"), None);
               (EvOpenRead "data/validation.npz", None)], (EvS3Put (default_bucket s) (archive_key "validation")).
  - by exists [(EvOpenRead "data/training.npz", None)],
              (EvS3Put (default_bucket s) (archive_key "training")).
Qed.

Lemma blames_cell_21 E w k r :
  ns w !! "keras_script_path" = Some (BVal (VStr k)) →
  ns w !! "role" = Some (BVal (VStr r)) →
  blames w (cell_21 E w).
Proof.
  intros Hk Hr. unfold cell_21.
  rewrite run_bind, (run_name_str _ _ _ Hk).
  rewrite run_bind, (run_name_str _ _ _ Hr).
  apply blames_bind; [apply blames_call|]. intros s w1 _. by apply blames_ok.
Qed.

Lemma blames_cell_23 E w t v e :
  ns w !! "training_input_path" = Some (BVal (VStr t)) →
  ns w !! "validation_input_path" = Some (BVal (VStr v)) →
  ns w !! "tf_estimator" = Some (BEstimator e) →
  blames w (cell_23 E w).
Proof.
  intros Ht Hv He. unfold cell_23.
  rewrite run_bind, (run_name_estimator _ _ _ He).
  rewrite run_bind, (run_name_str _ _ _ Ht).
  rewrite run_bind, (run_name_str _ _ _ Hv).
  destruct (fit_run E "tf_estimator" e [("training", t); ("validation", v)] w He)
    as (Hres & Hlog & _).
  unfold blames. rewrite Hres, Hlog.
  destruct (fit_ext E e _); cbn [fit_result failure]; first [by eexists | by eexists [], _].
Qed.

Lemma cell_23_ok_inv E w t v e w' :
  ns w !! "training_input_path" = Some (BVal (VStr t)) →
  ns w !! "validation_input_path" = Some (BVal (VStr v)) →
  ns w !! "tf_estimator" = Some (BEstimator e) →
  cell_23 E w = (Ok (), w') →
  ∃ e' j, ns w' !! "tf_estimator" = Some (BEstimator e') ∧
          latest_training_job e' = Some j.
Proof.
  intros Ht Hv He. unfold cell_23.
  rewrite run_bind, (run_name_estimator _ _ _ He).
  rewrite run_bind, (run_name_str _ _ _ Ht).
  rewrite run_bind, (run_name_str _ _ _ Hv).
  destruct (fit_run E "tf_estimator" e [("training", t); ("validation", v)] w He)
    as (Hres & _ & Hns).
  intros H. rewrite H in Hres, Hns. cbn [fst snd] in Hres, Hns.
  destruct (fit_ext E e _) as [?|? ?|j]; try discriminate Hres.
  eexists _, j. split; [exact Hns|reflexivity].
Qed.

Lemma blames_cell_26 E w e j :
  ns w !! "tf_estimator" = Some (BEstimator e) →
  latest_training_job e = Some j →
  blames w (cell_26 E w).
Proof.
  intros He Hj. unfold cell_26.
  rewrite run_bind, (run_name_estimator _ _ _ He). rewrite Hj.
  rewrite run_bind, run_mret.
  rewrite run_bind, run_store_name.
  rewrite run_bind, (run_name_estimator "tf_estimator" e)
    by (proj; by rewrite lookup_insert_ne).
  rewrite run_bind, run_store_name.
  rewrite run_bind, (run_name_session "client" (sagemaker_session e))
    by (proj; apply lookup_insert_eq).
  rewrite run_bind, (run_name_str "job_name" j)
    by (proj; rewrite lookup_insert_ne by done; apply lookup_insert_eq).
  eapply blames_log; [|apply blames_bind; [apply blames_call|]]; [done|].
  intros r w1 _. rewrite run_bind. unfold parse at 1.
  destruct (alloc_json r (heap w1)) as [v h']. rewrite run_store_name.
  by apply blames_ok.
Qed.

Lemma blames_cell_31 E w p :
  ns w !! "s3_output_path" = Some (BVal (VStr p)) → blames w (cell_31 E w).
Proof.
  intros Hp. unfold cell_31. rewrite run_bind, (run_name_str _ _ _ Hp).
  apply blames_bind; [apply blames_call|]. intros t w1 _.
  rewrite run_bind, run_store_name. rewrite run_bind. unfold load_name at 1. proj.
  rewrite lookup_insert_eq. by apply blames_ok.
Qed.

Lemma cell_31_ok_inv E w w' :
  cell_31 E w = (Ok (), w') → ∃ t, ns w' !! "trial" = Some (BTrial t).
Proof.
  unfold cell_31. intros H.
  apply bind_ok_inv in H as (p & ? & Hn & H). apply name_str_ok_inv in Hn as [_ ->].
  apply bind_ok_inv in H as (t & ? & Hc & H). apply call_inv in Hc as [_ ->].
  apply bind_ok_inv in H as (? & ? & Hs & H). apply store_name_inv in Hs as [_ ->].
  apply bind_ok_inv in H as (b & ? & Hl & H).
  unfold load_name in Hl. proj in Hl. rewrite lookup_insert_eq in Hl.
  apply ok_inj in Hl as [_ <-]. unfold display, modify in H.
  apply ok_inj in H as [_ <-]. exists t. proj. apply lookup_insert_eq.
Qed.

Lemma run_name_trial x t w : ns w !! x = Some (BTrial t) → name_trial x w = (Ok t, w).
Proof. intros H. unfold name_trial, load_name. rewrite run_bind, H. reflexivity. Qed.

Lemma blames_cell_32 E w t :
  ns w !! "trial" = Some (BTrial t) → blames w (cell_32 E w).
Proof.
  intros Ht. unfold cell_32. rewrite run_bind, (run_name_trial _ _ _ Ht).
  apply blames_bind; [apply blames_call|]. intros l w1 _. by apply blames_ok.
Qed.

Lemma cell_32_ok_inv E w w' : cell_32 E w = (Ok (), w') → ns w' = ns w.
Proof.
  intros H. eapply (keeps_run ns) in H; [exact H|].
  unfold cell_32, name_trial. keeps_tac.
Qed.

Lemma blames_cell_33 E w t :
  ns w !! "trial" = Some (BTrial t) → blames w (cell_33 E w).
Proof.
  intros Ht. unfold cell_33. rewrite run_bind, (run_name_trial _ _ _ Ht).
  apply blames_bind; [apply blames_call|]. intros _ w1 _.
  apply blames_bind; [apply blames_call|]. intros l w2 _. by apply blames_ok.
Qed.

Lemma cell_33_ok_inv E w w' :
  cell_33 E w = (Ok (), w') → ∃ l, ns w' !! "loss_values" = Some (BSeries l).
Proof.
  unfold cell_33. intros H.
  apply bind_ok_inv in H as (t & w1 & _ & H).
  apply bind_ok_inv in H as (? & w2 & _ & H).
  apply bind_ok_inv in H as (l & w3 & _ & H).
  rewrite run_store_name in H. apply ok_inj in H as [_ <-].
  exists l. proj. apply lookup_insert_eq.
Qed.

Lemma blames_cell_34 w l :
  ns w !! "loss_values" = Some (BSeries l) → blames w (cell_34 w).
Proof.
  intros Hl. unfold cell_34. rewrite run_bind. unfold load_name at 1. rewrite Hl.
  by apply blames_ok.
Qed.

Lemma not_uploader_name x :
  x ≠ "prefix" → x ≠ "training_input_path" → x ≠ "validation_input_path" →
  x ∉ ["prefix"; "training_input_path"; "validation_input_path"].
Proof. intros ???. rewrite !elem_of_cons, elem_of_nil. by intros [|[|[|]]]. Qed.

Lemma blames_up_to_description E w : blames w (run_all (up_to_description E) w).
Proof.
  unfold up_to_description.
  change (take 9 (notebook E))
    with [cell_6 E; cell_9 E; cell_10 E; cell_12; cell_13 E; cell_17 E; cell_21 E;
          cell_23 E; cell_26 E].
  cbn [run_all].
  apply blames_bind; [apply blames_cell_6|]. intros [] w1 H6.
  apply cell_6_ok_inv in H6 as (s & r & _ & _ & Hns1 & _).
  apply blames_bind; [apply blames_cell_9|]. intros [] w2 H9.
  apply cell_9_inv in H9 as (d & _ & _ & _ & _ & ->).
  apply blames_bind; [apply blames_sh|]. intros [] w3 H10.
  apply sh_ok_inv in H10 as [Hns3 Hfs3].
  apply blames_bind; [by apply blames_ok|]. intros [] w4 H12.
  unfold cell_12 in H12. rewrite run_store_name in H12. apply ok_inj in H12 as [_ <-].
  apply blames_bind; [apply blames_cell_13|]. intros [] w5 H13.
  apply cell_13_ok_inv in H13 as [Hns5 Hfs5]. proj in Hns5. proj in Hfs5.
  assert (ns w5 !! "sess" = Some (BSession s)) as Hsess.
  { rewrite Hns5, Hns3. unfold staged; proj. rewrite Hns1.
    rewrite !lookup_insert_ne by done. apply lookup_insert_eq. }
  assert (ns w5 !! "role" = Some (BVal (VStr r))) as Hrole.
  { rewrite Hns5, Hns3. unfold staged; proj. rewrite Hns1.
    rewrite !lookup_insert_ne by done. apply lookup_insert_eq. }
  assert (ns w5 !! "keras_script_path" = Some (BVal (VStr "/root/aim410/mnist_keras_tf.py")))
    as Hpath.
  { rewrite Hns5. apply lookup_insert_eq. }
  assert (fs w5 !! "data/training.npz" = Some (File (archive_of d.1))) as Ht5.
  { rewrite Hfs5, Hfs3. unfold staged; proj.
    rewrite lookup_insert_ne by done. apply lookup_insert_eq. }
  assert (fs w5 !! "data/validation.npz" = Some (File (archive_of d.2))) as Hv5.
  { rewrite Hfs5, Hfs3. unfold staged; proj. apply lookup_insert_eq. }
  destruct (cell_17_run E w5 s _ _ Hsess Ht5 Hv5)
    as (w6' & Hrun & _ & _ & Hother & _ & Hnt & Hnv & _).
  apply blames_bind; [exact (blames_cell_17 E w5 s _ _ Hsess Ht5 Hv5)|].
  intros [] w6 H17. rewrite H17 in Hrun.
  destruct (put_training E s (archive_of d.1)) as [[]|?]; [|discriminate Hrun].
  destruct (put_validation E s (archive_of d.2)) as [[]|?]; [|discriminate Hrun].
  apply ok_inj in Hrun as [_ <-].
  assert (ns w6 !! "role" = Some (BVal (VStr r))) as Hrole6
    by (by rewrite Hother by (by apply not_uploader_name)).
  assert (ns w6 !! "keras_script_path" = Some (BVal (VStr "/root/aim410/mnist_keras_tf.py")))
    as Hpath6 by (by rewrite Hother by (by apply not_uploader_name)).
  apply blames_bind; [by eapply blames_cell_21|]. intros [] w7 H21.
  apply cell_21_inv in H21 as (e & Hns7 & _).
  assert (ns w7 !! "tf_estimator" = Some (BEstimator e)) as He
    by (rewrite Hns7; apply lookup_insert_eq).
  assert (ns w7 !! "training_input_path" = Some (BVal (VStr (archive_address s "training"))))
    as Ht7 by (rewrite Hns7, lookup_insert_ne by done; exact Hnt).
  assert (ns w7 !! "validation_input_path" =
            Some (BVal (VStr (archive_address s "validation"))))
    as Hv7 by (rewrite Hns7, lookup_insert_ne by done; exact Hnv).
  apply blames_bind; [by eapply blames_cell_23|]. intros [] w8 H23.
  apply (cell_23_ok_inv E w7 _ _ e w8 Ht7 Hv7 He) in H23 as (e' & j & He' & Hj).
  apply blames_bind; [by eapply blames_cell_26|]. intros [] w9 _.
  by apply blames_ok.
Qed.

Lemma blames_output_readers E w p :
  ns w !! "s3_output_path" = Some (BVal (VStr p)) →
  blames w (run_all (output_readers E) w).
Proof.
  intros Hp. unfold output_readers.
  change (drop 11 (notebook E))
    with [cell_30 E; cell_31 E; cell_32 E; cell_33 E; cell_34].
  cbn [run_all].
  apply blames_bind; [apply blames_cell_30|]. intros [] w1 H30.
  assert (ns w1 = ns w) as Hns1.
  { unfold cell_30 in H30. apply bind_ok_inv in H30 as (a & w0 & Ha & H).
    assert (w0 = w) as ->.
    { unfold expand in Ha. rewrite Hp in Ha. by apply ok_inj in Ha as [_ <-]. }
    by apply sh_ok_inv in H as [? _]. }
  apply blames_bind; [apply (blames_cell_31 E w1 p); by rewrite Hns1|]. intros [] w2 H31.
  apply cell_31_ok_inv in H31 as [t Ht].
  apply blames_bind; [by eapply blames_cell_32|]. intros [] w3 H32.
  apply cell_32_ok_inv in H32. rewrite <- H32 in Ht.
  apply blames_bind; [by eapply blames_cell_33|]. intros [] w4 H33.
  apply cell_33_ok_inv in H33 as [l Hl].
  apply blames_bind; [by eapply blames_cell_34|]. intros [] w5 _.
  by apply blames_ok.
Qed.

Lemma cell_29_binds_path w w' :
  cell_29 w = (Ok (), w') → ∃ p, ns w' !! "s3_output_path" = Some (BVal (VStr p)).
Proof.
  intros H. pose proof (cell_29_ready _ _ H) as (d & dd & c & cc & s & n & Hd & Hdd & Hc & Hcc & Hs & Hn).
  rewrite (cell_29_run w d dd c cc s n Hd Hdd Hc Hcc Hs Hn) in H.
  apply ok_inj in H as [_ <-]. eexists. proj. apply lookup_insert_eq.
Qed.

(** X12.  Where the errors of a run come from.  If a run of the notebook
    raises [e], then either [e] is the error of a call to a collaborator
    that failed, and that call is the last one logged, or the cells up to
    the description of the job completed and [e] was raised by one of the
    two projections of the description, without any further call.  In
    particular no cell fails on a name that an earlier cell should have
    bound. *)
Theorem errors_are_failed_calls_or_projections E w e w' :
  run_all (notebook E) w = (Raise e, w') →
  (∃ evs ev, log w' = log w ++ evs ++ [(ev, Some e)]) ∨
  (∃ w9, run_all (up_to_description E) w = (Ok (), w9) ∧
         run_all projections w9 = (Raise e, w') ∧ log w' = log w9).
Proof.
  change (notebook E) with (up_to_description E ++ projections ++ output_readers E).
  rewrite run_all_app. pose proof (blames_up_to_description E w) as H9.
  destruct (run_all (up_to_description E) w) as [[[]|e9] w9].
  2:{ intros [= -> ->]. left. exact H9. }
  destruct H9 as [evs9 Hlog9]. cbn [snd] in Hlog9.
  rewrite run_all_app.
  destruct (run_all projections w9) as [[[]|e11] w11] eqn:H11.
  2:{ intros [= -> ->]. right. exists w9. split; [done|]. split; [done|].
      eapply (keeps_run log) in H11; [exact H11|].
      apply keeps_run_all. unfold projections. each_cell.
      - apply cell_27_keeps_log.
      - apply cell_29_keeps_log. }
  intros Hrun. left.
  assert (log w11 = log w9) as Hlog11.
  { eapply (keeps_run log) in H11; [exact H11|].
    apply keeps_run_all. unfold projections. each_cell.
    - apply cell_27_keeps_log.
    - apply cell_29_keeps_log. }
  assert (∃ p, ns w11 !! "s3_output_path" = Some (BVal (VStr p))) as [p Hp].
  { unfold projections in H11. cbn [run_all] in H11.
    apply bind_ok_inv in H11 as ([] & w10 & _ & H11).
    apply bind_ok_inv in H11 as ([] & w11' & H29 & H11).
    rewrite run_mret in H11. apply ok_inj in H11 as [_ ->].
    by apply cell_29_binds_path in H29. }
  pose proof (blames_output_readers E w11 p Hp) as Hb.
  rewrite Hrun in Hb. destruct Hb as (evs & ev & Hlog).
  exists (evs9 ++ evs), ev. cbn [snd] in Hlog.
  by rewrite Hlog, Hlog11, Hlog9, !app_assoc.
Qed.

(** ** From the description to the recorded tensor *)

Lemma run_expand E x s w :
  ns w !! x = Some (BVal (VStr s)) → expand E x w = (Ok s, w).
Proof. intros H. unfold expand. by rewrite H. Qed.

Lemma sh_inv E script args w w' :
  sh E script args w = (Ok (), w') →
  ∃ o, sh_ext E script args (fs w) = Ok o ∧
       w' = add_out (SText o) (add_log (EvSh script args) None w).
Proof.
  unfold sh. rewrite run_bind. unfold get_world at 1. cbv beta iota.
  rewrite run_bind, run_call.
  destruct (sh_ext E script args (fs w)) as [o|e]; intros H; [|discriminate H].
  apply ok_inj in H as [_ <-]. by exists o.
Qed.

Lemma cell_30_inv E w p w' :
  ns w !! "s3_output_path" = Some (BVal (VStr p)) →
  cell_30 E w = (Ok (), w') →
  ∃ o, sh_ext E "aws s3 ls --recursive $1" [p] (fs w) = Ok o ∧
       w' = add_out (SText o) (add_log (EvSh "aws s3 ls --recursive $1" [p]) None w).
Proof.
  intros Hp. unfold cell_30. rewrite run_bind, (run_expand _ _ _ _ Hp). apply sh_inv.
Qed.

Lemma cell_31_inv E w p w' :
  ns w !! "s3_output_path" = Some (BVal (VStr p)) →
  cell_31 E w = (Ok (), w') →
  ∃ t, create_trial_ext E p = Ok t ∧
       w' = add_out (SBind (BTrial t))
              (set_ns <["trial" := BTrial t]> (add_log (EvCreateTrial p) None w)).
Proof.
  intros Hp. unfold cell_31. rewrite run_bind, (run_name_str _ _ _ Hp).
  rewrite run_bind, run_call.
  destruct (create_trial_ext E p) as [t|e]; [|intros H; discriminate H].
  rewrite run_bind, run_store_name.
  rewrite run_bind. unfold load_name at 1. proj. rewrite lookup_insert_eq.
  intros H. apply ok_inj in H as [_ <-]. by exists t.
Qed.

Lemma cell_32_inv E w t w' :
  ns w !! "trial" = Some (BTrial t) →
  cell_32 E w = (Ok (), w') →
  ∃ names, tensor_names_ext E t = Ok names ∧
           w' = add_out (SNames names) (add_log (EvTensorNames t) None w).
Proof.
  intros Ht. unfold cell_32. rewrite run_bind, (run_name_trial _ _ _ Ht).
  rewrite run_bind, run_call.
  destruct (tensor_names_ext E t) as [names|e]; intros H; [|discriminate H].
  apply ok_inj in H as [_ <-]. by exists names.
Qed.

Lemma cell_33_inv E w t w' :
  ns w !! "trial" = Some (BTrial t) →
  cell_33 E w = (Ok (), w') →
  ∃ l, tensor_ext E t "val_loss" = Ok () ∧ values_ext E t "val_loss" = Ok l ∧
       w' = set_ns <["loss_values" := BSeries l]>
              (add_log (EvValues t "val_loss") None
                 (add_log (EvTensor t "val_loss") None w)).
Proof.
  intros Ht. unfold cell_33. rewrite run_bind, (run_name_trial _ _ _ Ht).
  rewrite run_bind, run_call.
  destruct (tensor_ext E t "val_loss") as [[]|e]; intros H; [|discriminate H].
  rewrite run_bind, run_call in H.
  destruct (values_ext E t "val_loss") as [l|e]; [|discriminate H].
  rewrite run_store_name in H.
  apply ok_inj in H as [_ <-]. by exists l.
Qed.

Lemma cell_34_inv w b w' :
  ns w !! "loss_values" = Some b →
  cell_34 w = (Ok (), w') → w' = add_out (SBind b) w.
Proof.
  intros Hb. unfold cell_34. rewrite run_bind. unfold load_name at 1. rewrite Hb.
  intros H. by apply ok_inj in H as [_ <-].
Qed.

(** X13.  From the description to the recorded tensor.  On a snapshot with
    an output path [s] and a job name [n], if the cells from the output-path
    cell to the end complete, then the listing, and the trial, are made on
    the path [s ++ n ++ "/debug-output/"] that was printed; the tensor names
    are those of that trial; [loss_values] is bound to the recorded values
    of its tensor [val_loss]; and the five outputs and the five calls occur
    in the order of the cells. *)
Theorem trial_is_read_from_the_output_path E w w' d dd c cc s n :
  ns w !! "description" = Some (BVal (VRef d)) →
  heap w !! d = Some (ODict dd) →
  dd !! "DebugHookConfig" = Some (VRef c) →
  heap w !! c = Some (ODict cc) →
  cc !! "S3OutputPath" = Some (VStr s) →
  ns w !! "job_name" = Some (BVal (VStr n)) →
  run_all (drop 10 (notebook E)) w = (Ok (), w') →
  let p := s +:+ n +:+ "/debug-output/" in
  ∃ o t names l,
    sh_ext E "aws s3 ls --recursive $1" [p] (fs w) = Ok o ∧
    create_trial_ext E p = Ok t ∧
    tensor_names_ext E t = Ok names ∧
    tensor_ext E t "val_loss" = Ok () ∧
    values_ext E t "val_loss" = Ok l ∧
    ns w' !! "loss_values" = Some (BSeries l) ∧
    out w' = out w ++ [SText p; SText o; SBind (BTrial t); SNames names; SBind (BSeries l)] ∧
    log w' = log w ++
      [(EvSh "aws s3 ls --recursive $1" [p], None); (EvCreateTrial p, None);
       (EvTensorNames t, None); (EvTensor t "val_loss", None);
       (EvValues t "val_loss", None)].
Proof.
  intros Hd Hdd Hc Hcc Hs Hn.
  change (drop 10 (notebook E))
    with [cell_29; cell_30 E; cell_31 E; cell_32 E; cell_33 E; cell_34].
  cbn [run_all]. intros H. cbv zeta. set (p := s +:+ n +:+ "/debug-output/").
  apply bind_ok_inv in H as ([] & w1 & H29 & H).
  apply bind_ok_inv in H as ([] & w2 & H30 & H).
  apply bind_ok_inv in H as ([] & w3 & H31 & H).
  apply bind_ok_inv in H as ([] & w4 & H32 & H).
  apply bind_ok_inv in H as ([] & w5 & H33 & H).
  apply bind_ok_inv in H as ([] & w6 & H34 & H).
  rewrite run_mret in H. apply ok_inj in H as [_ ->].
  rewrite (cell_29_run w d dd c cc s n Hd Hdd Hc Hcc Hs Hn) in H29.
  apply ok_inj in H29 as [_ <-]. fold p in H30.
  apply (cell_30_inv E _ p) in H30 as (o & Ho & ->); [|proj; apply lookup_insert_eq].
  apply (cell_31_inv E _ p) in H31 as (t & Ht & ->); [|proj; apply lookup_insert_eq].
  apply (cell_32_inv E _ t) in H32 as (names & Hnames & ->); [|proj; apply lookup_insert_eq].
  apply (cell_33_inv E _ t) in H33 as (l & Htensor & Hvalues & ->);
    [|proj; apply lookup_insert_eq].
  apply (cell_34_inv _ (BSeries l)) in H34 as ->; [|proj; apply lookup_insert_eq].
  exists o, t, names, l. proj. rewrite <- !app_assoc.
  split; [exact Ho|]. split; [exact Ht|]. split; [exact Hnames|].
  split; [exact Htensor|]. split; [exact Hvalues|].
  split; [apply lookup_insert_eq|]. split; reflexivity.
Qed.

(** ** The objects of the heap *)

Lemma put_files_keeps_heap E s dir k l : keeps heap (put_files E s dir k l).
Proof.
  induction l as [|[rel c] l IH]; simpl; [apply keeps_ret|].
  unfold put_file. keeps_tac.
Qed.

Lemma upload_data_keeps_heap E s path k : keeps heap (upload_data E s path k).
Proof.
  pose proof (put_files_keeps_heap E). unfold upload_data, put_file. keeps_tac.
Qed.

Lemma sh_keeps_heap E script args : keeps heap (sh E script args).
Proof. unfold sh. keeps_tac. Qed.

Lemma fit_keeps_heap E x inputs : keeps heap (fit E x inputs).
Proof. unfold fit, name_estimator. cbv zeta. keeps_tac. Qed.

Lemma cell_9_keeps_heap E : keeps heap (cell_9 E).
Proof.
  assert (∀ q ok, keeps heap (makedirs q ok))
    by (intros; apply keeps_makedirs_state; [done|ignores_tac]).
  assert (∀ file arrays, keeps heap (savez file arrays))
    by (intros; apply keeps_savez_state; [done|ignores_tac]).
  unfold cell_9, name_arr. keeps_tac.
Qed.

Lemma grows_keeps {A} (m : M A) w : keeps heap m → heap w ⊆ heap (m w).2.
Proof. intros H. by rewrite H. Qed.

Lemma grows_bind {A B} (m : M A) (k : A → M B) w :
  heap w ⊆ heap (m w).2 → (∀ a w1, heap w1 ⊆ heap (k a w1).2) →
  heap w ⊆ heap ((m ≫= k) w).2.
Proof.
  intros Hm Hk. rewrite run_bind. destruct (m w) as [[a|e] w1]; [|exact Hm].
  etrans; [exact Hm|apply Hk].
Qed.

Lemma grows_parse j w : heap w ⊆ heap (parse j w).2.
Proof.
  unfold parse. destruct (alloc_json j (heap w)) as [v h] eqn:H. proj.
  by eapply alloc_json_extends.
Qed.

Lemma cell_26_grows E w : heap w ⊆ heap (cell_26 E w).2.
Proof.
  unfold cell_26.
  apply grows_bind; [apply grows_keeps; unfold name_estimator; keeps_tac|]. intros e w1.
  apply grows_bind; [apply grows_keeps; keeps_tac|]. intros j w2.
  apply grows_bind; [apply grows_keeps; keeps_tac|]. intros _ w3.
  apply grows_bind; [apply grows_keeps; unfold name_estimator; keeps_tac|]. intros e' w4.
  apply grows_bind; [apply grows_keeps; keeps_tac|]. intros _ w5.
  apply grows_bind; [apply grows_keeps; unfold name_session; keeps_tac|]. intros _ w6.
  apply grows_bind; [apply grows_keeps; unfold name_str, name_val; keeps_tac|].
  intros job_name w7.
  apply grows_bind; [apply grows_keeps; keeps_tac|]. intros r w8.
  apply grows_bind; [apply grows_parse|]. intros d w9.
  apply grows_keeps. keeps_tac.
Qed.

(** X14.  Every cell of the notebook but the projection only adds objects:
    whatever the cell returns, each object that existed before it ran is
    still there, unchanged.  (Only the description of a job adds any; the
    other cells leave the heap as it is.) *)
Theorem objects_are_only_added_outside_the_projection E i c w :
  notebook E !! i = Some c → i ≠ 9 → heap w ⊆ heap (c w).2.
Proof.
  intros Hc Hi.
  pose proof (upload_data_keeps_heap E). pose proof (sh_keeps_heap E).
  pose proof (fit_keeps_heap E). pose proof (cell_9_keeps_heap E).
  repeat (destruct i as [|i]; [injection Hc as <-|]);
    try (apply grows_keeps; unfold_cells; solve [keeps_tac]).
  - apply cell_26_grows.
  - done.
  - discriminate Hc.

Qed.

(** ** The theorems at the small run *)



Lemma stager_writes_two_archives_witness :
  ∃ w', dataset_stager Demo.E (fresh_kernel ∅) = (Ok (), w') ∧
        writes (log w') = ["./data/training.npz"; "./data/validation.npz"].
Proof.
  destruct (stager_writes_two_archives Demo.E (fresh_kernel ∅)
              (Demo.images 3) (Demo.labels 3) (Demo.images 2) (Demo.labels 2))
    as (w' & Hrun & _ & Hw).
  - reflexivity.
  - intros c H. vm_compute in H. discriminate H.
  - intros H. vm_compute in H. discriminate H.
  - intros H. vm_compute in H. discriminate H.
  - exists w'. split; [exact Hrun | exact Hw].
Defined.

Lemma uploader_address_deterministic_witness :
  Demo.address (upload_data Demo.E Demo.account "data/training.npz"
                  "keras-fashion-mnist/training" Demo.here) =
  Demo.address (upload_data Demo.E_rejected Demo.account "backup/training.npz"
                  "keras-fashion-mnist/training" Demo.there).
Proof.
  apply (uploader_address_deterministic Demo.E Demo.E_rejected Demo.account
           Demo.here Demo.there "data/training.npz" "backup/training.npz"
           "keras-fashion-mnist/training" (Raw "first") (Raw "second")
           (Demo.address (upload_data Demo.E Demo.account "data/training.npz"
                            "keras-fashion-mnist/training" Demo.here))
           (Demo.address (upload_data Demo.E_rejected Demo.account
                            "backup/training.npz" "keras-fashion-mnist/training"
                            Demo.there))
           (upload_data Demo.E Demo.account "data/training.npz"
              "keras-fashion-mnist/training" Demo.here).2
           (upload_data Demo.E_rejected Demo.account "backup/training.npz"
              "keras-fashion-mnist/training" Demo.there).2);
    vm_compute; reflexivity.
Defined.

Lemma missing_output_path_raises_witness :
  ∃ e, cell_29 (Demo.after 10 Demo.E_without_hook)
       = (Raise e, Demo.after 10 Demo.E_without_hook).
Proof.
  destruct (missing_output_path_raises (Demo.after 10 Demo.E_without_hook) 1
              (Demo.dict_at 1 (Demo.after 10 Demo.E_without_hook)))
    as (e & Hrun & _).
  - vm_compute. reflexivity.
  - vm_compute. reflexivity.
  - intros (c & cc & v & H & _). vm_compute in H. discriminate H.
  - exists e. exact Hrun.
Defined.

Lemma output_path_is_concatenation_witness :
  ns (cell_29 (Demo.after 10 Demo.E)).2 !! "s3_output_path" =
  Some (BVal (VStr "s3://sagemaker-us-east-2-demo/job-1/debug-output/")).
Proof.
  destruct (output_path_is_concatenation (Demo.after 10 Demo.E) 4
              (Demo.dict_at 4 (Demo.after 10 Demo.E)) 0
              (Demo.dict_at 0 (Demo.after 10 Demo.E))
              "s3://sagemaker-us-east-2-demo/" "job-1") as (Hrun & _ & _).
  1-6: vm_compute; reflexivity.
  rewrite Hrun. apply lookup_insert_eq.
Defined.


Lemma notebook_error_aborts_witness :
  run_all (notebook Demo.E_rejected) (fresh_kernel ∅) =
  (Raise (ExternalError "sagemaker" "ValidationException"),
   Demo.after 8 Demo.E_rejected).
Proof.
  destruct (notebook_error_aborts Demo.E_rejected
              (take 7 (notebook Demo.E_rejected)) (cell_23 Demo.E_rejected)
              (drop 8 (notebook Demo.E_rejected))
              (fresh_kernel ∅) (Demo.after 7 Demo.E_rejected)
              (Demo.after 8 Demo.E_rejected)
              (ExternalError "sagemaker" "ValidationException")) as [Hrun _].
  - reflexivity.
  - vm_compute. reflexivity.
  - vm_compute. reflexivity.
  - exact Hrun.
Defined.

Lemma archives_written_once_witness :
  writes (log (Demo.after 16 Demo.E)) =
  ["./data/training.npz"; "./data/validation.npz"].
Proof.
  destruct (archives_written_once Demo.E (fresh_kernel ∅) (Demo.after 16 Demo.E))
    as (Hw & _).
  - vm_compute. reflexivity.
  - exact Hw.
Defined.

Lemma verdict_projection_pops_two_fields_witness :
  ∃ w', cell_27 (Demo.after 9 Demo.E) = (Ok (), w') ∧
        ns w' !! "description" = Some (BVal (VRef 4)).
Proof.
  destruct (verdict_projection_pops_two_fields (Demo.after 9 Demo.E) 4
              (Demo.dict_at 4 (Demo.after 9 Demo.E)) 3 [1; 2])
    as (w' & Hrun & Hd & _).
  - vm_compute. reflexivity.
  - vm_compute. reflexivity.
  - vm_compute. reflexivity.
  - vm_compute. reflexivity.
  - apply NoDup_cons. split; [|apply NoDup_singleton].
    intros H. apply list_elem_of_singleton in H. discriminate H.
  - intros l Hl. exists (Demo.dict_at l (Demo.after 9 Demo.E)).
    apply elem_of_cons in Hl as [->|Hl];
      [|apply list_elem_of_singleton in Hl as ->];
      (split; [vm_compute; reflexivity|]); split; vm_compute; eexists; reflexivity.
  - exists w'. split; [exact Hrun | exact Hd].
Defined.

(** ** The further theorems at the small runs *)

Lemma verdict_projection_stops_at_incomplete_status_witness :
  ∃ w', cell_27 (Demo.after 9 Cases.E_pending) =
          (Raise (KeyError "RuleEvaluationJobArn"), w') ∧
        log w' = log (Demo.after 9 Cases.E_pending).
Proof.
  destruct (verdict_projection_stops_at_incomplete_status
              (Demo.after 9 Cases.E_pending) 4
              (Demo.dict_at 4 (Demo.after 9 Cases.E_pending)) 3 [1] 2 []
              (Demo.dict_at 2 (Demo.after 9 Cases.E_pending)))
    as (w' & Hrun & _ & _ & _ & _ & Hlog).
  - vm_compute. reflexivity.
  - vm_compute. reflexivity.
  - vm_compute. reflexivity.
  - vm_compute. reflexivity.
  - apply NoDup_cons. split; [|apply NoDup_singleton].
    intros H. apply list_elem_of_singleton in H. discriminate H.
  - intros l' Hl'. apply list_elem_of_singleton in Hl' as ->.
    exists (Demo.dict_at 1 (Demo.after 9 Cases.E_pending)).
    split; [vm_compute; reflexivity|]. split; vm_compute; eexists; reflexivity.
  - vm_compute. reflexivity.
  - intros [_ [v Hv]]. vm_compute in Hv. discriminate Hv.
  - exists w'. split; [exact Hrun | exact Hlog].
Defined.

Lemma verdict_projection_cannot_run_twice_witness :
  ∃ w1 w2, cell_27 (Demo.after 9 Demo.E) = (Ok (), w1) ∧
           cell_27 w1 = (Raise (KeyError "LastModifiedTime"), w2).
Proof.
  destruct (verdict_projection_cannot_run_twice (Demo.after 9 Demo.E) 4
              (Demo.dict_at 4 (Demo.after 9 Demo.E)) 3 1 [2])
    as (w1 & w2 & H1 & H2 & _).
  - vm_compute. reflexivity.
  - vm_compute. reflexivity.
  - vm_compute. reflexivity.
  - vm_compute. reflexivity.
  - apply NoDup_cons. split; [|apply NoDup_singleton].
    intros H. apply list_elem_of_singleton in H. discriminate H.
  - intros l Hl. exists (Demo.dict_at l (Demo.after 9 Demo.E)).
    apply elem_of_cons in Hl as [->|Hl];
      [|apply list_elem_of_singleton in Hl as ->];
      (split; [vm_compute; reflexivity|]); split; vm_compute; eexists; reflexivity.
  - exists w1, w2. split; [exact H1 | exact H2].
Defined.

Lemma verdict_projection_without_statuses_witness :
  cell_27 (Demo.after 9 Demo.E_without_hook) = (Ok (), Demo.after 9 Demo.E_without_hook).
Proof.
  destruct (verdict_projection_without_statuses (Demo.after 9 Demo.E_without_hook) 1
              (Demo.dict_at 1 (Demo.after 9 Demo.E_without_hook)))
    as (_ & _ & Hempty).
  - vm_compute. reflexivity.
  - vm_compute. reflexivity.
  - apply (Hempty 0); vm_compute; reflexivity.
Defined.

Lemma status_cell_needs_a_started_job_witness :
  cell_26 Demo.E (Demo.after 7 Demo.E) =
  (Raise (AttributeError "name"), Demo.after 7 Demo.E).
Proof.
  apply (status_cell_needs_a_started_job Demo.E (Demo.after 6 Demo.E)).
  vm_compute. reflexivity.
Defined.

Lemma stager_can_run_again_witness :
  ∃ w2, dataset_stager Demo.E (Demo.after 2 Demo.E) = (Ok (), w2) ∧
        fs w2 = fs (Demo.after 2 Demo.E).
Proof.
  destruct (stager_can_run_again Demo.E (Demo.after 1 Demo.E) (Demo.after 2 Demo.E))
    as (w2 & Hrun & Hfs & _).
  - vm_compute. reflexivity.
  - exists w2. split; [exact Hrun | exact Hfs].
Defined.

Lemma stager_touches_only_its_paths_witness :
  fs (dataset_stager Demo.E Demo.there).2 !! "backup/training.npz" =
  fs Demo.there !! "backup/training.npz".
Proof.
  destruct (stager_touches_only_its_paths Demo.E Demo.there "backup/training.npz")
    as (Hfs & _).
  - intros H. vm_compute in H.
    repeat (apply elem_of_cons in H as [H|H]; [discriminate H|]).
    by apply elem_of_nil in H.
  - exact Hfs.
Defined.

Lemma stager_is_not_atomic_witness :
  ∃ w', dataset_stager Demo.E Cases.blocked =
          (Raise (IsADirectoryError "./data/validation.npz"), w') ∧
        is_Some (fs w' !! "data/training.npz").
Proof.
  destruct (stager_is_not_atomic Demo.E Cases.blocked
              ((Demo.images 3, Demo.labels 3), (Demo.images 2, Demo.labels 2)))
    as (w' & Hrun & Ht & _).
  - reflexivity.
  - intros c H. vm_compute in H. discriminate H.
  - intros H. vm_compute in H. discriminate H.
  - vm_compute. reflexivity.
  - exists w'. split; [exact Hrun|]. rewrite Ht. by eexists.
Defined.

Lemma uploader_puts_the_staged_archives_witness :
  ∃ w', uploader Demo.E (Demo.after 5 Demo.E) = (Ok (), w') ∧
        ns w' !! "training_input_path" =
          Some (BVal (VStr "s3://sagemaker-us-east-2-demo/keras-fashion-mnist/training/training.npz")).
Proof.
  destruct (uploader_puts_the_staged_archives Demo.E (Demo.after 1 Demo.E)
              (Demo.after 2 Demo.E) (Demo.after 5 Demo.E) Demo.account)
    as (d & w' & _ & Hrun & _ & Ht & _).
  - vm_compute. reflexivity.
  - vm_compute. reflexivity.
  - vm_compute. reflexivity.
  - exists w'. split; [exact Hrun | exact Ht].
Defined.

Lemma job_is_started_on_the_uploaded_archives_witness :
  ∃ s e, log (cell_23 Demo.E (Demo.after 7 Demo.E)).2 =
         log (Demo.after 7 Demo.E) ++
           [(EvFit (channels s), failure (fit_result (fit_ext Demo.E e (channels s))))].
Proof.
  destruct (job_is_started_on_the_uploaded_archives Demo.E (fresh_kernel ∅)
              (Demo.after 7 Demo.E))
    as (s & d & e & H).
  - vm_compute. reflexivity.
  - exists s, e. apply H.
Defined.

Lemma fresh_description_is_projected_witness :
  ∃ w' verdicts,
    run_all [cell_26 Demo.E; cell_27] (Demo.after 8 Demo.E) = (Ok (), w') ∧
    out w' = out (Demo.after 8 Demo.E) ++ verdicts ∧ length verdicts = 2.
Proof.
  destruct (fresh_description_is_projected Demo.E (Demo.after 8 Demo.E)
              Cases.started "job-1"
              [("TrainingJobName", JStr "job-1");
               ("DebugHookConfig",
                JDict [("S3OutputPath", JStr "s3://sagemaker-us-east-2-demo/")])]
              [Demo.rule_status "LossNotDecreasing" "NoIssuesFound" "arn:rule-1" 5;
               Demo.rule_status "Overfit" "IssuesFound" "arn:rule-2" 6] [])
    as (w' & verdicts & Hrun & Hout & Hlen & _).
  - vm_compute. reflexivity.
  - reflexivity.
  - reflexivity.
  - apply not_elem_of_nil.
  - repeat constructor; eexists; (split; [reflexivity|]); split;
      eexists; (split; [vm_compute; reflexivity | reflexivity]).
  - exists w', verdicts. split; [exact Hrun|]. split; [exact Hout | exact Hlen].
Defined.

Lemma errors_are_failed_calls_or_projections_witness :
  (∃ evs ev, log (Demo.after 8 Demo.E_rejected) =
             log (fresh_kernel ∅) ++ evs ++
               [(ev, Some (ExternalError "sagemaker" "ValidationException"))]) ∨
  (∃ w9, run_all (up_to_description Demo.E_rejected) (fresh_kernel ∅) = (Ok (), w9) ∧
         run_all projections w9 =
           (Raise (ExternalError "sagemaker" "ValidationException"),
            Demo.after 8 Demo.E_rejected) ∧
         log (Demo.after 8 Demo.E_rejected) = log w9).
Proof.
  apply (errors_are_failed_calls_or_projections Demo.E_rejected (fresh_kernel ∅)).
  vm_compute. reflexivity.
Defined.

Lemma trial_is_read_from_the_output_path_witness :
  ∃ t l, create_trial_ext Demo.E "s3://sagemaker-us-east-2-demo/job-1/debug-output/" = Ok t ∧
         values_ext Demo.E t "val_loss" = Ok l ∧
         ns (Demo.after 16 Demo.E) !! "loss_values" = Some (BSeries l).
Proof.
  destruct (trial_is_read_from_the_output_path Demo.E (Demo.after 10 Demo.E)
              (Demo.after 16 Demo.E) 4 (Demo.dict_at 4 (Demo.after 10 Demo.E)) 0
              (Demo.dict_at 0 (Demo.after 10 Demo.E))
              "s3://sagemaker-us-east-2-demo/" "job-1")
    as (o & t & names & l & _ & Ht & _ & _ & Hl & Hns & _).
  1-7: vm_compute; reflexivity.
  exists t, l. split; [exact Ht|]. split; [exact Hl | exact Hns].
Defined.

Lemma objects_are_only_added_outside_the_projection_witness :
  heap (cell_26 Demo.E (Demo.after 10 Demo.E)).2 !! 1 =
  Some (ODict (Demo.dict_at 1 (Demo.after 10 Demo.E))).
Proof.
  eapply lookup_weaken;
    [|apply (objects_are_only_added_outside_the_projection Demo.E 8 (cell_26 Demo.E));
      [reflexivity | lia]].
  vm_compute. reflexivity.
Defined.
